(** * robotpy_build.wrapper: dependency resolution, artifact download and
    binding generation

    A shallow embedding of [robotpy_build/wrapper.py] (class [Wrapper]) and the
    properties its design document states about it.

    Python values are modelled as follows: [str] is [string], a list is a
    [list], a dict that is only looked up is a [gmap], a dict that is iterated
    is an association list in insertion order, [None]-able fields are
    [option]s, and an exception is the [Err] branch of [result].  Code that
    touches the file system, the network or shared objects runs in the state
    monad [M] over a [World]. *)

From Stdlib Require Import Ascii.
From stdpp Require Import gmap strings list fin_maps.

(** ** Python strings *)

Module Str.

Definition nl : string := String "010"%char "".
Definition dq : string := String "034"%char "".

(** [bool(s)] for a string. *)
Definition truthy (s : string) : bool :=
  match s with "" => false | _ => true end.

(** [s.startswith(p)]. *)
Definition startswith (p s : string) : bool := String.prefix p s.

(** [s.endswith(c)] for a one-character [c]. *)
Fixpoint endswith_char (c : ascii) (s : string) : bool :=
  match s with
  | "" => false
  | String a "" => bool_decide (a = c)
  | String _ s' => endswith_char c s'
  end.

(** [c in s] for a one-character [c], negated. *)
Fixpoint lacks (c : ascii) (s : string) : bool :=
  match s with
  | "" => true
  | String a s' => negb (bool_decide (a = c)) && lacks c s'
  end.

(** [sep.join(l)]. *)
Definition join (sep : string) (l : list string) : string :=
  String.concat sep l.

(** [s.split(c)] for a one-character separator [c]. *)
Fixpoint split (c : ascii) (s : string) : list string :=
  match s with
  | "" => [""]
  | String a s' =>
      if bool_decide (a = c) then "" :: split c s'
      else match split c s' with
           | h :: t => String a h :: t
           | [] => [String a ""]
           end
  end.

(** [s.replace(old, new)] for a non-empty [old]: occurrences are found left
    to right and do not overlap.  [skip] counts the characters of a matched
    occurrence that are still to be dropped. *)
Fixpoint replace_go (old new : string) (skip : nat) (s : string) : string :=
  match s with
  | "" => ""
  | String a s' =>
      match skip with
      | S k => replace_go old new k s'
      | O =>
          if String.prefix old s
          then new +:+ replace_go old new (String.length old - 1) s'
          else String a (replace_go old new 0 s')
      end
  end.

(** With an empty [old] Python puts [new] before every character and at
    the end. *)
Fixpoint intersperse (new s : string) : string :=
  match s with
  | "" => new
  | String a s' => new +:+ String a (intersperse new s')
  end.

Definition replace (old new s : string) : string :=
  match old with
  | "" => intersperse new s
  | _ => replace_go old new 0 s
  end.

(** [c.isspace()] for an ASCII character: tab, line feed, vertical tab,
    form feed, carriage return, the four separators and the space. *)
Definition is_space (c : ascii) : bool :=
  match c with
  | "009" | "010" | "011" | "012" | "013"
  | "028" | "029" | "030" | "031" | " " => true
  | _ => false
  end%char.

(** [s.lstrip()]: drops leading white space. *)
Fixpoint lstrip (s : string) : string :=
  match s with
  | "" => ""
  | String a s' => if is_space a then lstrip s' else s
  end.

(** [s[n:]]. *)
Fixpoint drop (n : nat) (s : string) : string :=
  match n, s with
  | O, _ => s
  | S _, "" => ""
  | S k, String _ s' => drop k s'
  end.

(** [s.expandtabs()]: a tab becomes spaces up to the next multiple of 8;
    the column restarts after a line feed or carriage return. *)
Fixpoint spaces (n : nat) : string :=
  match n with O => "" | S k => String " " (spaces k) end.

Fixpoint expandtabs_go (col : nat) (s : string) : string :=
  match s with
  | "" => ""
  | String a s' =>
      if bool_decide (a = "009"%char) then
        let n := 8 - col `mod` 8 in
        spaces n +:+ expandtabs_go (col + n) s'
      else if bool_decide (a = "010"%char) || bool_decide (a = "013"%char) then
        String a (expandtabs_go 0 s')
      else String a (expandtabs_go (S col) s')
  end.

Definition expandtabs : string → string := expandtabs_go 0.

(** [inspect.cleandoc(doc)]. *)
Definition indent_of (line : string) : option nat :=
  let content := String.length (lstrip line) in
  if bool_decide (content = 0) then None
  else Some (String.length line - content).

Definition min_margin (m : option nat) (line : string) : option nat :=
  match indent_of line, m with
  | None, _ => m
  | Some i, None => Some i
  | Some i, Some k => Some (i `min` k)
  end.

Fixpoint drop_blank (l : list string) : list string :=
  match l with
  | "" :: l' => drop_blank l'
  | _ => l
  end.

Definition cleandoc (doc : string) : string :=
  match split "010" (expandtabs doc) with
  | [] => ""
  | first :: rest =>
      let margin := foldl min_margin None rest in
      let rest' :=
        match margin with
        | Some k => drop k <$> rest
        | None => rest
        end in
      let lines := lstrip first :: rest' in
      let lines := reverse (drop_blank (reverse lines)) in
      join nl (drop_blank lines)
  end.

End Str.

(** ** [os.path] (POSIX flavour) *)

Module Path.

Definition sep : string := "/".

(** One step of [posixpath.join]: an absolute component replaces what was
    collected so far. *)
Definition join2 (path b : string) : string :=
  if Str.startswith sep b then b
  else if negb (Str.truthy path) || Str.endswith_char "/" path then path +:+ b
  else path +:+ sep +:+ b.

(** [join(a, *p)]. *)
Definition join (a : string) (p : list string) : string := foldl join2 a p.

End Path.

(** ** Exceptions and results *)

Inductive exn : Type :=
  | ValueError (msg : string)
  | AttributeError (msg : string)
  | NotFound (pkg : string)
  | FileExistsError (path : string)
  | FileNotFoundError (path : string)
  | NotADirectoryError (path : string)
  | IsADirectoryError (path : string)
  | FetchError (url : string)
  | ArchiveError (url member : string)
  | DataError (msg : string)
  | GenerationError (header msg : string).

Inductive result (A : Type) : Type :=
  | Ok (a : A)
  | Err (e : exn).
Arguments Ok {A} a.
Arguments Err {A} e.

Global Instance result_ret : MRet result := λ A a, Ok a.
Global Instance result_bind : MBind result := λ A B f r,
  match r with
  | Ok a => f a
  | Err e => Err e
  end.

(** A [for] loop that threads the variables it assigns ([acc]) and stops at
    the first exception; it is used both for pure code that may raise and
    for code that performs I/O. *)
Fixpoint for_each {m : Type → Type} `{!MRet m, !MBind m} {A S : Type}
    (l : list A) (body : S → A → m S) (acc : S) : m S :=
  match l with
  | [] => mret acc
  | x :: l' => acc' ← body acc x; for_each l' body acc'
  end.

(** ** Data model *)

(** What the registry holds for a package: the object whose
    [get_include_dirs()], [get_library_dirs()], [get_library_names()] and
    [import_name] the wrapper consults. *)
Module PkgCfg.
Record t : Type := mk {
  import_name : option string;
  get_include_dirs : list string;
  get_library_dirs : list string;
  get_library_names : list string;
}.
End PkgCfg.

(** The registry behind [self.pkgcfg]: package names to their entries. *)
Module Registry.
Abbreviation t := (gmap string PkgCfg.t).

(** Modelled from the spec: [get_pkg] of the registry object, whose class
    is not part of this file.  The design document gives the interface as
    get_package(name), returning the descriptor of the package and failing
    with NotFound when the registry has no entry of that name. *)
Definition get_pkg (reg : t) (name : string) : result PkgCfg.t :=
  match reg !! name with
  | Some pkg => Ok pkg
  | None => Err (NotFound name)
  end.
End Registry.

Module Platform.
Record t : Type := mk {
  os : string;
  arch : string;
  libprefix : string;
  libext : string;
}.
End Platform.

(** The wrapper section of the project configuration.  Each element of
    [generate] is a dict from module name to header, kept in insertion
    order. *)
Module Config.
Record t : Type := mk {
  name : string;
  artname : option string;
  baseurl : string;
  version : string;
  libs : list string;
  libexts : gmap string string;
  sources : list string;
  depends : list string;
  generate : list (list (string * string));
  generation_data : option string;
  extra_headers : list string;
}.

Definition set_artname (a : option string) (c : t) : t :=
  mk (name c) a (baseurl c) (version c) (libs c) (libexts c) (sources c)
     (depends c) (generate c) (generation_data c) (extra_headers c).
End Config.

(** [setuptools.Extension]: the build descriptor handed to build_ext. *)
Module Extension.
Record t : Type := mk {
  name : string;
  sources : list string;
  include_dirs : list string;
  library_dirs : list string;
  libraries : list string;
  language : option string;
}.

(** [Extension(name, sources, language=...)]. *)
Definition new (name : string) (sources : list string)
    (language : option string) : t :=
  mk name sources [] [] [] language.
End Extension.

(** Truth value of an optional string: [None] and the empty string are
    false. *)
Definition truthy_opt (o : option string) : bool :=
  match o with
  | Some s => Str.truthy s
  | None => false
  end.

(** Truth value of a list. *)
Definition truthy_list {A : Type} (l : list A) : bool :=
  match l with [] => false | _ => true end.

(** [str(x)] of an optional string, as an f-string renders it. *)
Definition py_str (o : option string) : string :=
  match o with
  | Some s => s
  | None => "None"
  end.


(** ** The file system

    Paths are the strings the program builds; a path lies inside a directory
    when it extends the directory's path by a separator and more.  The model
    compares paths as strings, which is exact for the normalised paths the
    program produces from normalised inputs. *)

Inductive node : Type :=
  | File (content : string)
  | Dir.

Global Instance node_eq_dec : EqDecision node.
Proof. solve_decision. Defined.

Module FS.
Abbreviation t := (gmap string node).

Definition inside (d p : string) : bool := String.prefix (d +:+ Path.sep) p.

(** The directories above a path, outermost first: every prefix that ends
    just before a separator (the root and repeated separators name no
    directory of their own). *)
Fixpoint ancestors_go (acc s : string) : list string :=
  match s with
  | "" => []
  | String a s' =>
      let rest := ancestors_go (acc +:+ String a "") s' in
      if bool_decide (a = "/"%char) && Str.truthy acc
         && negb (Str.endswith_char "/" acc)
      then acc :: rest
      else rest
  end.

Definition ancestors (p : string) : list string := ancestors_go "" p.

(** The directory a new entry at [p] is created in, if the path names one. *)
Definition parent (p : string) : option string := last (ancestors p).

(** The elementary changes of the tree.  [Rmtree d] drops everything inside
    [d], and [d] itself when it is a directory ([shutil.rmtree] refuses a
    regular file, and in a well-formed tree nothing lies inside one);
    [Unlink p] drops [p] when it is a regular file. *)
Inductive op : Type :=
  | Put (p : string) (n : node)
  | Rmtree (d : string)
  | Unlink (p : string).

Definition is_file (o : option node) : bool :=
  match o with Some (File _) => true | _ => false end.

Definition is_dir (o : option node) : bool :=
  match o with Some Dir => true | _ => false end.

Definition apply (o : op) (fs : t) : t :=
  match o with
  | Put p n => <[p := n]> fs
  | Rmtree d =>
      filter (λ kv, ¬ (inside d kv.1 ∨ (kv.1 = d ∧ kv.2 = Dir))) fs
  | Unlink p => if is_file (fs !! p) then delete p fs else fs
  end.

Definition apply_all (l : list op) (fs : t) : t := foldl (flip apply) fs l.

(** What [os.makedirs(d)] and the creation of missing parents write. *)
Definition mkdir_ops (dirs : list string) : list op := (λ a, Put a Dir) <$> dirs.

(** The first of [dirs] that is a regular file. *)
Fixpoint blocked (fs : t) (dirs : list string) : option string :=
  match dirs with
  | [] => None
  | a :: dirs' => if is_file (fs !! a) then Some a else blocked fs dirs'
  end.
End FS.

(** An archive of the remote store: member paths and their contents. *)
Abbreviation archive := (list (string * string)).

(** What the program asks of its environment. *)
Inductive event : Type :=
  | EvRmtree (p : string)
  | EvUnlink (p : string)
  | EvMkdir (p : string)
  | EvWrite (p : string)
  | EvRead (p : string)
  | EvDownload (url : string)
  | EvGenerate (headers : list string).

(** The state the program runs in: the file system, the download cache
    (keyed by URL), the [entry_points] value of the shared [setup_kwargs]
    dictionary ([None] while the key is missing) and the log of I/O
    requests, latest first. *)
Record World : Type := mkWorld {
  fs : FS.t;
  cache : gmap string archive;
  entry_points : option (gmap string (list string));
  log : list event;
}.

Definition M (A : Type) : Type := World → result A * World.

Global Instance M_ret : MRet M := λ A a s, (Ok a, s).
Global Instance M_bind : MBind M := λ A B f m s,
  match m s with
  | (Ok a, s') => f a s'
  | (Err e, s') => (Err e, s')
  end.

Definition raise {A : Type} (e : exn) : M A := λ s, (Err e, s).

(** A pure computation that may raise. *)
Definition lift {A : Type} (r : result A) : M A := λ s, (r, s).

Definition trace (ev : event) : M unit := λ s,
  (Ok (), mkWorld (fs s) (cache s) (entry_points s) (ev :: log s)).

Definition get_fs : M FS.t := λ s, (Ok (fs s), s).

Definition change (o : FS.op) : M unit := λ s,
  (Ok (), mkWorld (FS.apply o (fs s)) (cache s) (entry_points s) (log s)).

Definition change_all (l : list FS.op) : M unit := λ s,
  (Ok (), mkWorld (FS.apply_all l (fs s)) (cache s) (entry_points s) (log s)).

(** [try: m except OSError: pass].  Every file-system exception of [exn]
    is an [OSError]. *)
Definition is_OSError (e : exn) : bool :=
  match e with
  | FileExistsError _ | FileNotFoundError _ | NotADirectoryError _
  | IsADirectoryError _ => true
  | _ => false
  end.

Definition ignore_OSError (m : M unit) : M unit := λ s,
  match m s with
  | (Err e, s') => if is_OSError e then (Ok (), s') else (Err e, s')
  | (Ok a, s') => (Ok a, s')
  end.

(** ** [os] and [shutil] *)

Module Os.

(** [shutil.rmtree(d, ignore_errors=True)]. *)
Definition rmtree (d : string) : M unit :=
  trace (EvRmtree d);; change (FS.Rmtree d).

(** [os.unlink(p)]. *)
Definition unlink (p : string) : M unit :=
  trace (EvUnlink p);;
  fs ← get_fs;
  match fs !! p with
  | Some (File _) => change (FS.Unlink p)
  | Some Dir => raise (IsADirectoryError p)
  | None => raise (FileNotFoundError p)
  end.

(** Creates the missing directories among [dirs]; a regular file in the way
    is an error. *)
Definition ensure_dirs (dirs : list string) : M unit :=
  for_each dirs (λ _ a, trace (EvMkdir a)) ();;
  fs ← get_fs;
  match FS.blocked fs dirs with
  | Some a => raise (NotADirectoryError a)
  | None => change_all (FS.mkdir_ops dirs)
  end.

(** [os.makedirs(d)]: creates [d] and the missing directories above it;
    [d] must not exist. *)
Definition makedirs (d : string) : M unit :=
  trace (EvMkdir d);;
  fs ← get_fs;
  match fs !! d with
  | Some _ => raise (FileExistsError d)
  | None => ensure_dirs (FS.ancestors d);; change (FS.Put d Dir)
  end.

(** [with open(p, "w") as fp: fp.write(content)]: the directory of [p]
    must exist and [p] must not be a directory.  The directory of [p] is
    the path up to its last separator, taken as it is written: components
    [.] and [..] are not resolved, so the definition stands for [open] on
    paths without such components. *)
Definition write_file (p content : string) : M unit :=
  trace (EvWrite p);;
  fs ← get_fs;
  match fs !! p with
  | Some Dir => raise (IsADirectoryError p)
  | _ =>
      match FS.parent p with
      | None => change (FS.Put p (File content))
      | Some d =>
          match fs !! d with
          | Some Dir => change (FS.Put p (File content))
          | Some (File _) => raise (NotADirectoryError p)
          | None => raise (FileNotFoundError p)
          end
      end
  end.

(** [with open(p) as fp: fp.read()]. *)
Definition read_file (p : string) : M string :=
  trace (EvRead p);;
  fs ← get_fs;
  match fs !! p with
  | Some (File c) => mret c
  | Some Dir => raise (IsADirectoryError p)
  | None => raise (FileNotFoundError p)
  end.

End Os.

(** ** Collaborators outside this file *)

(** The configuration dictionary handed to header2whatever, after
    [Config(cfgd)] and [cfg.root = incdir]. *)
Module H2w.
Record config : Type := mk {
  headers : list string;
  templates : list (string * string);
  hooks : string;
  preprocess : bool;
  pp_include_paths : list string;
  vars : list (string * string);
  root : string;
}.
End H2w.

(** Library functions the program calls and whose results it only passes
    on: the remote archive store, [os.path.normpath] and [relpath], the
    directory this module is installed in, the YAML loader, the validating
    constructor of the hook data, and the code generator, which reads the
    header and everything it includes from the file system and returns the
    text of one rendered template. *)
Module Tools.
Record t : Type := mk {
  yaml : Type;
  hooks_data : Type;
  remote : string → option archive;
  normpath : string → string;
  relpath : string → string → string;
  thisdir : string;
  empty_dict : yaml;
  safe_load : string → result yaml;
  HooksDataYaml : yaml → result hooks_data;
  render : H2w.config → string → hooks_data → FS.t → result string;
}.
End Tools.

(** Modelled from the spec: [process_config(cfg, data)] of the
    header2whatever library.  The design document gives the code generator
    as a black box that takes a header, the include paths, a template and the
    data and emits the text of a source file; here every template of the
    configuration is rendered and written to its destination. *)
Definition process_config (T : Tools.t) (cfg : H2w.config)
    (data : Tools.hooks_data T) : M unit :=
  trace (EvGenerate (H2w.headers cfg));;
  for_each (H2w.templates cfg) (λ _ tmpl,
    fs ← get_fs;
    text ← lift (Tools.render T cfg tmpl.1 data fs);
    Os.write_file tmpl.2 text) ().

(** Where an archive is extracted to: a directory that receives the whole
    tree, or a dict from member paths to destination files. *)
Inductive extract_to : Type :=
  | ToDir (dst : string)
  | ToMap (to : list (string * string)).

(** [d[k] = v] on a dict kept in insertion order. *)
Fixpoint dict_set (k v : string) (d : list (string * string))
    : list (string * string) :=
  match d with
  | [] => [(k, v)]
  | (k', v') :: d' =>
      if bool_decide (k' = k) then (k, v) :: d' else (k', v') :: dict_set k v d'
  end.

(** [{k: v for ...}] from the pairs in the order they are produced. *)
Definition dict_of (kvs : list (string * string)) : list (string * string) :=
  foldl (λ d kv, dict_set kv.1 kv.2 d) [] kvs.

Fixpoint dict_get (k : string) (d : list (string * string)) : option string :=
  match d with
  | [] => None
  | (k', v) :: d' => if bool_decide (k' = k) then Some v else dict_get k d'
  end.

(** The module [download], which is not part of this file. *)
Module Download.

(** Modelled from the spec: the download of an archive, with caching keyed
    by URL; a URL the remote store does not serve is a fatal fetch error. *)
Definition fetch (T : Tools.t) (url : string) : M archive := λ s,
  match cache s !! url with
  | Some a => (Ok a, s)
  | None =>
      let s := mkWorld (fs s) (cache s) (entry_points s)
                 (EvDownload url :: log s) in
      match Tools.remote T url with
      | Some a =>
          (Ok a, mkWorld (fs s) (<[url := a]> (cache s)) (entry_points s) (log s))
      | None => (Err (FetchError url), s)
      end
  end.

(** Modelled from the spec: the extraction of the whole archive tree into
    a destination directory.  One member goes to its place under [dst];
    the directories on the way are created. *)
Definition extract_member (dst : string) (member : string * string) : M unit :=
  let p := dst +:+ Path.sep +:+ member.1 in
  Os.ensure_dirs (FS.ancestors p);;
  Os.write_file p member.2.

(** Modelled from the spec: the extraction of one entry of a mapping of
    archive-internal paths to destination file paths; a path the archive
    lacks is a fatal archive error. *)
Definition extract_file (url : string) (a : archive) (entry : string * string)
    : M unit :=
  match dict_get entry.1 a with
  | Some content => Os.write_file entry.2 content
  | None => raise (ArchiveError url entry.1)
  end.

(** Modelled from the spec: [download_and_extract_zip(url, to, cache)].
    The design document describes it as: download the archive, with
    caching keyed by URL, and extract it, either the whole archive tree
    into a destination directory or only a given mapping of
    archive-internal paths to destination file paths. *)
Definition download_and_extract_zip (T : Tools.t) (url : string)
    (to : extract_to) (cache : string) : M unit :=
  a ← fetch T url;
  match to with
  | ToDir dst => for_each a (λ _ member, extract_member dst member) ()
  | ToMap to => for_each to (λ _ entry, extract_file url a entry) ()
  end.

End Download.

(** ** The class [Wrapper] *)

(** The part of the [setup] object the constructor reads; its
    [setup_kwargs] dictionary is shared and lives in the [World]. *)
Module Setup.
Record t : Type := mk {
  root : string;
  platform : Platform.t;
  pkgcfg : Registry.t;
}.
End Setup.

Module Wrapper.

Record t : Type := mk {
  name : string;
  import_name : string;
  setup_root : string;
  root : string;
  cfg : Config.t;
  platform : Platform.t;
  pkgcfg : Registry.t;
  extension : option Extension.t;
}.

Definition set_extension (e : Extension.t) (self : t) : t :=
  mk (name self) (import_name self) (setup_root self) (root self) (cfg self)
     (platform self) (pkgcfg self) (Some e).

(** [ep = setup_kwargs.setdefault("entry_points", {})] followed by
    [ep.setdefault("robotpybuild", []).append(entry_point)]. *)
Definition add_entry_point (entry_point : string) : M unit := λ s,
  let ep := default ∅ (entry_points s) in
  let l := default [] (ep !! "robotpybuild") in
  (Ok (), mkWorld (fs s) (cache s)
            (Some (<["robotpybuild" := l ++ [entry_point]]> ep)) (log s)).

(** [Wrapper(name, wrapcfg, setup)].  The assignment to [cfg.artname]
    changes the configuration object the wrapper keeps. *)
Definition __init__ (name : string) (wrapcfg : Config.t) (setup : Setup.t)
    : M t :=
  let self_name := Config.name wrapcfg in
  let import_name := name in
  let setup_root := Setup.root setup in
  let root := Path.join (Setup.root setup) (Str.split "." import_name) in
  let cfg :=
    if negb (truthy_opt (Config.artname wrapcfg))
    then Config.set_artname (Some (Config.name wrapcfg)) wrapcfg
    else wrapcfg in
  let extension :=
    if truthy_list (Config.sources cfg) || truthy_list (Config.generate cfg)
    then
      let extname := import_name +:+ "." +:+ self_name in
      Some (Extension.new extname (Config.sources cfg) (Some "c++"))
    else None in
  if truthy_list (Config.generate cfg)
     && negb (truthy_opt (Config.generation_data cfg))
  then
    raise (ValueError
             "generation_data must be specified when generate is specified")
  else
    let entry_point := Config.name cfg +:+ " = " +:+ name +:+ ".pkgcfg" in
    add_entry_point entry_point;;
    mret (mk self_name import_name setup_root root cfg (Setup.platform setup)
             (Setup.pkgcfg setup) extension).

Definition _dl_url (self : t) (thing : string) : string :=
  let base := Config.baseurl (cfg self) in
  let art := py_str (Config.artname (cfg self)) in
  let ver := Config.version (cfg self) in
  base +:+ "/" +:+ art +:+ "/" +:+ ver +:+ "/"
    +:+ art +:+ "-" +:+ ver +:+ "-" +:+ thing +:+ ".zip".

Definition _extract_zip_to (T : Tools.t) (self : t) (thing : string)
    (dst : extract_to) (cache : string) : M unit :=
  Download.download_and_extract_zip T (_dl_url self thing) dst cache.

(** The pkgcfg interface. *)
Definition get_include_dirs (self : t) : list string :=
  [Path.join (root self) ["include"]].

Definition get_library_dirs (self : t) : list string :=
  [Path.join (root self) ["lib"]].

Definition get_library_names (self : t) : list string :=
  [Config.name (cfg self)].

Definition _all_includes (self : t) (include_rpyb : bool)
    : result (list string) :=
  let includes := get_include_dirs self in
  includes ← for_each (Config.depends (cfg self)) (λ includes dep,
    pkg ← Registry.get_pkg (pkgcfg self) dep;
    mret (includes ++ PkgCfg.get_include_dirs pkg)) includes;
  if include_rpyb then
    pkg ← Registry.get_pkg (pkgcfg self) "robotpy-build";
    mret (includes ++ PkgCfg.get_include_dirs pkg)
  else mret includes.

Definition _all_library_dirs (self : t) : result (list string) :=
  let libs := get_library_dirs self in
  for_each (Config.depends (cfg self)) (λ libs dep,
    pkg ← Registry.get_pkg (pkgcfg self) dep;
    mret (libs ++ PkgCfg.get_library_dirs pkg)) libs.

Definition _all_library_names (self : t) : result (list string) :=
  let libs := get_library_names self in
  libs ← for_each (Config.depends (cfg self)) (λ libs dep,
    pkg ← Registry.get_pkg (pkgcfg self) dep;
    mret (libs ++ PkgCfg.get_library_names pkg)) libs;
  mret (reverse libs).

(** The text handed to [inspect.cleandoc] in [_write_init_py], line by
    line. *)
Definition init_py_doc : string :=
  Str.join Str.nl [
    "";
    "";
    "        # fmt: off";
    "        # This file is automatically generated, DO NOT EDIT";
    "";
    "        from os.path import abspath, join, dirname";
    "        _root = abspath(dirname(__file__))";
    "";
    "        ##IMPORTS##";
    "";
    "        from ctypes import cdll";
    "";
    "        "
  ].

Definition _write_init_py (self : t) (fname : string) (libnames : list string)
    : M unit :=
  let init := Str.cleandoc init_py_doc in
  let init := init +:+ Str.nl in
  let init :=
    foldl (λ init libname,
      init +:+ "_lib = cdll.LoadLibrary(join(_root, " +:+ Str.dq +:+ "lib"
        +:+ Str.dq +:+ ", " +:+ Str.dq +:+ libname +:+ Str.dq +:+ "))"
        +:+ Str.nl) init libnames in
  imports ← lift (for_each (Config.depends (cfg self)) (λ imports dep,
    pkg ← Registry.get_pkg (pkgcfg self) dep;
    if truthy_opt (PkgCfg.import_name pkg)
    then mret (imports ++ [py_str (PkgCfg.import_name pkg)])
    else mret imports) []);
  let imports :=
    if truthy_list imports
    then "# runtime dependencies" +:+ Str.nl +:+ "import "
           +:+ Str.join (Str.nl +:+ "import ") imports
    else "" in
  let init := Str.replace "##IMPORTS##" imports init in
  Os.write_file (Path.join (root self) ["__init__.py"]) init.

(** The f-string handed to [inspect.cleandoc] in [_write_pkgcfg_py], line
    by line, with its two fields filled in. *)
Definition pkgcfg_py_doc (import_name cfg_name : string) : string :=
  Str.join Str.nl [
    "";
    "        # fmt: off";
    "        # This file is automatically generated, DO NOT EDIT";
    "";
    "        from os.path import abspath, join, dirname";
    "        _root = abspath(dirname(__file__))";
    "";
    "        import_name = " +:+ Str.dq +:+ import_name +:+ Str.dq;
    "";
    "        def get_include_dirs():";
    "            return [join(_root, " +:+ Str.dq +:+ "include" +:+ Str.dq
      +:+ ")##EXTRAINCLUDES##]";
    "";
    "        def get_library_dirs():";
    "            return [join(_root, " +:+ Str.dq +:+ "lib" +:+ Str.dq +:+ ")]";
    "        ";
    "        def get_library_names():";
    "            return [" +:+ Str.dq +:+ cfg_name +:+ Str.dq +:+ "]";
    "        "
  ].

Definition _write_pkgcfg_py (T : Tools.t) (self : t) (fname : string) : M unit :=
  let pkgcfg := Str.cleandoc (pkgcfg_py_doc (import_name self) (Config.name (cfg self))) in
  let extraincludes :=
    if truthy_list (Config.extra_headers (cfg self)) then
      let pth :=
        match Str.split "." (import_name self) with
        | a :: p => Path.join a p
        | [] => ""
        end in
      foldl (λ extraincludes h,
        let h := Str.join (Str.dq +:+ ", " +:+ Str.dq)
                   (Str.split "/" (Tools.relpath T (Tools.normpath T h) pth)) in
        extraincludes +:+ ", join(_root, " +:+ Str.dq +:+ h +:+ Str.dq +:+ ")")
        "" (Config.extra_headers (cfg self))
    else "" in
  let pkgcfg := Str.replace "##EXTRAINCLUDES##" extraincludes pkgcfg in
  Os.write_file fname pkgcfg.

Definition on_build_dl (T : Tools.t) (self : t) (cache : string) : M unit :=
  let libdir := Path.join (root self) ["lib"] in
  let incdir := Path.join (root self) ["include"] in
  let initpy := Path.join (root self) ["__init__.py"] in
  let pkgcfgpy := Path.join (root self) ["pkgcfg.py"] in
  Os.rmtree libdir;;
  Os.rmtree incdir;;
  ignore_OSError (Os.unlink initpy);;
  ignore_OSError (Os.unlink pkgcfgpy);;
  _extract_zip_to T self "headers" (ToDir incdir) cache;;
  let libnames := Config.libs (cfg self) in
  let libnames :=
    if negb (truthy_list libnames) then [Config.name (cfg self)] else libnames in
  let libext :=
    default (Platform.libext (platform self))
      (Config.libexts (cfg self) !! Platform.libext (platform self)) in
  let libnames :=
    (λ lib, Platform.libprefix (platform self) +:+ lib +:+ libext) <$> libnames in
  Os.makedirs libdir;;
  let to :=
    dict_of ((λ libname,
      (Path.join (Platform.os (platform self))
         [Platform.arch (platform self); "shared"; libname],
       Path.join libdir [libname])) <$> libnames) in
  _extract_zip_to T self
    (Platform.os (platform self) +:+ Platform.arch (platform self))
    (ToMap to) cache;;
  _write_init_py self initpy libnames;;
  _write_pkgcfg_py T self pkgcfgpy.

(** The text handed to [inspect.cleandoc] in [_write_module_inl], line by
    line. *)
Definition module_hpp_doc : string :=
  Str.join Str.nl [
    "";
    "";
    "        // This file is autogenerated, DO NOT EDIT";
    "        #include <pybind11/pybind11.h>";
    "        namespace py = pybind11;";
    "";
    "        // forward declarations";
    "        ##DECLS##";
    "";
    "        static void initWrapper(py::module &m) {";
    "        ##CALLS##";
    "        }";
    "        ";
    "        "
  ].

Definition decl_of (name : string) : string :=
  "void init_" +:+ name +:+ "(py::module &m);".

Definition call_of (name : string) : string :=
  "    init_" +:+ name +:+ "(m);".

(** The two lists the loops of [_write_module_inl] build. *)
Definition module_decls_calls (self : t) : list string * list string :=
  foldl (λ acc gen,
    foldl (λ acc item,
      (acc.1 ++ [decl_of item.1], acc.2 ++ [call_of item.1])) acc gen)
    ([], []) (Config.generate (cfg self)).

Definition module_hpp_content (self : t) : string :=
  let dc := module_decls_calls self in
  Str.replace "##CALLS##" (Str.join Str.nl dc.2)
    (Str.replace "##DECLS##" (Str.join Str.nl dc.1)
       (Str.cleandoc module_hpp_doc)).

Definition _write_module_inl (self : t) (outdir : string) : M unit :=
  Os.write_file (Path.join outdir ["module.hpp"]) (module_hpp_content self).

(** What the body of the generation loop does for one manifest item. *)
Definition generate_one (T : Tools.t) (self : t) (incdir outdir hooks cpp_tmpl : string)
    (pp_includes : list string) (data : Tools.hooks_data T)
    (sources : list string) (item : string * string) : M (list string) :=
  let name := item.1 in
  let header := item.2 in
  let dst := Path.join outdir [name +:+ ".cpp"] in
  let sources := sources ++ [dst] in
  let cfg :=
    H2w.mk [Path.join incdir [Tools.normpath T header]] [(cpp_tmpl, dst)]
      hooks true pp_includes [("mod_fn", name)] incdir in
  process_config T cfg data;;
  mret sources.

(** The assignments to the attributes of [self.extension] are modelled by
    the wrapper that is returned; an exception raised between two of them
    leaves the extension partly updated in the source, which the model
    does not show. *)
Definition on_build_gen (T : Tools.t) (self : t) : M t :=
  if negb (truthy_list (Config.generate (cfg self))) then mret self
  else
    let thisdir := Tools.thisdir T in
    let incdir := Path.join (root self) ["include"] in
    let outdir := Path.join (root self) ["gensrc"] in
    let hooks := Path.join thisdir ["hooks.py"] in
    let cpp_tmpl := Path.join thisdir ["templates"; "gen_pybind11.cpp.j2"] in
    pp_includes ← lift (_all_includes self false);
    Os.rmtree outdir;;
    Os.makedirs outdir;;
    data ←
      (if truthy_opt (Config.generation_data (cfg self)) then
         let datafile :=
           Path.join (setup_root self)
             [Tools.normpath T (py_str (Config.generation_data (cfg self)))] in
         text ← Os.read_file datafile;
         lift (Tools.safe_load T text)
       else mret (Tools.empty_dict T));
    data ← lift (Tools.HooksDataYaml T data);
    let sources := Config.sources (cfg self) in
    sources ← for_each (Config.generate (cfg self)) (λ sources gen,
      for_each gen
        (generate_one T self incdir outdir hooks cpp_tmpl pp_includes data)
        sources) sources;
    _write_module_inl self outdir;;
    ext ← match extension self with
          | Some ext => mret ext
          | None =>
              raise (AttributeError
                       "'NoneType' object has no attribute 'sources'")
          end;
    include_dirs ← lift (_all_includes self true);
    library_dirs ← lift (_all_library_dirs self);
    libraries ← lift (_all_library_names self);
    mret (set_extension
            (Extension.mk (Extension.name ext) sources include_dirs
               library_dirs libraries (Extension.language ext))
            self).

End Wrapper.


(** ** Notions used to state the properties *)

(** One run of the two build steps of a wrapper, in the order the build
    commands call them: the download step, then the generation step. *)
Definition build (T : Tools.t) (self : Wrapper.t) (cache : string)
    : M Wrapper.t :=
  Wrapper.on_build_dl T self cache;;
  Wrapper.on_build_gen T self.

(** The module names of the generation manifest, in manifest order. *)
Definition module_names (self : Wrapper.t) : list string :=
  fst <$> concat (Config.generate (Wrapper.cfg self)).

(** The fixed text of [module.hpp]: before the forward declarations,
    between the declarations and the calls (it opens the one initializer
    function), and after the calls (it closes that function). *)
Definition hpp_pre : string :=
  "// This file is autogenerated, DO NOT EDIT
#include <pybind11/pybind11.h>
namespace py = pybind11;

// forward declarations
".

Definition hpp_mid : string := "

static void initWrapper(py::module &m) {
".

Definition hpp_post : string := "
}".

(** The lines of a text. *)
Definition lines (s : string) : list string := Str.split "010" s.

Definition is_decl_line (l : string) : bool := Str.startswith "void init_" l.

Definition is_call_line (l : string) : bool := Str.startswith "    init_" l.

(** A module name that can stand in the generated text: it has no line
    feed and no number sign, the character of the template's placeholders. *)
Definition plain_name (n : string) : Prop :=
  Str.lacks "#" n = true ∧ Str.lacks "010" n = true.

(** How often a line occurs in a list of lines. *)
Definition occurrences (x : string) (l : list string) : nat :=
  length (filter (λ y, y = x) l).

(** The fixed lines of [module.hpp] above the forward declarations. *)
Definition hpp_head_lines : list string :=
  [ "// This file is autogenerated, DO NOT EDIT";
    "#include <pybind11/pybind11.h>";
    "namespace py = pybind11;";
    "";
    "// forward declarations" ].

(** The line that opens the one initializer function. *)
Definition hpp_init_line : string := "static void initWrapper(py::module &m) {".

(** The paths of the generated sources, in manifest order, and of the
    aggregator. *)
Definition outdir_of (self : Wrapper.t) : string :=
  Path.join (Wrapper.root self) ["gensrc"].

Definition gen_source (self : Wrapper.t) (name : string) : string :=
  Path.join (outdir_of self) [name +:+ ".cpp"].

Definition gen_sources (self : Wrapper.t) : list string :=
  gen_source self <$> module_names self.

Definition module_hpp (self : Wrapper.t) : string :=
  Path.join (outdir_of self) ["module.hpp"].

(** A name that [join] appends to a directory: it does not start with the
    path separator. *)
Definition relative_name (n : string) : Prop := Str.startswith "/" n = false.

(** A module name that is the stem of a file name: it holds no path
    separator, so that the generated source named after it is an entry of
    the output directory itself. *)
Definition stem_name (n : string) : Prop := Str.lacks "/" n = true.

(** A path was written by the requests [l]. *)
Definition written (l : list event) (p : string) : Prop :=
  EvWrite p ∈ l ∨ EvMkdir p ∈ l.

(** ** Concrete packages

    The packages of the design document's scenarios, used to instantiate the
    properties. *)

Definition wpiutil_pkg : PkgCfg.t :=
  PkgCfg.mk (Some "wpiutil") ["/site/wpiutil/include"] ["/site/wpiutil/lib"]
    ["wpiutil"].

Definition wpimath_cfg : Config.t :=
  Config.mk "wpimath" (Some "wpimath") "https://example.org/maven" "2020.1.1"
    [] ∅ [] ["wpiutil"] [] None [].

Definition wpimath : Wrapper.t :=
  Wrapper.mk "wpimath" "wpimath" "/proj" "/proj/wpimath" wpimath_cfg
    (Platform.mk "linux" "x86-64" "lib" ".so")
    {[ "wpiutil" := wpiutil_pkg ]} None.

Definition rpyb_pkg : PkgCfg.t :=
  PkgCfg.mk (Some "robotpy_build") ["/site/robotpy_build/include"] [] [].

Definition wpimath_full : Wrapper.t :=
  Wrapper.mk "wpimath" "wpimath" "/proj" "/proj/wpimath" wpimath_cfg
    (Platform.mk "linux" "x86-64" "lib" ".so")
    {[ "wpiutil" := wpiutil_pkg; "robotpy-build" := rpyb_pkg ]} None.

Definition wpimath_alone : Wrapper.t :=
  Wrapper.mk "wpimath" "wpimath" "/proj" "/proj/wpimath" wpimath_cfg
    (Platform.mk "linux" "x86-64" "lib" ".so") ∅ None.

Definition wpiutil_cfg_no_data : Config.t :=
  Config.mk "wpiutil" None "https://example.org/maven" "2020.1.1"
    [] ∅ [] [] [[("wpiutil", "wpi/StringRef.h")]] None [].

Definition setup_proj : Setup.t :=
  Setup.mk "/proj" (Platform.mk "linux" "x86-64" "lib" ".so") ∅.

Definition empty_world : World := mkWorld ∅ ∅ None [].

Definition linux : Platform.t := Platform.mk "linux" "x86-64" "lib" ".so".

(** A package with one generation entry, as in the design document's
    scenario, and an environment in which its build succeeds. *)
Definition wpiutil_cfg : Config.t :=
  Config.mk "wpiutil" (Some "wpiutil") "https://example.org/maven" "2020.1.1"
    [] ∅ [] [] [[("wpiutil", "wpi/StringRef.h")]] (Some "gen/wpiutil.yml") [].

Definition wpiutil : Wrapper.t :=
  Wrapper.mk "wpiutil" "wpiutil" "/proj" "/proj/wpiutil" wpiutil_cfg linux
    {[ "robotpy-build" := rpyb_pkg ]}
    (Some (Extension.new "wpiutil.wpiutil" [] (Some "c++"))).

Definition demo_remote (url : string) : option archive :=
  if bool_decide
       (url = "https://example.org/maven/wpiutil/2020.1.1/wpiutil-2020.1.1-headers.zip")
  then Some [("wpi/StringRef.h", "class StringRef;")]
  else if bool_decide
       (url = "https://example.org/maven/wpiutil/2020.1.1/wpiutil-2020.1.1-linuxx86-64.zip")
  then Some [("linux/x86-64/shared/libwpiutil.so", "ELF")]
  else None.

Definition demo_tools : Tools.t :=
  Tools.mk string string demo_remote (λ p, p) (λ p _, p) "/site/robotpy_build"
    "" (λ text, Ok text) (λ doc, Ok doc)
    (λ cfg tmpl data fs, Ok ("// from " +:+ Str.join "," (H2w.headers cfg))).

Definition proj_world : World :=
  mkWorld
    {[ "/proj" := Dir; "/proj/gen" := Dir;
       "/proj/gen/wpiutil.yml" := File "---" ]}
    ∅ None [].

(** The wrapper of the scenario after its generation step. *)
Definition wpiutil_built : Wrapper.t :=
  Wrapper.set_extension
    (Extension.mk "wpiutil.wpiutil" ["/proj/wpiutil/gensrc/wpiutil.cpp"]
       ["/proj/wpiutil/include"; "/site/robotpy_build/include"]
       ["/proj/wpiutil/lib"] ["wpiutil"] (Some "c++"))
    wpiutil.

(** The scenario's package with its generation entries removed. *)
Definition wpiutil_cfg_no_gen : Config.t :=
  Config.mk "wpiutil" (Some "wpiutil") "https://example.org/maven" "2020.1.1"
    [] ∅ [] [] [] (Some "gen/wpiutil.yml") [].

Definition wpiutil_no_gen : Wrapper.t :=
  Wrapper.mk "wpiutil" "wpiutil" "/proj" "/proj/wpiutil" wpiutil_cfg_no_gen
    linux {[ "robotpy-build" := rpyb_pkg ]} None.

(** The [setup] object of the scenario's project. *)
Definition setup_wpiutil : Setup.t :=
  Setup.mk "/proj" linux {[ "robotpy-build" := rpyb_pkg ]}.

(** A package whose manifest has three modules in two entries, not in
    alphabetical order, and a tree that holds its output directory. *)
Definition wpilib_cfg : Config.t :=
  Config.mk "wpilib" (Some "wpilib") "https://example.org/maven" "2020.1.1"
    [] ∅ [] []
    [[("wpiutil", "wpi/StringRef.h"); ("ntcore", "ntcore.h")];
     [("cscore", "cscore.h")]]
    (Some "gen/wpilib.yml") [].

Definition wpilib : Wrapper.t :=
  Wrapper.mk "wpilib" "wpilib" "/proj" "/proj/wpilib" wpilib_cfg linux
    {[ "robotpy-build" := rpyb_pkg ]}
    (Some (Extension.new "wpilib.wpilib" [] (Some "c++"))).

Definition wpilib_world : World :=
  mkWorld
    {[ "/proj" := Dir; "/proj/wpilib" := Dir; "/proj/wpilib/gensrc" := Dir ]}
    ∅ None [].

(** ** Notions used in the proofs *)

(** The loop shared by the three resolvers: look the dependency up and
    extend the list collected so far. *)
Definition collect {A : Type} (reg : Registry.t) (f : PkgCfg.t → list A)
    (acc : list A) (dep : string) : result (list A) :=
  pkg ← Registry.get_pkg reg dep; mret (acc ++ f pkg).

(** The first dependency without an entry in the registry. *)
Fixpoint first_missing (reg : Registry.t) (deps : list string) : option string :=
  match deps with
  | [] => None
  | dep :: deps' =>
      match reg !! dep with
      | Some _ => first_missing reg deps'
      | None => Some dep
      end
  end.

(** What a sequence of changes does to one path of the tree: nothing, set
    it to a fixed content, drop it if it is a directory, or drop it if it is
    a regular file.  These four are closed under composition and each of
    them is idempotent. *)
Inductive kf : Type :=
  | KId
  | KConst (o : option node)
  | KDropDir
  | KDropFile.

Definition kf_denote (k : kf) (x : option node) : option node :=
  match k with
  | KId => x
  | KConst o => o
  | KDropDir => if FS.is_dir x then None else x
  | KDropFile => if FS.is_file x then None else x
  end.

(** [kf_comp k2 k1] is [k1] followed by [k2]. *)
Definition kf_comp (k2 k1 : kf) : kf :=
  match k1, k2 with
  | KId, k => k
  | k, KId => k
  | KConst o, k => KConst (kf_denote k o)
  | _, KConst o => KConst o
  | KDropDir, KDropDir => KDropDir
  | KDropFile, KDropFile => KDropFile
  | KDropDir, KDropFile | KDropFile, KDropDir => KConst None
  end.

Definition op_kf (o : FS.op) (p : string) : kf :=
  match o with
  | FS.Put q n => if decide (p = q) then KConst (Some n) else KId
  | FS.Rmtree d =>
      if FS.inside d p then KConst None
      else if decide (p = d) then KDropDir else KId
  | FS.Unlink q => if decide (p = q) then KDropFile else KId
  end.

(** The tree [fs'] is [fs] changed path by path as [g] says. *)
Definition acts (g : string → kf) (fs fs' : FS.t) : Prop :=
  ∀ p, fs' !! p = kf_denote (g p) (fs !! p).

(** The archive a download of [url] yields in state [s]: the cached one, or
    else the one of the remote store. *)
Definition archive_at (T : Tools.t) (s : World) (url : string) : option archive :=
  match cache s !! url with
  | Some a => Some a
  | None => Tools.remote T url
  end.

Definition arch_eq (T : Tools.t) (s t : World) : Prop :=
  ∀ url, archive_at T s url = archive_at T t url.

(** [m] keeps the invariant [I] whenever it returns. *)
Definition keeps {A : Type} (I : World → Prop) (m : M A) : Prop :=
  ∀ s a s', I s → m s = (Ok a, s') → I s'.

(** The result of [m] and the tree it leaves depend on the tree only. *)
Definition det {A : Type} (m : M A) : Prop :=
  ∀ s t, fs s = fs t → (m s).1 = (m t).1 ∧ fs (m s).2 = fs (m t).2.

(** [m] does not look at the tree: run from two states in which downloads
    yield the same archives, it returns the same value and changes the two
    trees in the same way, path by path; and it leaves what downloads
    yield as it was. *)
Definition replayable {A : Type} (T : Tools.t) (m : M A) : Prop :=
  ∀ s a s', m s = (Ok a, s') →
    arch_eq T s s'
    ∧ ∀ t b t', arch_eq T s t → m t = (Ok b, t') →
        b = a ∧ ∃ g, acts g (fs s) (fs s') ∧ acts g (fs t) (fs t').

(** Since the log read [l0] it only grew; and, when [c] holds, whatever is
    at [p] was written since. *)
Definition tracked (c : bool) (l0 : list event) (p : string) (s : World) : Prop :=
  ∃ l, log s = l ++ l0 ∧ (c = true → is_Some (fs s !! p) → written l p).

(** The generation step from the point where the output directory has been
    removed and created again. *)
Definition gen_rest (T : Tools.t) (self : Wrapper.t) (pp_includes : list string)
    : M Wrapper.t :=
  let thisdir := Tools.thisdir T in
  let incdir := Path.join (Wrapper.root self) ["include"] in
  let outdir := Path.join (Wrapper.root self) ["gensrc"] in
  let hooks := Path.join thisdir ["hooks.py"] in
  let cpp_tmpl := Path.join thisdir ["templates"; "gen_pybind11.cpp.j2"] in
  data ←
    (if truthy_opt (Config.generation_data (Wrapper.cfg self)) then
       let datafile :=
         Path.join (Wrapper.setup_root self)
           [Tools.normpath T
              (py_str (Config.generation_data (Wrapper.cfg self)))] in
       text ← Os.read_file datafile;
       lift (Tools.safe_load T text)
     else mret (Tools.empty_dict T));
  data ← lift (Tools.HooksDataYaml T data);
  let sources := Config.sources (Wrapper.cfg self) in
  sources ← for_each (Config.generate (Wrapper.cfg self)) (λ sources gen,
    for_each gen
      (Wrapper.generate_one T self incdir outdir hooks cpp_tmpl pp_includes data)
      sources) sources;
  Wrapper._write_module_inl self outdir;;
  ext ← match Wrapper.extension self with
        | Some ext => mret ext
        | None =>
            raise (AttributeError
                     "'NoneType' object has no attribute 'sources'")
        end;
  include_dirs ← lift (Wrapper._all_includes self true);
  library_dirs ← lift (Wrapper._all_library_dirs self);
  libraries ← lift (Wrapper._all_library_names self);
  mret (Wrapper.set_extension
          (Extension.mk (Extension.name ext) sources include_dirs
             library_dirs libraries (Extension.language ext))
          self).

(** Between [s] and [s'] the paths [dsts] were written as regular files
    and nothing else changed in the tree, the cache or the entry points. *)
Definition writes_files (dsts : list string) (s s' : World) : Prop :=
  cache s' = cache s ∧ entry_points s' = entry_points s
  ∧ ∀ p, (p ∈ dsts → FS.is_file (fs s' !! p) = true)
         ∧ (p ∉ dsts → fs s' !! p = fs s !! p).


(** ** Further notions used to state the properties *)

(** A pure computation returned a value. *)
Definition returns {A : Type} (r : result A) : Prop := ∃ a, r = Ok a.

(** The artifact name a constructed wrapper downloads: the configured one,
    or the package name when none, or an empty one, is configured. *)
Definition artifact_of (c : Config.t) : string :=
  if truthy_opt (Config.artname c) then py_str (Config.artname c)
  else Config.name c.

(** The scenario's package without generation entries and without an
    artifact name of its own. *)
Definition wpiutil_cfg_no_art : Config.t :=
  Config.mk "wpiutil" None "https://example.org/maven" "2020.1.1"
    [] ∅ [] [] [] None [].

(** The wrapper the constructor builds from it: the artifact name is the
    package name. *)
Definition wpiutil_no_art : Wrapper.t :=
  Wrapper.mk "wpiutil" "wpiutil" "/proj" "/proj/wpiutil"
    (Config.mk "wpiutil" (Some "wpiutil") "https://example.org/maven"
       "2020.1.1" [] ∅ [] [] [] None [])
    linux {[ "robotpy-build" := rpyb_pkg ]} None.

(** The scenario's package with a dependency the registry does not know. *)
Definition wpiutil_orphan : Wrapper.t :=
  Wrapper.mk "wpiutil" "wpiutil" "/proj" "/proj/wpiutil"
    (Config.mk "wpiutil" (Some "wpiutil") "https://example.org/maven"
       "2020.1.1" [] ∅ [] ["wpinet"] [[("wpiutil", "wpi/StringRef.h")]]
       (Some "gen/wpiutil.yml") [])
    linux {[ "robotpy-build" := rpyb_pkg ]}
    (Some (Extension.new "wpiutil.wpiutil" [] (Some "c++"))).

(** The wrapper the constructor builds from the same configuration under
    a dotted import name. *)
Definition geometry : Wrapper.t :=
  Wrapper.mk "wpiutil" "wpilib.geometry" "/proj" "/proj/wpilib/geometry"
    (Config.mk "wpiutil" (Some "wpiutil") "https://example.org/maven"
       "2020.1.1" [] ∅ [] [] [] None [])
    linux {[ "robotpy-build" := rpyb_pkg ]} None.

(** A text that can stand in a generated Python file: it has no number
    sign, the character of the templates' placeholders, no line feed and no
    tab. *)
Definition plain_text (n : string) : Prop :=
  Str.lacks "#" n = true ∧ Str.lacks "010" n = true ∧ Str.lacks "009" n = true.

(** The text of a generated [__init__.py]: the fixed lines above the
    imports of the runtime dependencies, the fixed lines below them, and
    the line that loads one library. *)
Definition init_py_head : string :=
  "# fmt: off
# This file is automatically generated, DO NOT EDIT

from os.path import abspath, join, dirname
_root = abspath(dirname(__file__))

".

Definition init_py_mid : string := "

from ctypes import cdll
".

Definition load_line (libname : string) : string :=
  "_lib = cdll.LoadLibrary(join(_root, " +:+ Str.dq +:+ "lib" +:+ Str.dq
    +:+ ", " +:+ Str.dq +:+ libname +:+ Str.dq +:+ "))" +:+ Str.nl.

(** The import names of the dependencies that have one, in the order of
    the dependencies. *)
Definition runtime_imports (pkgs : list PkgCfg.t) : list string :=
  (λ pkg, py_str (PkgCfg.import_name pkg))
    <$> filter (λ pkg, truthy_opt (PkgCfg.import_name pkg) = true) pkgs.

(** The lines that import them: a comment line and one import per line, or
    nothing at all when there is none. *)
Definition import_block (imports : list string) : string :=
  match imports with
  | [] => ""
  | _ => Str.join Str.nl
           ("# runtime dependencies" :: ((λ i, "import " +:+ i) <$> imports))
  end.

Definition init_py_text (imports libnames : list string) : string :=
  init_py_head +:+ import_block imports +:+ init_py_mid
    +:+ String.concat "" (load_line <$> libnames).

(** The lines of a generated [pkgcfg.py]. *)
Definition pkgcfg_py_lines (import_name extraincludes cfg_name : string)
    : list string :=
  [ "# fmt: off";
    "# This file is automatically generated, DO NOT EDIT";
    "";
    "from os.path import abspath, join, dirname";
    "_root = abspath(dirname(__file__))";
    "";
    "import_name = " +:+ Str.dq +:+ import_name +:+ Str.dq;
    "";
    "def get_include_dirs():";
    "    return [join(_root, " +:+ Str.dq +:+ "include" +:+ Str.dq +:+ ")"
      +:+ extraincludes +:+ "]";
    "";
    "def get_library_dirs():";
    "    return [join(_root, " +:+ Str.dq +:+ "lib" +:+ Str.dq +:+ ")]";
    "";
    "def get_library_names():";
    "    return [" +:+ Str.dq +:+ cfg_name +:+ Str.dq +:+ "]" ].

(** The entry an extra header directory adds to the include directories
    the generated [pkgcfg.py] reports: the path from the package directory
    to it, one argument of [join] per component. *)
Definition extra_include (T : Tools.t) (self : Wrapper.t) (h : string) : string :=
  let pth :=
    match Str.split "." (Wrapper.import_name self) with
    | a :: p => Path.join a p
    | [] => ""
    end in
  ", join(_root, " +:+ Str.dq
    +:+ Str.join (Str.dq +:+ ", " +:+ Str.dq)
          (Str.split "/" (Tools.relpath T (Tools.normpath T h) pth))
    +:+ Str.dq +:+ ")".

Definition pkgcfg_py_text (T : Tools.t) (self : Wrapper.t) : string :=
  Str.join Str.nl
    (pkgcfg_py_lines (Wrapper.import_name self)
       (String.concat "" (extra_include T self
                            <$> Config.extra_headers (Wrapper.cfg self)))
       (Config.name (Wrapper.cfg self))).

(** A project tree in which the package directory of wpimath exists. *)
Definition wpimath_world : World :=
  mkWorld {[ "/proj" := Dir; "/proj/wpimath" := Dir ]} ∅ None [].

(** The four places of the download step, and the two archives it asks
    for. *)
Definition lib_dir (self : Wrapper.t) : string :=
  Path.join (Wrapper.root self) ["lib"].

Definition include_dir (self : Wrapper.t) : string :=
  Path.join (Wrapper.root self) ["include"].

Definition init_py (self : Wrapper.t) : string :=
  Path.join (Wrapper.root self) ["__init__.py"].

Definition pkgcfg_py (self : Wrapper.t) : string :=
  Path.join (Wrapper.root self) ["pkgcfg.py"].

Definition headers_url (self : Wrapper.t) : string :=
  Wrapper._dl_url self "headers".

Definition platform_url (self : Wrapper.t) : string :=
  Wrapper._dl_url self
    (Platform.os (Wrapper.platform self)
       +:+ Platform.arch (Wrapper.platform self)).

(** The names of the library files of the platform, as the download step
    computes them: the configured libraries, or the package name when none
    is configured, each between the prefix and the extension of the
    platform, where the configuration may replace the extension. *)
Definition lib_file_names (self : Wrapper.t) : list string :=
  let libnames := Config.libs (Wrapper.cfg self) in
  let libnames :=
    if negb (truthy_list libnames) then [Config.name (Wrapper.cfg self)]
    else libnames in
  let libext :=
    default (Platform.libext (Wrapper.platform self))
      (Config.libexts (Wrapper.cfg self)
         !! Platform.libext (Wrapper.platform self)) in
  (λ lib, Platform.libprefix (Wrapper.platform self) +:+ lib +:+ libext)
    <$> libnames.

(** The member of the platform archive that holds a library file. *)
Definition lib_member (self : Wrapper.t) (libname : string) : string :=
  Path.join (Platform.os (Wrapper.platform self))
    [Platform.arch (Wrapper.platform self); "shared"; libname].

(** The tree and the log once the download step has removed what an
    earlier run left. *)
Definition cleaned (self : Wrapper.t) (s : World) : World :=
  mkWorld
    (FS.apply_all
       [FS.Rmtree (lib_dir self); FS.Rmtree (include_dir self);
        FS.Unlink (init_py self); FS.Unlink (pkgcfg_py self)] (fs s))
    (cache s) (entry_points s)
    ([EvUnlink (pkgcfg_py self); EvUnlink (init_py self);
      EvRmtree (include_dir self); EvRmtree (lib_dir self)] ++ log s).

(** ** Further notions used in the proofs *)

(** The fixed text of a generated [pkgcfg.py] around its three fields: up
    to the import name, from there to the extra include directories, from
    there to the library name, and the end. *)
Definition pkgcfg_py_a : string :=
  "# fmt: off
# This file is automatically generated, DO NOT EDIT

from os.path import abspath, join, dirname
_root = abspath(dirname(__file__))

import_name = " +:+ Str.dq.

Definition pkgcfg_py_b : string :=
  Str.dq +:+ "

def get_include_dirs():
    return [join(_root, " +:+ Str.dq +:+ "include" +:+ Str.dq +:+ ")".

Definition pkgcfg_py_c : string :=
  "]

def get_library_dirs():
    return [join(_root, " +:+ Str.dq +:+ "lib" +:+ Str.dq +:+ ")]

def get_library_names():
    return [" +:+ Str.dq.

Definition pkgcfg_py_d : string := Str.dq +:+ "]".
(** * Properties *)

(** ** Dependency resolution *)

Lemma result_bind_Ok {A B} (f : A → result B) (a : A) : Ok a ≫= f = f a.
Proof. done. Qed.

Lemma for_each_cons {m : Type → Type} `{!MRet m, !MBind m} {A S : Type}
    (x : A) (l : list A) (body : S → A → m S) (acc : S) :
  for_each (x :: l) body acc = body acc x ≫= λ acc', for_each l body acc'.
Proof. done. Qed.

Lemma first_missing_Some reg deps missing :
  missing ∈ deps → reg !! missing = None → is_Some (first_missing reg deps).
Proof.
  induction deps as [|d deps IH]; intros Hin Hnone; [by apply elem_of_nil in Hin|].
  simpl. destruct (reg !! d) eqn:Hd; [|by eexists].
  apply IH; [|done]. apply elem_of_cons in Hin as [->|]; [congruence|done].
Qed.

Lemma first_missing_spec reg deps dep :
  first_missing reg deps = Some dep → dep ∈ deps ∧ reg !! dep = None.
Proof.
  induction deps as [|d deps IH]; simpl; [done|].
  destruct (reg !! d) eqn:Hd.
  - intros [??]%IH. split; [by right|done].
  - intros [= <-]. split; [by left|done].
Qed.

Section resolver.
Context {A : Type} (reg : Registry.t) (f : PkgCfg.t → list A).

Lemma collect_ok acc dep pkg :
  reg !! dep = Some pkg → collect reg f acc dep = Ok (acc ++ f pkg).
Proof. intros Hdep. unfold collect, Registry.get_pkg. by rewrite Hdep. Qed.

Lemma collect_missing acc dep :
  reg !! dep = None → collect reg f acc dep = Err (NotFound dep).
Proof. intros Hdep. unfold collect, Registry.get_pkg. by rewrite Hdep. Qed.

Lemma for_each_collect_ok deps pkgs init :
  mapM (λ dep, reg !! dep) deps = Some pkgs →
  for_each deps (collect reg f) init = Ok (init ++ concat (f <$> pkgs)).
Proof.
  intros Hall%mapM_Some. revert init.
  induction Hall as [|dep pkg deps pkgs Hdep _ IH]; intros init.
  - simpl. by rewrite app_nil_r.
  - rewrite for_each_cons, (collect_ok _ _ pkg) by done.
    rewrite result_bind_Ok, IH. simpl. by rewrite <-(assoc_L (++)).
Qed.

Lemma for_each_collect_first_missing deps dep init :
  first_missing reg deps = Some dep →
  for_each deps (collect reg f) init = Err (NotFound dep).
Proof.
  revert init. induction deps as [|d deps IH]; intros init; simpl; [done|].
  fold (for_each (m:=result) deps (collect reg f)).
  destruct (reg !! d) as [pkg|] eqn:Hd.
  - intros Hm. rewrite (collect_ok _ _ pkg) by done. by apply IH.
  - intros [= <-]. by rewrite collect_missing.
Qed.
End resolver.

(** C1. When every declared dependency has an entry in the registry, the
    resolved library names are the reverse of the package's own library name
    followed by the library names of its dependencies in declaration order.
    In particular a package named wpimath that depends on wpiutil alone,
    whose entry reports the library wpiutil, resolves to wpiutil followed by
    wpimath. *)
Theorem all_library_names_reversed (self : Wrapper.t) (pkgs : list PkgCfg.t) :
  mapM (λ dep, Wrapper.pkgcfg self !! dep) (Config.depends (Wrapper.cfg self))
    = Some pkgs →
  Wrapper._all_library_names self
    = Ok (reverse ([Config.name (Wrapper.cfg self)]
                   ++ concat (PkgCfg.get_library_names <$> pkgs)))
  ∧ (Config.name (Wrapper.cfg self) = "wpimath" →
     Config.depends (Wrapper.cfg self) = ["wpiutil"] →
     PkgCfg.get_library_names <$> pkgs = [["wpiutil"]] →
     Wrapper._all_library_names self = Ok ["wpiutil"; "wpimath"]).
Proof.
  intros Hall.
  assert (Wrapper._all_library_names self
    = Ok (reverse ([Config.name (Wrapper.cfg self)]
                   ++ concat (PkgCfg.get_library_names <$> pkgs)))) as Heq.
  { unfold Wrapper._all_library_names, Wrapper.get_library_names.
    fold (collect (Wrapper.pkgcfg self) PkgCfg.get_library_names).
    by rewrite (for_each_collect_ok _ _ _ pkgs). }
  split; [done|]. intros Hname _ Hlibs. by rewrite Heq, Hname, Hlibs.
Qed.

Lemma all_library_names_reversed_witness :
  Wrapper._all_library_names wpimath = Ok ["wpiutil"; "wpimath"].
Proof.
  apply (all_library_names_reversed wpimath [wpiutil_pkg]); reflexivity.
Defined.

(** C2. When every declared dependency has an entry in the registry, the
    resolved include directories are the package's own include directory,
    then the include directories of its dependencies in declaration order.
    The one method [_all_includes] takes the toggle: with [false] that is
    the whole result, with [true] the include directories of the
    robotpy-build entry follow at the end. *)
Theorem all_includes_order (self : Wrapper.t) (pkgs : list PkgCfg.t) :
  mapM (λ dep, Wrapper.pkgcfg self !! dep) (Config.depends (Wrapper.cfg self))
    = Some pkgs →
  Wrapper._all_includes self false
    = Ok ([Path.join (Wrapper.root self) ["include"]]
          ++ concat (PkgCfg.get_include_dirs <$> pkgs))
  ∧ ∀ rpyb, Wrapper.pkgcfg self !! "robotpy-build" = Some rpyb →
      Wrapper._all_includes self true
      = Ok ([Path.join (Wrapper.root self) ["include"]]
            ++ concat (PkgCfg.get_include_dirs <$> pkgs)
            ++ PkgCfg.get_include_dirs rpyb).
Proof.
  intros Hall. unfold Wrapper._all_includes, Wrapper.get_include_dirs.
  fold (collect (Wrapper.pkgcfg self) PkgCfg.get_include_dirs).
  rewrite (for_each_collect_ok _ _ _ pkgs) by done. split; [done|].
  intros rpyb Hrpyb. rewrite result_bind_Ok. unfold Registry.get_pkg.
  rewrite Hrpyb. simpl. done.
Qed.

Lemma all_includes_order_witness :
  Wrapper._all_includes wpimath_full false
    = Ok ["/proj/wpimath/include"; "/site/wpiutil/include"]
  ∧ Wrapper._all_includes wpimath_full true
    = Ok ["/proj/wpimath/include"; "/site/wpiutil/include";
          "/site/robotpy_build/include"].
Proof.
  destruct (all_includes_order wpimath_full [wpiutil_pkg]) as [Hf Ht];
    [reflexivity|].
  split; [exact Hf|]. exact (Ht rpyb_pkg eq_refl).
Defined.

(** C7. When a declared dependency has no entry in the registry, the
    resolution of the include directories (for either value of the toggle),
    of the library directories and of the library names each fail with the
    registry's not-found error, raised for the first such dependency; none
    returns a list. *)
Theorem missing_dependency_fails (self : Wrapper.t) (missing : string) :
  missing ∈ Config.depends (Wrapper.cfg self) →
  Wrapper.pkgcfg self !! missing = None →
  ∃ dep,
    dep ∈ Config.depends (Wrapper.cfg self)
    ∧ Wrapper.pkgcfg self !! dep = None
    ∧ (∀ include_rpyb,
         Wrapper._all_includes self include_rpyb = Err (NotFound dep))
    ∧ Wrapper._all_library_dirs self = Err (NotFound dep)
    ∧ Wrapper._all_library_names self = Err (NotFound dep).
Proof.
  intros Hin Hnone.
  destruct (first_missing_Some _ _ _ Hin Hnone) as [dep Hdep].
  destruct (first_missing_spec _ _ _ Hdep) as [Hd1 Hd2].
  exists dep. split_and!; [done..| | |].
  - intros b. unfold Wrapper._all_includes.
    fold (collect (Wrapper.pkgcfg self) PkgCfg.get_include_dirs).
    by rewrite (for_each_collect_first_missing _ _ _ dep).
  - unfold Wrapper._all_library_dirs.
    fold (collect (Wrapper.pkgcfg self) PkgCfg.get_library_dirs).
    by rewrite (for_each_collect_first_missing _ _ _ dep).
  - unfold Wrapper._all_library_names.
    fold (collect (Wrapper.pkgcfg self) PkgCfg.get_library_names).
    by rewrite (for_each_collect_first_missing _ _ _ dep).
Qed.

Lemma missing_dependency_fails_witness :
  ∃ dep,
    dep ∈ Config.depends (Wrapper.cfg wpimath_alone)
    ∧ Wrapper.pkgcfg wpimath_alone !! dep = None
    ∧ (∀ include_rpyb,
         Wrapper._all_includes wpimath_alone include_rpyb = Err (NotFound dep))
    ∧ Wrapper._all_library_dirs wpimath_alone = Err (NotFound dep)
    ∧ Wrapper._all_library_names wpimath_alone = Err (NotFound dep).
Proof.
  apply (missing_dependency_fails wpimath_alone "wpiutil").
  - apply list_elem_of_singleton. reflexivity.
  - reflexivity.
Defined.

(** ** The archive URL *)

(** C8. For every base URL, artifact name, version and qualifier, the
    archive URL is the base, the artifact name and the version separated by
    slashes, followed by a slash and the file name made of the artifact
    name, the version and the qualifier joined by dashes, with the
    extension zip. *)
Theorem dl_url_form (self : Wrapper.t) (base art ver thing : string) :
  Config.baseurl (Wrapper.cfg self) = base →
  Config.artname (Wrapper.cfg self) = Some art →
  Config.version (Wrapper.cfg self) = ver →
  Wrapper._dl_url self thing
    = base +:+ "/" +:+ art +:+ "/" +:+ ver +:+ "/"
        +:+ art +:+ "-" +:+ ver +:+ "-" +:+ thing +:+ ".zip".
Proof.
  intros Hbase Hart Hver. unfold Wrapper._dl_url.
  by rewrite Hbase, Hart, Hver.
Qed.

Lemma dl_url_form_witness :
  Wrapper._dl_url wpimath "headers"
    = "https://example.org/maven/wpimath/2020.1.1/wpimath-2020.1.1-headers.zip".
Proof.
  apply (dl_url_form wpimath "https://example.org/maven" "wpimath" "2020.1.1"
           "headers"); reflexivity.
Defined.

(** ** The constructor *)

(** C6. When the configuration lists generation entries but names no data
    file, the constructor raises its error and leaves the world as it found
    it: no file-system change, no download, no I/O request in the log and
    no entry point registered. *)
Theorem init_requires_generation_data (name : string) (wrapcfg : Config.t)
    (setup : Setup.t) (s : World) :
  Config.generate wrapcfg ≠ [] →
  Config.generation_data wrapcfg = None →
  Wrapper.__init__ name wrapcfg setup s
    = (Err (ValueError
              "generation_data must be specified when generate is specified"),
       s).
Proof.
  intros Hgen Hdata. unfold Wrapper.__init__.
  assert (∀ c, Config.generate (Config.set_artname c wrapcfg)
               = Config.generate wrapcfg) as Hg by done.
  assert (∀ c, Config.generation_data (Config.set_artname c wrapcfg)
               = Config.generation_data wrapcfg) as Hd by done.
  destruct (negb (truthy_opt (Config.artname wrapcfg)));
    rewrite ?Hg, ?Hd, Hdata; destruct (Config.generate wrapcfg); done.
Qed.

Lemma init_requires_generation_data_witness :
  Wrapper.__init__ "wpiutil" wpiutil_cfg_no_data setup_proj empty_world
    = (Err (ValueError
              "generation_data must be specified when generate is specified"),
       empty_world).
Proof.
  apply (init_requires_generation_data "wpiutil" wpiutil_cfg_no_data
           setup_proj empty_world); [discriminate | reflexivity].
Defined.

(** The wrappers used as examples below are the ones the constructor
    builds from their configurations. *)
Example wpiutil_constructed :
  (Wrapper.__init__ "wpiutil" wpiutil_cfg setup_wpiutil proj_world).1
  = Ok wpiutil.
Proof. reflexivity. Qed.

Example wpiutil_no_gen_constructed :
  (Wrapper.__init__ "wpiutil" wpiutil_cfg_no_gen setup_wpiutil proj_world).1
  = Ok wpiutil_no_gen.
Proof. reflexivity. Qed.

Example constructor_registers_entry_point :
  entry_points
    (Wrapper.__init__ "wpiutil" wpiutil_cfg setup_wpiutil proj_world).2
  = Some {[ "robotpybuild" := ["wpiutil = wpiutil.pkgcfg"] ]}.
Proof. vm_compute. reflexivity. Qed.

(** ** Strings *)

Section strings.
Implicit Types (a c : ascii) (s t u : string).

Lemma str_app_nil_l s : "" +:+ s = s.
Proof. done. Qed.

Lemma str_app_cons a s t : String a s +:+ t = String a (s +:+ t).
Proof. done. Qed.

Lemma str_app_nil_r s : s +:+ "" = s.
Proof. induction s as [|a s IH]; [done|]. by rewrite str_app_cons, IH. Qed.

Lemma str_app_assoc s t u : (s +:+ t) +:+ u = s +:+ t +:+ u.
Proof. induction s as [|a s IH]; [done|]. by rewrite !str_app_cons, IH. Qed.

Lemma str_length_app s t :
  String.length (s +:+ t) = String.length s + String.length t.
Proof. induction s as [|a s IH]; [done|]. rewrite str_app_cons. simpl. by rewrite IH. Qed.

Lemma prefix_app s t : String.prefix s (s +:+ t) = true.
Proof.
  induction s as [|a s IH]; [by destruct t|].
  rewrite str_app_cons. simpl. by destruct (ascii_dec a a).
Qed.

Lemma prefix_length s t :
  String.prefix s t = true → String.length s ≤ String.length t.
Proof.
  revert t. induction s as [|a s IH]; intros [|b t]; simpl; try done; [lia|].
  destruct (ascii_dec a b); [|done]. intros ?%IH. lia.
Qed.

Lemma lacks_app c s t : Str.lacks c (s +:+ t) = Str.lacks c s && Str.lacks c t.
Proof.
  induction s as [|a s IH]; [done|].
  rewrite str_app_cons. simpl. rewrite IH. by rewrite andb_assoc.
Qed.

Lemma lacks_join c sep (l : list string) :
  Str.lacks c sep = true → Forall (λ s, Str.lacks c s = true) l →
  Str.lacks c (Str.join sep l) = true.
Proof.
  intros Hsep Hl. induction Hl as [|s l Hs Hl IH]; [done|].
  unfold Str.join in *. simpl. destruct l as [|s' l]; [done|].
  rewrite !lacks_app, Hs, Hsep, IH. done.
Qed.

(** *** [split] and [join] *)

Lemma split_lacks c s : Str.lacks c s = true → Str.split c s = [s].
Proof.
  induction s as [|a s IH]; [done|]. simpl.
  case_bool_decide; [done|]. simpl. intros ->%IH. done.
Qed.

Lemma split_nonempty c s : Str.split c s ≠ [].
Proof.
  destruct s as [|a s]; [done|]. simpl.
  destruct (bool_decide (a = c)); [done|]. by destruct (Str.split c s).
Qed.

Lemma split_app_sep c s t :
  Str.split c (s +:+ String c t) = Str.split c s ++ Str.split c t.
Proof.
  induction s as [|a s IH].
  - rewrite str_app_nil_l. simpl. by rewrite bool_decide_eq_true_2.
  - rewrite str_app_cons. simpl. rewrite IH.
    destruct (bool_decide (a = c)); [done|].
    pose proof (split_nonempty c s). by destruct (Str.split c s).
Qed.

Lemma split_join c (l : list string) :
  l ≠ [] → Forall (λ s, Str.lacks c s = true) l →
  Str.split c (Str.join (String c "") l) = l.
Proof.
  intros Hne Hl. induction Hl as [|s l Hs Hl IH]; [done|].
  unfold Str.join in *. simpl. destruct l as [|s' l]; [by apply split_lacks|].
  rewrite str_app_cons, str_app_nil_l, split_app_sep, split_lacks, IH by done. done.
Qed.

(** *** [replace] *)

(** Text without the first character of [old] is copied unchanged. *)
Lemma replace_go_lacks c old new s t :
  Str.lacks c s = true →
  Str.replace_go (String c old) new 0 (s +:+ t)
  = s +:+ Str.replace_go (String c old) new 0 t.
Proof.
  induction s as [|a s IH]; [done|]. simpl.
  case_bool_decide as Ha; [done|]. simpl. intros Hs.
  rewrite !str_app_cons. simpl. destruct (ascii_dec c a) as [->|]; [done|].
  by rewrite IH.
Qed.
End strings.


(** ** The state monad *)

Lemma run_bind {A B} (m : M A) (f : A → M B) (s : World) :
  (m ≫= f) s
  = match m s with
    | (Ok a, s') => f a s'
    | (Err e, s') => (Err e, s')
    end.
Proof. done. Qed.

Lemma bind_Ok {A B} (m : M A) (f : A → M B) (s : World) b s' :
  (m ≫= f) s = (Ok b, s') →
  ∃ a s1, m s = (Ok a, s1) ∧ f a s1 = (Ok b, s').
Proof.
  rewrite run_bind. destruct (m s) as [[a|e] s1]; [|done]. by exists a, s1.
Qed.

Lemma ret_Ok {A} (a b : A) (s s' : World) :
  mret (M:=M) a s = (Ok b, s') → b = a ∧ s' = s.
Proof. by intros [= -> ->]. Qed.

Lemma lift_Ok {A} (r : result A) (s : World) a s' :
  lift r s = (Ok a, s') → r = Ok a ∧ s' = s.
Proof. by intros [= -> ->]. Qed.

Lemma world_eta (s : World) :
  s = mkWorld (fs s) (cache s) (entry_points s) (log s).
Proof. by destruct s. Qed.

(** Splits a run that returned into the runs of its parts. *)
Ltac inv_run H :=
  repeat match type of H with
  | (_ ≫= _) _ = (Ok _, _) =>
      let a := fresh "a" in let s := fresh "s" in
      let H1 := fresh "Hrun" in
      apply bind_Ok in H as (a & s & H1 & H)
  end.

(** ** File-system changes, path by path *)

Lemma kf_comp_denote k2 k1 x :
  kf_denote (kf_comp k2 k1) x = kf_denote k2 (kf_denote k1 x).
Proof. by destruct k1, k2, x as [[]|]. Qed.

Lemma kf_idem k x : kf_denote k (kf_denote k x) = kf_denote k x.
Proof. by destruct k, x as [[]|]. Qed.

Lemma acts_id (fs : FS.t) : acts (λ _, KId) fs fs.
Proof. done. Qed.

Lemma acts_comp g1 g2 (fs1 fs2 fs3 : FS.t) :
  acts g1 fs1 fs2 → acts g2 fs2 fs3 →
  acts (λ p, kf_comp (g2 p) (g1 p)) fs1 fs3.
Proof. intros H1 H2 p. by rewrite kf_comp_denote, H2, H1. Qed.

Lemma acts_apply o (fs : FS.t) : acts (op_kf o) fs (FS.apply o fs).
Proof.
  intros p. destruct o as [q n|d|q]; simpl.
  - case_decide as Hp; [subst; by rewrite lookup_insert_eq|].
    by rewrite lookup_insert_ne.
  - destruct (FS.inside d p) eqn:Hin; simpl.
    { apply map_lookup_filter_None. right. intros n _ Hn. apply Hn.
      left. simpl. by rewrite Hin. }
    destruct (fs !! p) as [n|] eqn:Hp.
    + case_decide as Hd; simpl.
      * destruct n; simpl.
        -- apply map_lookup_filter_Some. split; [done|].
           intros [Hc|[_ Hc]]; simpl in *; [by rewrite Hin in Hc|done].
        -- apply map_lookup_filter_None. right. intros n Hn Hc.
           rewrite Hp in Hn. injection Hn as <-. apply Hc. by right.
      * apply map_lookup_filter_Some. split; [done|].
        intros [Hc|[Hc _]]; simpl in *; [by rewrite Hin in Hc|done].
    + assert (filter (λ kv, ¬ (FS.inside d kv.1 ∨ kv.1 = d ∧ kv.2 = Dir)) fs !! p
              = None) as ->.
      { apply map_lookup_filter_None. by left. }
      by case_decide.
  - destruct (FS.is_file (fs !! q)) eqn:Hq.
    + case_decide as Hp; [subst; rewrite lookup_delete_eq; simpl; by rewrite Hq|].
      by rewrite lookup_delete_ne.
    + case_decide as Hp; [subst; simpl; by rewrite Hq|done].
Qed.

Lemma acts_apply_all ops (fs : FS.t) :
  ∃ g, acts g fs (FS.apply_all ops fs)
       ∧ ∀ fs', acts g fs' (FS.apply_all ops fs').
Proof.
  assert (∃ g, ∀ fs', acts g fs' (FS.apply_all ops fs')) as [g Hg]; [|eauto].
  clear fs. induction ops as [|o ops IH] using rev_ind.
  - exists (λ _, KId). intros fs'. apply acts_id.
  - destruct IH as [g Hg]. exists (λ p, kf_comp (op_kf o p) (g p)).
    intros fs'. unfold FS.apply_all. rewrite foldl_app. simpl.
    eapply acts_comp; [apply Hg|apply acts_apply].
Qed.

(** Two trees changed the same way twice in a row: the second change does
    nothing. *)
Lemma acts_twice g (fs1 fs2 fs3 : FS.t) :
  acts g fs1 fs2 → acts g fs2 fs3 → fs3 = fs2.
Proof.
  intros H1 H2. apply map_eq. intros p. by rewrite H2, H1, kf_idem.
Qed.

(** ** What the primitives do *)

(** Unfolds the monad operations in a run. *)
Ltac run_simpl :=
  repeat (rewrite ?run_bind;
          unfold get_fs, change, change_all, trace, raise, lift; simpl).

Lemma rmtree_run d (s : World) :
  Os.rmtree d s
  = (Ok (), mkWorld (FS.apply (FS.Rmtree d) (fs s)) (cache s) (entry_points s)
              (EvRmtree d :: log s)).
Proof. done. Qed.

Lemma unlink_ignored_run p (s : World) :
  ignore_OSError (Os.unlink p) s
  = (Ok (), mkWorld (FS.apply (FS.Unlink p) (fs s)) (cache s) (entry_points s)
              (EvUnlink p :: log s)).
Proof.
  unfold ignore_OSError, Os.unlink. run_simpl.
  destruct (fs s !! p) as [[c|]|] eqn:Hp; simpl; by rewrite ?Hp.
Qed.

Lemma trace_dirs_run dirs (s : World) :
  for_each dirs (λ _ a, trace (EvMkdir a)) () s
  = (Ok (), mkWorld (fs s) (cache s) (entry_points s)
              ((EvMkdir <$> reverse dirs) ++ log s)).
Proof.
  revert s. induction dirs as [|a dirs IH]; intros s.
  - simpl. by destruct s.
  - rewrite for_each_cons, run_bind. simpl. rewrite IH. simpl.
    by rewrite reverse_cons, fmap_app, <-(assoc_L (++)).
Qed.

Lemma ensure_dirs_Ok dirs (s s' : World) u :
  Os.ensure_dirs dirs s = (Ok u, s') →
  FS.blocked (fs s) dirs = None
  ∧ s' = mkWorld (FS.apply_all (FS.mkdir_ops dirs) (fs s)) (cache s)
           (entry_points s) ((EvMkdir <$> reverse dirs) ++ log s).
Proof.
  unfold Os.ensure_dirs. rewrite run_bind, trace_dirs_run. run_simpl.
  destruct (FS.blocked (fs s) dirs); [done|]. by intros [= _ <-].
Qed.

Lemma makedirs_Ok d (s s' : World) u :
  Os.makedirs d s = (Ok u, s') →
  fs s !! d = None
  ∧ FS.blocked (fs s) (FS.ancestors d) = None
  ∧ s' = mkWorld (<[d := Dir]> (FS.apply_all (FS.mkdir_ops (FS.ancestors d)) (fs s)))
           (cache s) (entry_points s)
           ((EvMkdir <$> reverse (FS.ancestors d)) ++ EvMkdir d :: log s).
Proof.
  unfold Os.makedirs. run_simpl.
  destruct (fs s !! d) eqn:Hd; [done|]. rewrite run_bind.
  destruct (Os.ensure_dirs _ _) as [[[]|e] s1] eqn:Hens; [|done].
  apply ensure_dirs_Ok in Hens as [Hb ->]. simpl in *.
  by intros [= _ <-].
Qed.

Lemma write_file_Ok p c (s s' : World) u :
  Os.write_file p c s = (Ok u, s') →
  s' = mkWorld (<[p := File c]> (fs s)) (cache s) (entry_points s)
         (EvWrite p :: log s).
Proof.
  unfold Os.write_file. run_simpl.
  destruct (fs s !! p) as [[|]|]; try done;
    (destruct (FS.parent p) as [d|]; [destruct (fs s !! d) as [[|]|]|]);
    try done; by intros [= _ <-].
Qed.

Lemma read_file_Ok p (s s' : World) c :
  Os.read_file p s = (Ok c, s') →
  fs s !! p = Some (File c)
  ∧ s' = mkWorld (fs s) (cache s) (entry_points s) (EvRead p :: log s).
Proof.
  unfold Os.read_file. run_simpl.
  destruct (fs s !! p) as [[|]|]; try done. by intros [= <- <-].
Qed.

Lemma fetch_Ok T url (s s' : World) a :
  Download.fetch T url s = (Ok a, s') →
  archive_at T s url = Some a
  ∧ fs s' = fs s ∧ entry_points s' = entry_points s
  ∧ (∃ l, log s' = l ++ log s ∧ ∀ p, ¬ written l p)
  ∧ arch_eq T s s'.
Proof.
  unfold Download.fetch.
  destruct (cache s !! url) as [a'|] eqn:Hc.
  - intros [= -> <-]. unfold archive_at. rewrite Hc. split_and!; [done..| |done].
    exists []. split; [done|]. intros p [H|H]; by apply elem_of_nil in H.
  - destruct (Tools.remote T url) as [a'|] eqn:Hr; [|done].
    intros [= -> <-]. simpl. unfold archive_at. rewrite Hc.
    split_and!; [done..| |].
    + exists [EvDownload url]. split; [done|].
      intros p [H|H]; apply list_elem_of_singleton in H; done.
    + intros url'. unfold archive_at. simpl.
      destruct (decide (url' = url)) as [->|].
      * by rewrite lookup_insert_eq, Hc.
      * by rewrite lookup_insert_ne.
Qed.

(** ** The aggregator [module.hpp] *)

Lemma module_decls_calls_spec (self : Wrapper.t) :
  Wrapper.module_decls_calls self
  = (Wrapper.decl_of <$> module_names self, Wrapper.call_of <$> module_names self).
Proof.
  unfold Wrapper.module_decls_calls, module_names.
  assert (∀ (gen : list (string * string)) (acc : list string * list string),
    foldl (λ acc item,
      (acc.1 ++ [Wrapper.decl_of item.1], acc.2 ++ [Wrapper.call_of item.1]))
      acc gen
    = (acc.1 ++ (Wrapper.decl_of <$> (fst <$> gen)),
       acc.2 ++ (Wrapper.call_of <$> (fst <$> gen)))) as Hinner.
  { induction gen as [|item gen IH]; intros [d c]; simpl.
    - by rewrite !app_nil_r.
    - rewrite IH. simpl. by rewrite <-!(assoc_L (++)). }
  assert (∀ (gens : list (list (string * string))) (acc : list string * list string),
    foldl (λ acc gen,
      foldl (λ acc item,
        (acc.1 ++ [Wrapper.decl_of item.1], acc.2 ++ [Wrapper.call_of item.1]))
        acc gen) acc gens
    = (acc.1 ++ (Wrapper.decl_of <$> (fst <$> concat gens)),
       acc.2 ++ (Wrapper.call_of <$> (fst <$> concat gens)))) as Houter.
  { induction gens as [|gen gens IH]; intros [d c]; simpl.
    - by rewrite !app_nil_r.
    - rewrite Hinner, IH. simpl.
      by rewrite !fmap_app, <-!(assoc_L (++)). }
  by rewrite Houter.
Qed.

Lemma cleandoc_module_hpp :
  Str.cleandoc Wrapper.module_hpp_doc
  = hpp_pre +:+ "##DECLS##" +:+ hpp_mid +:+ "##CALLS##" +:+ hpp_post.
Proof. vm_compute. reflexivity. Qed.

Lemma replace_decls (decls : string) :
  Str.replace "##DECLS##" decls (Str.cleandoc Wrapper.module_hpp_doc)
  = hpp_pre +:+ decls +:+ hpp_mid +:+ "##CALLS##" +:+ hpp_post.
Proof. rewrite cleandoc_module_hpp. vm_compute. reflexivity. Qed.

Lemma replace_calls_pre (calls rest : string) :
  Str.replace_go "##CALLS##" calls 0 (hpp_pre +:+ rest)
  = hpp_pre +:+ Str.replace_go "##CALLS##" calls 0 rest.
Proof. vm_compute. reflexivity. Qed.

Lemma replace_calls_rest (calls : string) :
  Str.replace_go "##CALLS##" calls 0 (hpp_mid +:+ "##CALLS##" +:+ hpp_post)
  = hpp_mid +:+ calls +:+ hpp_post.
Proof. vm_compute. reflexivity. Qed.

Lemma lacks_decl_of c (n : string) :
  Str.lacks c "void init_(py::module &m);" = true →
  Str.lacks c n = true → Str.lacks c (Wrapper.decl_of n) = true.
Proof.
  intros Hc Hn. unfold Wrapper.decl_of. rewrite !lacks_app, Hn.
  revert Hc. change "void init_(py::module &m);"
    with ("void init_" +:+ "(py::module &m);"). rewrite lacks_app.
  by intros [-> ->]%andb_true_iff.
Qed.

Lemma lacks_call_of c (n : string) :
  Str.lacks c "    init_(m);" = true →
  Str.lacks c n = true → Str.lacks c (Wrapper.call_of n) = true.
Proof.
  intros Hc Hn. unfold Wrapper.call_of. rewrite !lacks_app, Hn.
  revert Hc. change "    init_(m);" with ("    init_" +:+ "(m);").
  rewrite lacks_app. by intros [-> ->]%andb_true_iff.
Qed.

(** The text of the aggregator, when no module name contains the
    placeholder character. *)
Lemma module_hpp_content_eq (self : Wrapper.t) :
  Forall (λ n, Str.lacks "#" n = true) (module_names self) →
  Wrapper.module_hpp_content self
  = hpp_pre +:+ Str.join Str.nl (Wrapper.decl_of <$> module_names self)
      +:+ hpp_mid +:+ Str.join Str.nl (Wrapper.call_of <$> module_names self)
      +:+ hpp_post.
Proof.
  intros Hnames. unfold Wrapper.module_hpp_content.
  cbv zeta. rewrite module_decls_calls_spec. cbn [fst snd].
  rewrite replace_decls.
  unfold Str.replace. rewrite replace_calls_pre.
  rewrite (replace_go_lacks "#" "#CALLS##").
  - by rewrite replace_calls_rest.
  - apply lacks_join; [done|]. apply Forall_fmap.
    eapply Forall_impl; [done|]. intros n Hn. by apply lacks_decl_of.
Qed.

Lemma str_app_inj_r (s t u : string) : s +:+ u = t +:+ u → s = t.
Proof.
  revert t. induction s as [|a s IH]; intros [|b t] Heq; [done| | |].
  - apply (f_equal String.length) in Heq.
    rewrite str_app_cons, str_app_nil_l in Heq. simpl in Heq.
    rewrite str_length_app in Heq. lia.
  - apply (f_equal String.length) in Heq.
    rewrite str_app_cons, str_app_nil_l in Heq. simpl in Heq.
    rewrite str_length_app in Heq. lia.
  - rewrite !str_app_cons in Heq. injection Heq as -> Heq. f_equal. by apply IH.
Qed.

Global Instance decl_of_inj : Inj (=) (=) Wrapper.decl_of.
Proof.
  intros n n' Heq. unfold Wrapper.decl_of in Heq.
  apply (inj (String.app _)) in Heq. by apply str_app_inj_r in Heq.
Qed.

Global Instance call_of_inj : Inj (=) (=) Wrapper.call_of.
Proof.
  intros n n' Heq. unfold Wrapper.call_of in Heq.
  apply (inj (String.app _)) in Heq. by apply str_app_inj_r in Heq.
Qed.

Lemma is_decl_line_decl_of n : is_decl_line (Wrapper.decl_of n) = true.
Proof. apply prefix_app. Qed.

Lemma is_call_line_call_of n : is_call_line (Wrapper.call_of n) = true.
Proof. apply prefix_app. Qed.

Lemma is_call_line_decl_of n : is_call_line (Wrapper.decl_of n) = false.
Proof. done. Qed.

Lemma is_decl_line_call_of n : is_decl_line (Wrapper.call_of n) = false.
Proof. done. Qed.

(** The lines of a joined list are the list, or the one empty line of the
    empty text. *)
Lemma lines_join (l : list string) :
  Forall (λ s, Str.lacks "010" s = true) l →
  lines (Str.join Str.nl l) = if l is [] then [""] else l.
Proof.
  intros Hl. destruct l as [|s l]; [done|]. by apply split_join.
Qed.

Lemma lines_module_hpp (decls calls : string) :
  lines (hpp_pre +:+ decls +:+ hpp_mid +:+ calls +:+ hpp_post)
  = hpp_head_lines ++ lines decls ++ [""; hpp_init_line] ++ lines calls ++ ["}"].
Proof.
  unfold lines.
  change (hpp_pre +:+ decls +:+ hpp_mid +:+ calls +:+ hpp_post)
    with ("// This file is autogenerated, DO NOT EDIT"
          +:+ String "010" ("#include <pybind11/pybind11.h>"
          +:+ String "010" ("namespace py = pybind11;"
          +:+ String "010" (""
          +:+ String "010" ("// forward declarations"
          +:+ String "010" (decls
          +:+ String "010" (""
          +:+ String "010" (hpp_init_line
          +:+ String "010" (calls +:+ String "010" "}"))))))))).
  rewrite !split_app_sep. done.
Qed.

Lemma filter_all {A} (P : A → Prop) `{!∀ x, Decision (P x)} (l : list A) :
  Forall P l → filter P l = l.
Proof.
  induction 1 as [|x l Hx _ IH]; [done|]. by rewrite filter_cons_True, IH.
Qed.

Lemma filter_none {A} (P : A → Prop) `{!∀ x, Decision (P x)} (l : list A) :
  Forall (λ x, ¬ P x) l → filter P l = [].
Proof.
  induction 1 as [|x l Hx _ IH]; [done|]. by rewrite filter_cons_False, IH.
Qed.

(** Filtering the lines of a joined list filters the list, for a filter
    that rejects the empty line. *)
Lemma filter_lines_join (P : string → Prop) `{!∀ x, Decision (P x)}
    (l : list string) :
  Forall (λ s, Str.lacks "010" s = true) l → ¬ P "" →
  filter P (lines (Str.join Str.nl l)) = filter P l.
Proof.
  intros Hl Hempty. rewrite lines_join by done.
  destruct l; [|done]. by rewrite filter_cons_False.
Qed.

Section filter_lines.
Context (names : list string).
Hypothesis Hplain : Forall (λ n, Str.lacks "010" n = true) names.

Lemma decls_lack_nl :
  Forall (λ s, Str.lacks "010" s = true) (Wrapper.decl_of <$> names).
Proof.
  apply Forall_fmap. eapply Forall_impl; [done|].
  intros n Hn. by apply lacks_decl_of.
Qed.

Lemma calls_lack_nl :
  Forall (λ s, Str.lacks "010" s = true) (Wrapper.call_of <$> names).
Proof.
  apply Forall_fmap. eapply Forall_impl; [done|].
  intros n Hn. by apply lacks_call_of.
Qed.

Lemma decl_lines_of_decls :
  filter (λ l, is_decl_line l = true)
    (lines (Str.join Str.nl (Wrapper.decl_of <$> names)))
  = Wrapper.decl_of <$> names.
Proof.
  rewrite filter_lines_join by (apply decls_lack_nl || done).
  apply filter_all, Forall_fmap, Forall_true. intros. apply is_decl_line_decl_of.
Qed.

Lemma decl_lines_of_calls :
  filter (λ l, is_decl_line l = true)
    (lines (Str.join Str.nl (Wrapper.call_of <$> names))) = [].
Proof.
  rewrite filter_lines_join by (apply calls_lack_nl || done).
  apply filter_none, Forall_fmap, Forall_true. intros x. simpl.
  by rewrite is_decl_line_call_of.
Qed.

Lemma call_lines_of_calls :
  filter (λ l, is_call_line l = true)
    (lines (Str.join Str.nl (Wrapper.call_of <$> names)))
  = Wrapper.call_of <$> names.
Proof.
  rewrite filter_lines_join by (apply calls_lack_nl || done).
  apply filter_all, Forall_fmap, Forall_true. intros. apply is_call_line_call_of.
Qed.

Lemma call_lines_of_decls :
  filter (λ l, is_call_line l = true)
    (lines (Str.join Str.nl (Wrapper.decl_of <$> names))) = [].
Proof.
  rewrite filter_lines_join by (apply decls_lack_nl || done).
  apply filter_none, Forall_fmap, Forall_true. intros x. simpl.
  by rewrite is_call_line_decl_of.
Qed.
End filter_lines.

Lemma occurrences_app x (l k : list string) :
  occurrences x (l ++ k) = occurrences x l + occurrences x k.
Proof. unfold occurrences. by rewrite filter_app, length_app. Qed.

Lemma occurrences_none x (l : list string) :
  Forall (λ y, y ≠ x) l → occurrences x l = 0.
Proof. intros Hl. unfold occurrences. by rewrite filter_none. Qed.

Lemma occurrences_filter (P : string → Prop) `{!∀ x, Decision (P x)} x
    (l : list string) :
  P x → occurrences x (filter P l) = occurrences x l.
Proof.
  intros Hx. unfold occurrences. rewrite list_filter_filter.
  f_equal. apply list_filter_iff. intros y. split; [tauto|intros Hy; by subst].
Qed.

Lemma occurrences_NoDup x (l : list string) :
  NoDup l → x ∈ l → occurrences x l = 1.
Proof.
  unfold occurrences. induction 1 as [|y l Hy Hl IH]; intros Hin.
  - by apply elem_of_nil in Hin.
  - apply elem_of_cons in Hin as [->|Hin].
    + rewrite filter_cons_True by done. simpl. rewrite filter_none; [done|].
      apply Forall_forall. intros z Hz Heq. by subst.
    + rewrite filter_cons_False, IH by (done || by intros ->). done.
Qed.

Lemma occurrences_lines_join x (l : list string) :
  Forall (λ s, Str.lacks "010" s = true) l → x ≠ "" →
  occurrences x (lines (Str.join Str.nl l)) = occurrences x l.
Proof.
  intros Hl Hx. unfold occurrences. rewrite filter_lines_join; [done..|].
  by intros <-.
Qed.

(** ** Writing into a directory *)

Lemma ancestors_go_app acc s1 s2 :
  FS.ancestors_go acc (s1 +:+ s2)
  = FS.ancestors_go acc s1 ++ FS.ancestors_go (acc +:+ s1) s2.
Proof.
  revert acc. induction s1 as [|c s1 IH]; intros acc.
  - by rewrite str_app_nil_l, str_app_nil_r.
  - rewrite str_app_cons. cbn [FS.ancestors_go]. rewrite IH, str_app_assoc.
    change (String c "" +:+ s1) with (String c s1).
    by destruct (_ && _).
Qed.

Lemma ancestors_go_lacks acc s :
  Str.lacks "/" s = true → FS.ancestors_go acc s = [].
Proof.
  revert acc. induction s as [|c s IH]; intros acc; [done|].
  cbn [Str.lacks FS.ancestors_go]. intros [Hc Hs]%andb_true_iff.
  rewrite IH by done. apply negb_true_iff in Hc. by rewrite Hc.
Qed.

(** The parent of an entry of a directory is that directory. *)
Lemma parent_entry d b :
  Str.truthy d = true → Str.endswith_char "/" d = false →
  Str.lacks "/" b = true →
  FS.parent (d +:+ Path.sep +:+ b) = Some d.
Proof.
  intros Hd He Hb. unfold FS.parent, FS.ancestors.
  rewrite ancestors_go_app, str_app_nil_l.
  change (Path.sep +:+ b) with (String "/" b). cbn [FS.ancestors_go].
  rewrite Hd, He, (ancestors_go_lacks _ b) by done. simpl.
  apply last_snoc.
Qed.

(** A write whose target is no directory and whose parent, if the path
    names one, is a directory goes through. *)
Lemma write_file_run p c (s : World) :
  fs s !! p ≠ Some Dir →
  (∀ d, FS.parent p = Some d → fs s !! d = Some Dir) →
  Os.write_file p c s
  = (Ok (), mkWorld (<[p := File c]> (fs s)) (cache s) (entry_points s)
              (EvWrite p :: log s)).
Proof.
  intros Hp Hd. unfold Os.write_file. run_simpl.
  destruct (FS.parent p) as [d|].
  - rewrite (Hd d eq_refl). by destruct (fs s !! p) as [[|]|].
  - by destruct (fs s !! p) as [[|]|].
Qed.

Lemma write_module_inl_run self outdir (s : World) :
  Str.endswith_char "/" outdir = false →
  fs s !! outdir = Some Dir →
  fs s !! Path.join outdir ["module.hpp"] ≠ Some Dir →
  Wrapper._write_module_inl self outdir s
  = (Ok (),
     mkWorld
       (<[Path.join outdir ["module.hpp"]
          := File (Wrapper.module_hpp_content self)]> (fs s))
       (cache s) (entry_points s)
       (EvWrite (Path.join outdir ["module.hpp"]) :: log s)).
Proof.
  intros He Hdir Hnd. unfold Wrapper._write_module_inl.
  apply write_file_run; [done|]. intros d.
  unfold Path.join. cbn [foldl]. unfold Path.join2.
  change (Str.startswith Path.sep "module.hpp") with false. cbv iota.
  rewrite He, orb_false_r. destruct (Str.truthy outdir) eqn:Ht; simpl.
  - rewrite parent_entry by done. by intros [= <-].
  - unfold FS.parent, FS.ancestors. rewrite ancestors_go_app, str_app_nil_l.
    destruct outdir; [|done]. done.
Qed.

(** C3. For a manifest whose module names are plain (no line feed, no
    number sign), the text of the aggregator is the fixed head, the forward
    declarations of the module names in manifest order, one per line, the
    opening of the one initializer function, the calls in manifest order,
    one per line, and the closing brace.  Hence the declaration lines of the
    text are exactly the declarations in manifest order, the call lines are
    exactly the calls in manifest order, the line opening the initializer
    function occurs once, and, the module names being distinct, the
    declaration and the call of each module name occur exactly once.  The
    method writes this text to module.hpp in the output directory: in every
    tree that holds the output directory, and no directory in the place of
    module.hpp, the method returns, module.hpp holds the text, the write is
    logged and nothing else has changed. *)
Theorem module_hpp_in_manifest_order (self : Wrapper.t) :
  Forall plain_name (module_names self) →
  Wrapper.module_hpp_content self
    = hpp_pre +:+ Str.join Str.nl (Wrapper.decl_of <$> module_names self)
        +:+ hpp_mid +:+ Str.join Str.nl (Wrapper.call_of <$> module_names self)
        +:+ hpp_post
  ∧ filter (λ l, is_decl_line l = true) (lines (Wrapper.module_hpp_content self))
    = Wrapper.decl_of <$> module_names self
  ∧ filter (λ l, is_call_line l = true) (lines (Wrapper.module_hpp_content self))
    = Wrapper.call_of <$> module_names self
  ∧ occurrences hpp_init_line (lines (Wrapper.module_hpp_content self)) = 1
  ∧ (NoDup (module_names self) →
     ∀ n, n ∈ module_names self →
       occurrences (Wrapper.decl_of n) (lines (Wrapper.module_hpp_content self)) = 1
       ∧ occurrences (Wrapper.call_of n) (lines (Wrapper.module_hpp_content self)) = 1)
  ∧ (∀ outdir (s s' : World) u,
       Wrapper._write_module_inl self outdir s = (Ok u, s') →
       fs s' !! Path.join outdir ["module.hpp"]
       = Some (File (Wrapper.module_hpp_content self)))
  ∧ (∀ outdir (s : World),
       Str.endswith_char "/" outdir = false →
       fs s !! outdir = Some Dir →
       fs s !! Path.join outdir ["module.hpp"] ≠ Some Dir →
       Wrapper._write_module_inl self outdir s
       = (Ok (),
          mkWorld
            (<[Path.join outdir ["module.hpp"]
               := File (Wrapper.module_hpp_content self)]> (fs s))
            (cache s) (entry_points s)
            (EvWrite (Path.join outdir ["module.hpp"]) :: log s))).
Proof.
  intros Hplain.
  assert (Forall (λ n, Str.lacks "#" n = true) (module_names self)) as Hhash.
  { eapply Forall_impl; [exact Hplain|]. intros n Hn. by destruct Hn. }
  assert (Forall (λ n, Str.lacks "010" n = true) (module_names self)) as Hnl.
  { eapply Forall_impl; [exact Hplain|]. intros n Hn. by destruct Hn. }
  pose proof (module_hpp_content_eq self Hhash) as Hcontent.
  assert (filter (λ l, is_decl_line l = true)
            (lines (Wrapper.module_hpp_content self))
          = Wrapper.decl_of <$> module_names self) as Hdecls.
  { rewrite Hcontent, lines_module_hpp, !filter_app.
    rewrite decl_lines_of_decls, decl_lines_of_calls by done.
    by rewrite app_nil_r. }
  assert (filter (λ l, is_call_line l = true)
            (lines (Wrapper.module_hpp_content self))
          = Wrapper.call_of <$> module_names self) as Hcalls.
  { rewrite Hcontent, lines_module_hpp, !filter_app.
    rewrite call_lines_of_decls, call_lines_of_calls by done.
    by rewrite app_nil_r. }
  split_and!; [done..| | | |].
  - rewrite Hcontent, lines_module_hpp, !occurrences_app.
    rewrite !occurrences_lines_join
      by (done || by apply decls_lack_nl || by apply calls_lack_nl).
    rewrite (occurrences_none _ (_ <$> _)), (occurrences_none _ (_ <$> _)); [done|..].
    + apply Forall_fmap, Forall_true. intros n. simpl. by intros [=].
    + apply Forall_fmap, Forall_true. intros n. simpl. by intros [=].
  - intros Hnodup n Hn. split.
    + rewrite <-(occurrences_filter (λ l, is_decl_line l = true))
        by apply is_decl_line_decl_of.
      rewrite Hdecls. apply occurrences_NoDup.
      * by apply (NoDup_fmap_2 _).
      * by apply list_elem_of_fmap_2.
    + rewrite <-(occurrences_filter (λ l, is_call_line l = true))
        by apply is_call_line_call_of.
      rewrite Hcalls. apply occurrences_NoDup.
      * by apply (NoDup_fmap_2 _).
      * by apply list_elem_of_fmap_2.
  - intros outdir s s' u Hrun. unfold Wrapper._write_module_inl in Hrun.
    apply write_file_Ok in Hrun as ->. apply lookup_insert_eq.
  - intros outdir s. apply write_module_inl_run.
Qed.

Lemma module_hpp_in_manifest_order_witness :
  filter (λ l, is_decl_line l = true) (lines (Wrapper.module_hpp_content wpilib))
  = [ "void init_wpiutil(py::module &m);";
      "void init_ntcore(py::module &m);";
      "void init_cscore(py::module &m);" ]
  ∧ filter (λ l, is_call_line l = true) (lines (Wrapper.module_hpp_content wpilib))
    = [ "    init_wpiutil(m);"; "    init_ntcore(m);"; "    init_cscore(m);" ]
  ∧ occurrences (Wrapper.decl_of "ntcore")
      (lines (Wrapper.module_hpp_content wpilib)) = 1
  ∧ occurrences (Wrapper.call_of "ntcore")
      (lines (Wrapper.module_hpp_content wpilib)) = 1
  ∧ Wrapper._write_module_inl wpilib "/proj/wpilib/gensrc" wpilib_world
    = (Ok (),
       mkWorld
         (<["/proj/wpilib/gensrc/module.hpp"
            := File (hpp_pre
                     +:+ "void init_wpiutil(py::module &m);" +:+ Str.nl
                     +:+ "void init_ntcore(py::module &m);" +:+ Str.nl
                     +:+ "void init_cscore(py::module &m);"
                     +:+ hpp_mid
                     +:+ "    init_wpiutil(m);" +:+ Str.nl
                     +:+ "    init_ntcore(m);" +:+ Str.nl
                     +:+ "    init_cscore(m);"
                     +:+ hpp_post)]> (fs wpilib_world))
         ∅ None [EvWrite "/proj/wpilib/gensrc/module.hpp"]).
Proof.
  destruct (module_hpp_in_manifest_order wpilib)
    as (Hcontent & Hdecls & Hcalls & _ & Honce & _ & Hwrite).
  - repeat (apply Forall_cons_2; [split; reflexivity|]). apply Forall_nil_2.
  - assert (NoDup (module_names wpilib)) as Hnodup
      by (apply (bool_decide_unpack _); exact I).
    assert ("ntcore" ∈ module_names wpilib) as Hin
      by (apply (bool_decide_unpack _); exact I).
    destruct (Honce Hnodup "ntcore" Hin) as [Hdecl Hcall].
    split_and!; [exact Hdecls|exact Hcalls|exact Hdecl|exact Hcall|].
    rewrite (Hwrite "/proj/wpilib/gensrc" wpilib_world);
      [|reflexivity|reflexivity|vm_compute; discriminate].
    rewrite Hcontent. reflexivity.
Defined.


(** ** Invariants kept by a computation *)

Section keeps.
Context (I : World → Prop).

Lemma keeps_ret {A} (a : A) : keeps I (mret a).
Proof. by intros s b s' Hs [= _ <-]. Qed.

Lemma keeps_raise {A} e : keeps I (raise (A:=A) e).
Proof. by intros s b s' Hs. Qed.

Lemma keeps_lift {A} (r : result A) : keeps I (lift r).
Proof. by intros s b s' Hs [= _ <-]. Qed.

Lemma keeps_bind {A B} (m : M A) (f : A → M B) :
  keeps I m → (∀ a, keeps I (f a)) → keeps I (m ≫= f).
Proof.
  intros Hm Hf s b s' Hs (a & s1 & Hrun & Hrun')%bind_Ok.
  eapply Hf; [|done]. by eapply Hm.
Qed.

Lemma keeps_for_each {A S} (l : list A) (body : S → A → M S) acc :
  (∀ x acc, x ∈ l → keeps I (body acc x)) → keeps I (for_each l body acc).
Proof.
  revert acc. induction l as [|x l IH]; intros acc Hbody.
  - apply keeps_ret.
  - rewrite for_each_cons. apply keeps_bind.
    + apply Hbody. by left.
    + intros acc'. apply IH. intros y acc'' Hy. apply Hbody. by right.
Qed.
End keeps.

(** ** Computations that depend on the tree only *)

Lemma det_ret {A} (a : A) : det (mret a).
Proof. by intros s t Hfs. Qed.

Lemma det_raise {A} e : det (raise (A:=A) e).
Proof. by intros s t Hfs. Qed.

Lemma det_lift {A} (r : result A) : det (lift r).
Proof. by intros s t Hfs. Qed.

Lemma det_trace ev : det (trace ev).
Proof. by intros s t Hfs. Qed.

Lemma det_get_fs : det get_fs.
Proof. intros s t Hfs. simpl. by rewrite Hfs. Qed.

Lemma det_change o : det (change o).
Proof. intros s t Hfs. simpl. by rewrite Hfs. Qed.

Lemma det_change_all l : det (change_all l).
Proof. intros s t Hfs. simpl. by rewrite Hfs. Qed.

Lemma det_bind {A B} (m : M A) (f : A → M B) :
  det m → (∀ a, det (f a)) → det (m ≫= f).
Proof.
  intros Hm Hf s t Hfs. rewrite !run_bind.
  destruct (Hm s t Hfs) as [Hr Hfs'].
  destruct (m s) as [[a|e] s1], (m t) as [[a'|e'] t1]; simplify_eq/=; [|done].
  by apply Hf.
Qed.

Lemma det_for_each {A S} (l : list A) (body : S → A → M S) acc :
  (∀ x acc, det (body acc x)) → det (for_each l body acc).
Proof.
  intros Hbody. revert acc. induction l as [|x l IH]; intros acc.
  - apply det_ret.
  - rewrite for_each_cons. by apply det_bind.
Qed.

(** ** Computations that do not look at the tree *)

Section replayable.
Context (T : Tools.t).

Lemma arch_eq_refl s : arch_eq T s s.
Proof. done. Qed.

Lemma arch_eq_sym s t : arch_eq T s t → arch_eq T t s.
Proof. intros H url. by rewrite H. Qed.

Lemma arch_eq_trans s t u : arch_eq T s t → arch_eq T t u → arch_eq T s u.
Proof. intros H1 H2 url. by rewrite H1, H2. Qed.

Lemma arch_eq_cache s t : cache s = cache t → arch_eq T s t.
Proof. intros H url. unfold archive_at. by rewrite H. Qed.

Lemma replayable_ret {A} (a : A) : replayable T (mret a).
Proof.
  intros s b s' [= <- <-]. split; [done|].
  intros t c t' _ [= <- <-]. split; [done|].
  exists (λ _, KId). split; apply acts_id.
Qed.

Lemma replayable_raise {A} e : replayable T (raise (A:=A) e).
Proof. by intros s b s'. Qed.

Lemma replayable_lift {A} (r : result A) : replayable T (lift r).
Proof.
  intros s b s' [= -> <-]. split; [done|].
  intros t c t' _ [= <- <-]. split; [done|].
  exists (λ _, KId). split; apply acts_id.
Qed.

Lemma replayable_trace ev : replayable T (trace ev).
Proof.
  intros s [] s' [= <-]. split; [done|].
  intros t [] t' _ [= <-]. split; [done|].
  exists (λ _, KId). split; apply acts_id.
Qed.

Lemma replayable_bind {A B} (m : M A) (f : A → M B) :
  replayable T m → (∀ a, replayable T (f a)) → replayable T (m ≫= f).
Proof.
  intros Hm Hf s b s' (a & s1 & Hrun & Hrun')%bind_Ok.
  destruct (Hm _ _ _ Hrun) as [Ha1 Hm1].
  destruct (Hf _ _ _ _ Hrun') as [Ha2 Hf1].
  split; [by eapply arch_eq_trans|].
  intros t c t' Hst (a' & t1 & Hrunt & Hrunt')%bind_Ok.
  destruct (Hm1 _ _ _ Hst Hrunt) as [-> (g1 & Hg1 & Hg1')].
  destruct (Hm _ _ _ Hrunt) as [Hat _].
  assert (arch_eq T s1 t1) as Hst1.
  { eapply arch_eq_trans; [by apply arch_eq_sym|]. by eapply arch_eq_trans. }
  destruct (Hf1 _ _ _ Hst1 Hrunt') as [-> (g2 & Hg2 & Hg2')].
  split; [done|]. exists (λ p, kf_comp (g2 p) (g1 p)).
  split; by eapply acts_comp.
Qed.

Lemma replayable_for_each {A S} (l : list A) (body : S → A → M S) acc :
  (∀ x acc, replayable T (body acc x)) → replayable T (for_each l body acc).
Proof.
  intros Hbody. revert acc. induction l as [|x l IH]; intros acc.
  - apply replayable_ret.
  - rewrite for_each_cons. by apply replayable_bind.
Qed.

(** A computation that, whenever it returns, returns [()] and has applied
    the changes [ops] without touching the cache. *)
Lemma replayable_ops (m : M unit) ops :
  (∀ s u s', m s = (Ok u, s') →
     fs s' = FS.apply_all ops (fs s) ∧ cache s' = cache s) →
  replayable T m.
Proof.
  intros Hm s [] s' Hrun. destruct (Hm _ _ _ Hrun) as [Hfs Hc].
  split; [by apply arch_eq_cache|].
  intros t [] t' _ Hrunt. destruct (Hm _ _ _ Hrunt) as [Hfst _].
  split; [done|]. destruct (acts_apply_all ops (fs s)) as (g & _ & Hg).
  exists g. rewrite Hfs, Hfst. split; apply Hg.
Qed.

Lemma replayable_rmtree d : replayable T (Os.rmtree d).
Proof.
  apply (replayable_ops _ [FS.Rmtree d]).
  intros s u s'. rewrite rmtree_run. by intros [= _ <-].
Qed.

Lemma replayable_unlink_ignored p : replayable T (ignore_OSError (Os.unlink p)).
Proof.
  apply (replayable_ops _ [FS.Unlink p]).
  intros s u s'. rewrite unlink_ignored_run. by intros [= _ <-].
Qed.

Lemma replayable_ensure_dirs dirs : replayable T (Os.ensure_dirs dirs).
Proof.
  apply (replayable_ops _ (FS.mkdir_ops dirs)).
  by intros s u s' [_ ->]%ensure_dirs_Ok.
Qed.

Lemma replayable_makedirs d : replayable T (Os.makedirs d).
Proof.
  apply (replayable_ops _ (FS.mkdir_ops (FS.ancestors d) ++ [FS.Put d Dir])).
  intros s u s' (_ & _ & ->)%makedirs_Ok. simpl.
  unfold FS.apply_all. by rewrite foldl_app.
Qed.

Lemma replayable_write_file p c : replayable T (Os.write_file p c).
Proof.
  apply (replayable_ops _ [FS.Put p (File c)]).
  by intros s u s' ->%write_file_Ok.
Qed.

Lemma replayable_fetch url : replayable T (Download.fetch T url).
Proof.
  intros s a s' (Ha & Hfs & _ & _ & Harch)%fetch_Ok. split; [done|].
  intros t b t' Hst (Hb & Hfst & _)%fetch_Ok.
  rewrite <-Hst, Ha in Hb. injection Hb as <-. split; [done|].
  exists (λ _, KId). rewrite Hfs, Hfst. split; apply acts_id.
Qed.
End replayable.

Ltac replay_step :=
  first
    [ simple apply replayable_ret | simple apply replayable_raise
    | simple apply replayable_lift | simple apply replayable_trace
    | simple apply replayable_rmtree | simple apply replayable_unlink_ignored
    | simple apply replayable_ensure_dirs | simple apply replayable_makedirs
    | simple apply replayable_write_file | simple apply replayable_fetch
    | simple apply replayable_for_each; intros ? ?
    | simple apply replayable_bind; [|intros ?] ].

Ltac case_step :=
  match goal with
  | |- context [match ?x with _ => _ end] => destruct x
  end.

Ltac replay :=
  repeat first
    [ replay_step
    | progress cbv zeta
    | progress unfold Wrapper._extract_zip_to, Download.download_and_extract_zip,
        Download.extract_member, Download.extract_file,
        Wrapper._write_init_py, Wrapper._write_pkgcfg_py
    | case_step ].

Lemma replayable_on_build_dl T self cache :
  replayable T (Wrapper.on_build_dl T self cache).
Proof. unfold Wrapper.on_build_dl. replay. Qed.

Lemma replayable_clear T d : replayable T (Os.rmtree d;; Os.makedirs d).
Proof. replay. Qed.

Lemma on_build_gen_eq T self :
  Config.generate (Wrapper.cfg self) ≠ [] →
  Wrapper.on_build_gen T self
  = (pp_includes ← lift (Wrapper._all_includes self false);
     Os.rmtree (outdir_of self);;
     Os.makedirs (outdir_of self);;
     gen_rest T self pp_includes).
Proof.
  intros Hgen. unfold Wrapper.on_build_gen.
  assert (negb (truthy_list (Config.generate (Wrapper.cfg self))) = false) as ->.
  { by destruct (Config.generate (Wrapper.cfg self)). }
  reflexivity.
Qed.

Ltac det_step :=
  first
    [ simple apply det_ret | simple apply det_raise | simple apply det_lift
    | simple apply det_trace | simple apply det_get_fs
    | simple apply det_change | simple apply det_change_all
    | simple apply det_for_each; intros ? ?
    | simple apply det_bind; [|intros ?] ].

Lemma det_gen_rest T self pp_includes : det (gen_rest T self pp_includes).
Proof.
  unfold gen_rest, Wrapper.generate_one, process_config,
    Wrapper._write_module_inl, Os.write_file, Os.read_file.
  repeat first [ det_step | progress cbv zeta | case_step ].
Qed.

(** ** Paths *)

Lemma truthy_app_r s t : Str.truthy t = true → Str.truthy (s +:+ t) = true.
Proof. destruct s; [done|]. by rewrite str_app_cons. Qed.

Lemma endswith_char_app c s t :
  Str.truthy t = true → Str.endswith_char c (s +:+ t) = Str.endswith_char c t.
Proof.
  intros Ht. induction s as [|a s IH]; [done|].
  rewrite str_app_cons. simpl. rewrite IH.
  destruct (s +:+ t) eqn:Hst; [|done].
  apply (f_equal Str.truthy) in Hst. by rewrite truthy_app_r in Hst.
Qed.

Lemma inside_length d p :
  FS.inside d p = true → String.length d < String.length p.
Proof.
  intros H%prefix_length. rewrite str_length_app in H. simpl in H. lia.
Qed.

Lemma inside_app d rest : FS.inside d (d +:+ Path.sep +:+ rest) = true.
Proof. unfold FS.inside. rewrite <-str_app_assoc. apply prefix_app. Qed.

Lemma not_inside_self d : FS.inside d d = false.
Proof.
  destruct (FS.inside d d) eqn:H; [|done]. apply inside_length in H. lia.
Qed.

Lemma ancestors_go_length acc s a :
  a ∈ FS.ancestors_go acc s →
  String.length a < String.length acc + String.length s.
Proof.
  revert acc. induction s as [|c s IH]; intros acc; simpl.
  - by intros ?%elem_of_nil.
  - intros Ha.
    assert (a = acc ∨ a ∈ FS.ancestors_go (acc +:+ String c "") s) as [->|Hin].
    { destruct (_ && _); [|by right]. by apply elem_of_cons in Ha. }
    + lia.
    + apply IH in Hin. rewrite str_length_app in Hin. simpl in Hin. lia.
Qed.

Lemma ancestors_length d a :
  a ∈ FS.ancestors d → String.length a < String.length d.
Proof. intros H%ancestors_go_length. simpl in H. lia. Qed.

(** A relative name joined to a directory lies inside it. *)
Lemma join2_relative d b :
  Str.truthy d = true → Str.endswith_char "/" d = false →
  Str.startswith "/" b = false →
  Path.join2 d b = d +:+ Path.sep +:+ b.
Proof. intros Hd He Hb. unfold Path.join2, Path.sep. by rewrite Hb, Hd, He. Qed.

Lemma outdir_truthy self : Str.truthy (outdir_of self) = true.
Proof.
  unfold outdir_of, Path.join. simpl. unfold Path.join2. simpl.
  destruct (_ || _); by apply truthy_app_r.
Qed.

Lemma outdir_no_sep self : Str.endswith_char "/" (outdir_of self) = false.
Proof.
  unfold outdir_of, Path.join. simpl. unfold Path.join2. simpl.
  destruct (_ || _).
  - by rewrite endswith_char_app.
  - change (Wrapper.root self +:+ Path.sep +:+ "gensrc")
      with (Wrapper.root self +:+ "/gensrc"). by rewrite endswith_char_app.
Qed.

Lemma prefix_cons_eq a b s t :
  String.prefix (String a s) (String b t)
  = if ascii_dec a b then String.prefix s t else false.
Proof. done. Qed.

Lemma prefix_nil t : String.prefix "" t = true.
Proof. by destruct t. Qed.

Lemma startswith_sep_cpp n :
  stem_name n → Str.startswith "/" (n +:+ ".cpp") = false.
Proof.
  unfold stem_name, Str.startswith. destruct n as [|c n]; [done|].
  rewrite str_app_cons, !prefix_cons_eq. cbn [Str.lacks].
  destruct (ascii_dec "/" c) as [<-|]; [|done]. by rewrite bool_decide_true.
Qed.

Lemma gen_source_eq self n :
  stem_name n →
  gen_source self n = outdir_of self +:+ Path.sep +:+ n +:+ ".cpp".
Proof.
  intros Hn. unfold gen_source, Path.join. simpl.
  apply join2_relative;
    [apply outdir_truthy|apply outdir_no_sep|by apply startswith_sep_cpp].
Qed.

Lemma module_hpp_eq self :
  module_hpp self = outdir_of self +:+ Path.sep +:+ "module.hpp".
Proof.
  unfold module_hpp, Path.join. simpl.
  apply join2_relative; [apply outdir_truthy|apply outdir_no_sep|done].
Qed.

Lemma gen_source_inside self n :
  stem_name n → FS.inside (outdir_of self) (gen_source self n) = true.
Proof. intros Hn. rewrite gen_source_eq by done. apply inside_app. Qed.

Lemma module_hpp_inside self :
  FS.inside (outdir_of self) (module_hpp self) = true.
Proof. rewrite module_hpp_eq. apply inside_app. Qed.

Lemma gen_outputs_inside self p :
  Forall stem_name (module_names self) →
  p ∈ gen_sources self ++ [module_hpp self] →
  FS.inside (outdir_of self) p = true.
Proof.
  intros Hnames [Hp|Hp]%elem_of_app.
  - apply list_elem_of_fmap in Hp as (n & -> & Hn).
    apply gen_source_inside. by eapply Forall_forall in Hnames.
  - apply list_elem_of_singleton in Hp as ->. apply module_hpp_inside.
Qed.

(** ** Directories created, files written *)

Lemma apply_all_cons o l (fs : FS.t) :
  FS.apply_all (o :: l) fs = FS.apply_all l (FS.apply o fs).
Proof. done. Qed.

Lemma lookup_mkdir_ops dirs (fs : FS.t) p :
  FS.apply_all (FS.mkdir_ops dirs) fs !! p
  = if decide (p ∈ dirs) then Some Dir else fs !! p.
Proof.
  revert fs. induction dirs as [|a dirs IH]; intros fs.
  - by rewrite decide_False by apply not_elem_of_nil.
  - change (FS.mkdir_ops (a :: dirs)) with (FS.Put a Dir :: FS.mkdir_ops dirs).
    rewrite apply_all_cons, IH. cbn [FS.apply].
    destruct (decide (p ∈ dirs)) as [Hin|Hin].
    + rewrite decide_True; [done|by right].
    + destruct (decide (p = a)) as [->|Hne].
      * rewrite decide_True by by left. by rewrite lookup_insert_eq.
      * rewrite decide_False; [by rewrite lookup_insert_ne|].
        intros [?|?]%elem_of_cons; done.
Qed.

(** After the output directory has been removed and created again it is an
    empty directory. *)
Lemma clear_spec d (s s1 : World) u :
  (Os.rmtree d;; Os.makedirs d) s = (Ok u, s1) →
  fs s1 !! d = Some Dir
  ∧ (∀ p, FS.inside d p = true → fs s1 !! p = None)
  ∧ cache s1 = cache s ∧ entry_points s1 = entry_points s.
Proof.
  intros Hrun. inv_run Hrun. rewrite rmtree_run in Hrun0.
  injection Hrun0 as _ <-.
  apply makedirs_Ok in Hrun as (_ & _ & ->). cbn [fs cache entry_points log].
  split_and!; [by rewrite lookup_insert_eq| |done..].
  intros p Hp. pose proof (inside_length _ _ Hp) as Hlen.
  rewrite lookup_insert_ne by (intros ->; lia).
  rewrite lookup_mkdir_ops, decide_False.
  - pose proof (acts_apply (FS.Rmtree d) (fs s) p) as Hk.
    cbn [op_kf] in Hk. rewrite Hp in Hk. exact Hk.
  - intros Hin%ancestors_length. lia.
Qed.

Lemma writes_files_refl (s s' : World) :
  fs s' = fs s → cache s' = cache s → entry_points s' = entry_points s →
  writes_files [] s s'.
Proof.
  intros Hfs ? ?. split_and!; [done..|]. intros p. split.
  - by intros ?%elem_of_nil.
  - by rewrite Hfs.
Qed.

Lemma writes_files_trans d1 d2 (s s1 s2 : World) :
  writes_files d1 s s1 → writes_files d2 s1 s2 →
  writes_files (d1 ++ d2) s s2.
Proof.
  intros (Hc1 & He1 & H1) (Hc2 & He2 & H2).
  split_and!; [congruence..|]. intros p. split.
  - intros Hp. destruct (decide (p ∈ d2)) as [Hin|Hin]; [by apply H2|].
    rewrite (proj2 (H2 p) Hin). apply H1.
    apply elem_of_app in Hp as [?|?]; done.
  - intros Hp. rewrite (proj2 (H2 p)), (proj2 (H1 p)); [done|..];
      intros ?; apply Hp, elem_of_app; auto.
Qed.

Lemma write_file_writes p c (s s' : World) u :
  Os.write_file p c s = (Ok u, s') → writes_files [p] s s'.
Proof.
  intros ->%write_file_Ok. split_and!; [done..|]. intros q. simpl. split.
  - intros ->%list_elem_of_singleton. by rewrite lookup_insert_eq.
  - intros Hq. rewrite lookup_insert_ne; [done|]. intros ->. apply Hq.
    by apply list_elem_of_singleton.
Qed.

Lemma trace_Ok ev (s s' : World) u :
  trace ev s = (Ok u, s') →
  s' = mkWorld (fs s) (cache s) (entry_points s) (ev :: log s).
Proof. by intros [= _ <-]. Qed.

Lemma get_fs_Ok (s s' : World) x :
  get_fs s = (Ok x, s') → x = fs s ∧ s' = s.
Proof. by intros [= <- <-]. Qed.

Lemma raise_Ok {A} e (s s' : World) (a : A) : raise e s = (Ok a, s') → False.
Proof. done. Qed.

Lemma for_each_nil_Ok {A S} (body : S → A → M S) acc (s s' : World) acc' :
  for_each [] body acc s = (Ok acc', s') → acc' = acc ∧ s' = s.
Proof. by intros [= <- <-]. Qed.

(** Splits every run that returned into the runs of its parts and reads
    off what the elementary ones did. *)
Ltac inv_runs :=
  repeat match goal with
  | H : (_ ≫= _) _ = (Ok _, _) |- _ =>
      apply bind_Ok in H as (? & ? & ? & ?)
  | H : mret _ _ = (Ok _, _) |- _ => apply ret_Ok in H as [? ?]; subst
  | H : for_each [] _ _ _ = (Ok _, _) |- _ =>
      apply for_each_nil_Ok in H as [? ?]; subst
  | H : lift _ _ = (Ok _, _) |- _ => apply lift_Ok in H as [? ?]; subst
  | H : trace _ _ = (Ok _, _) |- _ => apply trace_Ok in H; subst
  | H : get_fs _ = (Ok _, _) |- _ => apply get_fs_Ok in H as [? ?]; subst
  | H : raise _ _ = (Ok _, _) |- _ => by apply raise_Ok in H
  end.

(** ** The generation loop *)

Section generation.
Context (T : Tools.t) (self : Wrapper.t) (pp_includes : list string).
Context (data : Tools.hooks_data T).

Let incdir := Path.join (Wrapper.root self) ["include"].
Let hooks := Path.join (Tools.thisdir T) ["hooks.py"].
Let cpp_tmpl := Path.join (Tools.thisdir T) ["templates"; "gen_pybind11.cpp.j2"].
Let body :=
  Wrapper.generate_one T self incdir (outdir_of self) hooks cpp_tmpl
    pp_includes data.

Lemma generate_one_spec sources item (s s' : World) sources' :
  body sources item s = (Ok sources', s') →
  sources' = sources ++ [gen_source self item.1]
  ∧ writes_files [gen_source self item.1] s s'.
Proof.
  unfold body, Wrapper.generate_one, process_config. cbv zeta.
  intros Hrun. inv_runs. split; [done|].
  match goal with H : for_each _ _ _ _ = _ |- _ =>
    cbn [H2w.templates] in H; rewrite for_each_cons in H end.
  inv_runs.
  match goal with H : Os.write_file _ _ _ = _ |- _ =>
    apply write_file_writes in H as (? & ? & ?) end.
  cbn [fs cache entry_points snd] in *. by split_and!.
Qed.

Lemma generate_gen_spec gen sources (s s' : World) sources' :
  for_each gen body sources s = (Ok sources', s') →
  sources' = sources ++ (gen_source self <$> (fst <$> gen))
  ∧ writes_files (gen_source self <$> (fst <$> gen)) s s'.
Proof.
  revert sources s. induction gen as [|item gen IH]; intros sources s Hrun.
  - apply ret_Ok in Hrun as [-> ->]. split; [by rewrite app_nil_r|].
    by apply writes_files_refl.
  - rewrite for_each_cons in Hrun.
    apply bind_Ok in Hrun as (sources1 & s1 & Hone & Hrun).
    apply generate_one_spec in Hone as [-> Hw1].
    apply IH in Hrun as [-> Hw2]. split.
    + by rewrite <-(assoc_L (++)).
    + by apply (writes_files_trans [_] _ _ _ _ Hw1).
Qed.

Lemma generate_all_spec gens sources (s s' : World) sources' :
  for_each gens (λ sources gen, for_each gen body sources) sources s
    = (Ok sources', s') →
  sources' = sources ++ (gen_source self <$> (fst <$> concat gens))
  ∧ writes_files (gen_source self <$> (fst <$> concat gens)) s s'.
Proof.
  revert sources s. induction gens as [|gen gens IH]; intros sources s Hrun.
  - apply ret_Ok in Hrun as [-> ->]. split; [by rewrite app_nil_r|].
    by apply writes_files_refl.
  - rewrite for_each_cons in Hrun.
    apply bind_Ok in Hrun as (sources1 & s1 & Hgen & Hrun).
    apply generate_gen_spec in Hgen as [-> Hw1].
    apply IH in Hrun as [-> Hw2]. simpl. rewrite !fmap_app. split.
    + by rewrite <-(assoc_L (++)).
    + by eapply writes_files_trans.
Qed.
End generation.

(** What the generation step does once the output directory is empty. *)
Lemma gen_rest_spec T self pp_includes (s s' : World) self' :
  gen_rest T self pp_includes s = (Ok self', s') →
  (∃ ext include_dirs library_dirs libraries,
     Wrapper.extension self = Some ext
     ∧ Wrapper._all_includes self true = Ok include_dirs
     ∧ Wrapper._all_library_dirs self = Ok library_dirs
     ∧ Wrapper._all_library_names self = Ok libraries
     ∧ self' = Wrapper.set_extension
                 (Extension.mk (Extension.name ext)
                    (Config.sources (Wrapper.cfg self) ++ gen_sources self)
                    include_dirs library_dirs libraries
                    (Extension.language ext)) self)
  ∧ writes_files (gen_sources self ++ [module_hpp self]) s s'
  ∧ fs s' !! module_hpp self = Some (File (Wrapper.module_hpp_content self)).
Proof.
  unfold gen_rest. cbv zeta. intros Hrun.
  apply bind_Ok in Hrun as (data0 & s0 & Hdata & Hrun).
  assert (writes_files [] s s0) as Hw0.
  { destruct (truthy_opt _); inv_runs.
    - match goal with H : Os.read_file _ _ = _ |- _ =>
        apply read_file_Ok in H as [_ ->] end.
      by apply writes_files_refl.
    - by apply writes_files_refl. }
  apply bind_Ok in Hrun as (data & s1 & Hhooks & Hrun).
  apply lift_Ok in Hhooks as [_ ->].
  apply bind_Ok in Hrun as (sources & s2 & Hloop & Hrun).
  apply generate_all_spec in Hloop as [-> Hw].
  apply bind_Ok in Hrun as (u & s3 & Hhpp & Hrun).
  unfold Wrapper._write_module_inl in Hhpp.
  pose proof (write_file_Ok _ _ _ _ _ Hhpp) as Hs3.
  apply write_file_writes in Hhpp.
  apply bind_Ok in Hrun as (ext & s4 & Hext & Hrun).
  assert (Wrapper.extension self = Some ext ∧ s4 = s3) as [Hext' ->].
  { destruct (Wrapper.extension self); [|done]. by apply ret_Ok in Hext as [-> ->]. }
  inv_runs. split_and!.
  - by eexists _, _, _, _.
  - apply (writes_files_trans [] _ _ _ _ Hw0).
    by eapply writes_files_trans.
  - cbn [fs]. apply lookup_insert_eq.
Qed.

(** ** The generation step *)

(** C10. When the configuration has no generation entries, the generation
    step returns at once: the wrapper, and with it the extension
    descriptor, is returned as it was, and the world is unchanged, so the
    output directory is neither removed nor created and the log records no
    read of the data file. *)
Theorem on_build_gen_without_entries (T : Tools.t) (self : Wrapper.t)
    (s : World) :
  Config.generate (Wrapper.cfg self) = [] →
  Wrapper.on_build_gen T self s = (Ok self, s).
Proof. intros Hgen. unfold Wrapper.on_build_gen. by rewrite Hgen. Qed.

Lemma on_build_gen_without_entries_witness :
  Wrapper.on_build_gen demo_tools wpimath proj_world = (Ok wpimath, proj_world).
Proof.
  apply (on_build_gen_without_entries demo_tools wpimath proj_world).
  reflexivity.
Defined.


(** A generation step that returned: the includes resolved, the output
    directory was removed and created again, and the rest ran from there. *)
Lemma on_build_gen_Ok T self (s s' : World) self' :
  Config.generate (Wrapper.cfg self) ≠ [] →
  Wrapper.on_build_gen T self s = (Ok self', s') →
  ∃ pp_includes s1,
    Wrapper._all_includes self false = Ok pp_includes
    ∧ (Os.rmtree (outdir_of self);; Os.makedirs (outdir_of self)) s = (Ok (), s1)
    ∧ gen_rest T self pp_includes s1 = (Ok self', s').
Proof.
  intros Hgen. rewrite on_build_gen_eq by done. intros Hrun.
  apply bind_Ok in Hrun as (pp & s0 & Hpp & Hrun).
  apply lift_Ok in Hpp as [Hpp ->].
  apply bind_Ok in Hrun as ([] & s1 & Hrm & Hrun).
  apply bind_Ok in Hrun as ([] & s2 & Hmk & Hrun).
  exists pp, s2. split_and!; [done| |done].
  rewrite run_bind, Hrm. done.
Qed.

(** C4, as the code has it.  After a generation step that returned, for a
    package with generation entries, the source list of the extension is
    the explicit sources followed by one generated source per manifest
    entry, in manifest order.  The aggregator is written to module.hpp in
    the output directory and is not added to the list. *)
Theorem generated_sources_listed (T : Tools.t) (self self' : Wrapper.t)
    (s s' : World) :
  Config.generate (Wrapper.cfg self) ≠ [] →
  Wrapper.on_build_gen T self s = (Ok self', s') →
  ∃ ext,
    Wrapper.extension self' = Some ext
    ∧ Extension.sources ext
      = Config.sources (Wrapper.cfg self) ++ gen_sources self
    ∧ fs s' !! module_hpp self
      = Some (File (Wrapper.module_hpp_content self)).
Proof.
  intros Hgen Hrun.
  apply on_build_gen_Ok in Hrun as (pp & s1 & _ & _ & Hrest); [|done].
  apply gen_rest_spec in Hrest
    as ((ext & incs & dirs & libs & _ & _ & _ & _ & ->) & _ & Hhpp).
  eexists. split_and!; [done..].
Qed.

Lemma generated_sources_listed_witness :
  ∃ ext,
    Wrapper.extension wpiutil_built = Some ext
    ∧ Extension.sources ext
      = Config.sources (Wrapper.cfg wpiutil) ++ gen_sources wpiutil
    ∧ fs (Wrapper.on_build_gen demo_tools wpiutil proj_world).2
        !! module_hpp wpiutil
      = Some (File (Wrapper.module_hpp_content wpiutil)).
Proof.
  apply (generated_sources_listed demo_tools wpiutil wpiutil_built proj_world
           (Wrapper.on_build_gen demo_tools wpiutil proj_world).2).
  - discriminate.
  - vm_compute. reflexivity.
Defined.

(** C4 as stated fails: in the scenario of the design document the
    generation step returns and the source list is the one generated
    source; the path of the aggregator is not its last element. *)
Lemma aggregator_not_in_sources :
  ∃ self' s' ext,
    Wrapper.on_build_gen demo_tools wpiutil proj_world = (Ok self', s')
    ∧ Wrapper.extension self' = Some ext
    ∧ Extension.sources ext
      ≠ Config.sources (Wrapper.cfg wpiutil) ++ gen_sources wpiutil
          ++ [module_hpp wpiutil].
Proof.
  eexists _, _, _. split_and!.
  - vm_compute. reflexivity.
  - reflexivity.
  - vm_compute. discriminate.
Qed.

(** C9. For a package with a non-empty generation manifest whose module
    names hold no path separator, a generation step that returned first
    removed the output directory and created it again, leaving it an empty
    directory, and only then generated.  Afterwards the output directory
    holds exactly the generated source of every manifest entry and the
    aggregator module.hpp, each a regular file, whatever it held before.
    In particular, with the single entry wpiutil it holds wpiutil.cpp and
    module.hpp and nothing else. *)
Theorem gensrc_holds_exactly_the_outputs (T : Tools.t) (self self' : Wrapper.t)
    (s s' : World) :
  Config.generate (Wrapper.cfg self) ≠ [] →
  Forall stem_name (module_names self) →
  Wrapper.on_build_gen T self s = (Ok self', s') →
  (∃ pp_includes s1,
     (Os.rmtree (outdir_of self);; Os.makedirs (outdir_of self)) s
       = (Ok (), s1)
     ∧ fs s1 !! outdir_of self = Some Dir
     ∧ (∀ p, FS.inside (outdir_of self) p = true → fs s1 !! p = None)
     ∧ gen_rest T self pp_includes s1 = (Ok self', s'))
  ∧ fs s' !! outdir_of self = Some Dir
  ∧ (∀ p, FS.inside (outdir_of self) p = true →
       (is_Some (fs s' !! p) ↔ p ∈ gen_sources self ++ [module_hpp self]))
  ∧ (∀ p, p ∈ gen_sources self ++ [module_hpp self] →
       FS.inside (outdir_of self) p = true ∧ FS.is_file (fs s' !! p) = true)
  ∧ (module_names self = ["wpiutil"] →
     ∀ p, FS.inside (outdir_of self) p = true →
       (is_Some (fs s' !! p)
        ↔ p = Path.join (outdir_of self) ["wpiutil.cpp"]
          ∨ p = Path.join (outdir_of self) ["module.hpp"])).
Proof.
  intros Hgen Hnames Hrun.
  apply on_build_gen_Ok in Hrun as (pp & s1 & _ & Hclear & Hrest); [|done].
  destruct (clear_spec _ _ _ _ Hclear) as (Hdir & Hempty & _ & _).
  destruct (gen_rest_spec _ _ _ _ _ _ Hrest) as (_ & (_ & _ & Hw) & _).
  assert (∀ p, FS.inside (outdir_of self) p = true →
    (is_Some (fs s' !! p) ↔ p ∈ gen_sources self ++ [module_hpp self]))
    as Hexact.
  { intros p Hp. split.
    - intros Hsome.
      destruct (decide (p ∈ gen_sources self ++ [module_hpp self]))
        as [|Hout]; [done|].
      rewrite (proj2 (Hw p) Hout), Hempty in Hsome by done.
      by destruct Hsome.
    - intros Hout%Hw. by destruct (fs s' !! p) as [[]|]. }
  split_and!.
  - by exists pp, s1.
  - rewrite (proj2 (Hw _)); [done|]. intros Hin.
    apply gen_outputs_inside in Hin; [|done].
    by rewrite not_inside_self in Hin.
  - done.
  - intros p Hp. split; [by apply gen_outputs_inside|by apply Hw].
  - intros Hone p Hp. rewrite Hexact by done.
    unfold gen_sources. rewrite Hone. simpl.
    rewrite elem_of_cons, list_elem_of_singleton. done.
Qed.

Lemma gensrc_holds_exactly_the_outputs_witness :
  fs (Wrapper.on_build_gen demo_tools wpiutil proj_world).2
    !! "/proj/wpiutil/gensrc" = Some Dir
  ∧ ∀ p, FS.inside "/proj/wpiutil/gensrc" p = true →
      (is_Some (fs (Wrapper.on_build_gen demo_tools wpiutil proj_world).2 !! p)
       ↔ p = "/proj/wpiutil/gensrc/wpiutil.cpp"
         ∨ p = "/proj/wpiutil/gensrc/module.hpp").
Proof.
  destruct (gensrc_holds_exactly_the_outputs demo_tools wpiutil
              wpiutil_built proj_world
              (Wrapper.on_build_gen demo_tools wpiutil proj_world).2)
    as (_ & Hdir & _ & _ & Hone).
  - discriminate.
  - apply Forall_cons_2; [reflexivity | apply Forall_nil_2].
  - vm_compute. reflexivity.
  - split; [exact Hdir | exact (Hone eq_refl)].
Defined.

(** ** What remains in the tree was written *)

Lemma written_app_l l1 l2 p : written l2 p → written (l1 ++ l2) p.
Proof. intros [H|H]; [left|right]; apply elem_of_app; by right. Qed.

Lemma written_app_r l1 l2 p : written l1 p → written (l1 ++ l2) p.
Proof. intros [H|H]; [left|right]; apply elem_of_app; by left. Qed.

Lemma tracked_step c l0 p (s s' : World) l1 :
  tracked c l0 p s → log s' = l1 ++ log s →
  (is_Some (fs s' !! p) → is_Some (fs s !! p) ∨ written l1 p) →
  tracked c l0 p s'.
Proof.
  intros (l & Hl & Hw) Hlog Hfs. exists (l1 ++ l). split.
  - by rewrite Hlog, Hl, (assoc_L (++)).
  - intros Hc [Hs|Hs]%Hfs; [by apply written_app_l, Hw|by apply written_app_r].
Qed.

Lemma keeps_run {A} (I : World → Prop) (m : M A) (s s' : World) a :
  m s = (Ok a, s') → keeps I m → I s → I s'.
Proof. intros Hrun Hk Hs. by eapply Hk. Qed.

Section tracked.
Context (c : bool) (l0 : list event) (p : string).

Lemma tracked_trace ev : keeps (tracked c l0 p) (trace ev).
Proof.
  intros s u s' Hs ->%trace_Ok.
  apply (tracked_step _ _ _ s _ [ev]); [exact Hs|reflexivity|]. cbn [fs]. tauto.
Qed.

Lemma tracked_get_fs : keeps (tracked c l0 p) get_fs.
Proof. by intros s u s' Hs [_ ->]%get_fs_Ok. Qed.

Lemma tracked_rmtree d : keeps (tracked c l0 p) (Os.rmtree d).
Proof.
  intros s u s' Hs. rewrite rmtree_run. intros [= Heq]. subst s'.
  apply (tracked_step _ _ _ s _ [EvRmtree d]); [exact Hs|reflexivity|].
  cbn [fs]. pose proof (acts_apply (FS.Rmtree d) (fs s) p) as Hk.
  cbn [op_kf FS.apply] in Hk. rewrite Hk.
  intros Hsome. left. destruct (FS.inside d p); [by destruct Hsome|].
  case_decide; [|done]. simpl in Hsome.
  destruct (fs s !! p) as [[]|]; by simpl in *.
Qed.

Lemma tracked_unlink_ignored q :
  keeps (tracked c l0 p) (ignore_OSError (Os.unlink q)).
Proof.
  intros s u s' Hs. rewrite unlink_ignored_run. intros [= Heq]. subst s'.
  apply (tracked_step _ _ _ s _ [EvUnlink q]); [exact Hs|reflexivity|].
  cbn [fs]. pose proof (acts_apply (FS.Unlink q) (fs s) p) as Hk.
  cbn [op_kf FS.apply] in Hk. rewrite Hk.
  intros Hsome. left. case_decide; [|done]. simpl in Hsome.
  destruct (fs s !! p) as [[]|]; by simpl in *.
Qed.

Lemma written_mkdirs dirs : p ∈ dirs → written (EvMkdir <$> reverse dirs) p.
Proof.
  intros Hin. right. apply list_elem_of_fmap. exists p. split; [done|].
  by apply elem_of_reverse.
Qed.

Lemma tracked_ensure_dirs dirs : keeps (tracked c l0 p) (Os.ensure_dirs dirs).
Proof.
  intros s u s' Hs [_ ->]%ensure_dirs_Ok.
  apply (tracked_step _ _ _ s _ (EvMkdir <$> reverse dirs)); [exact Hs|reflexivity|].
  cbn [fs]. rewrite lookup_mkdir_ops. case_decide; [|tauto].
  intros _. right. by apply written_mkdirs.
Qed.

Lemma tracked_makedirs d : keeps (tracked c l0 p) (Os.makedirs d).
Proof.
  intros s u s' Hs (_ & _ & ->)%makedirs_Ok.
  apply (tracked_step _ _ _ s _
           ((EvMkdir <$> reverse (FS.ancestors d)) ++ [EvMkdir d])); [done| |].
  - cbn [log]. by rewrite <-(assoc_L (++)).
  - cbn [fs]. destruct (decide (p = d)) as [->|Hne].
    + intros _. right. right. apply elem_of_app. right.
      by apply list_elem_of_singleton.
    + rewrite lookup_insert_ne, lookup_mkdir_ops by done.
      case_decide; [|tauto]. intros _. right.
      by apply written_app_r, written_mkdirs.
Qed.

Lemma tracked_write_file q content :
  keeps (tracked c l0 p) (Os.write_file q content).
Proof.
  intros s u s' Hs ->%write_file_Ok.
  apply (tracked_step _ _ _ s _ [EvWrite q]); [exact Hs|reflexivity|].
  cbn [fs]. destruct (decide (p = q)) as [->|Hne].
  - intros _. right. left. by apply list_elem_of_singleton.
  - rewrite lookup_insert_ne by done. tauto.
Qed.

Lemma tracked_read_file q : keeps (tracked c l0 p) (Os.read_file q).
Proof.
  intros s u s' Hs [_ ->]%read_file_Ok.
  apply (tracked_step _ _ _ s _ [EvRead q]); [exact Hs|reflexivity|]. cbn [fs]. tauto.
Qed.

Lemma tracked_fetch T url : keeps (tracked c l0 p) (Download.fetch T url).
Proof.
  intros s u s' Hs (_ & Hfs & _ & (l & Hl & _) & _)%fetch_Ok.
  apply (tracked_step _ _ _ s _ l); [exact Hs|exact Hl|]. rewrite Hfs. tauto.
Qed.
End tracked.

Ltac tracked_step :=
  first
    [ simple apply keeps_ret | simple apply keeps_raise | simple apply keeps_lift
    | simple apply tracked_trace | simple apply tracked_get_fs
    | simple apply tracked_rmtree | simple apply tracked_unlink_ignored
    | simple apply tracked_ensure_dirs | simple apply tracked_makedirs
    | simple apply tracked_write_file | simple apply tracked_read_file
    | simple apply tracked_fetch
    | simple apply keeps_for_each; intros ? ? ?
    | simple apply keeps_bind; [|intros ?] ].

Ltac tracked_walk :=
  repeat first
    [ tracked_step
    | progress cbv zeta
    | progress unfold Wrapper._extract_zip_to, Download.download_and_extract_zip,
        Download.extract_member, Download.extract_file,
        Wrapper._write_init_py, Wrapper._write_pkgcfg_py,
        Wrapper.generate_one, process_config, Wrapper._write_module_inl
    | case_step ].

Lemma tracked_on_build_dl c l0 p T self cache :
  keeps (tracked c l0 p) (Wrapper.on_build_dl T self cache).
Proof. unfold Wrapper.on_build_dl. tracked_walk. Qed.

Lemma tracked_gen_rest c l0 p T self pp_includes :
  keeps (tracked c l0 p) (gen_rest T self pp_includes).
Proof. unfold gen_rest. tracked_walk. Qed.

Lemma tracked_on_build_gen c l0 p T self :
  keeps (tracked c l0 p) (Wrapper.on_build_gen T self).
Proof. unfold Wrapper.on_build_gen. tracked_walk. Qed.

(** ** Building twice *)

Lemma build_Ok T self cache (s s' : World) w :
  build T self cache s = (Ok w, s') →
  ∃ s1, Wrapper.on_build_dl T self cache s = (Ok (), s1)
        ∧ Wrapper.on_build_gen T self s1 = (Ok w, s').
Proof.
  unfold build. intros ([] & s1 & Hdl & Hgen)%bind_Ok. by exists s1.
Qed.

Lemma on_build_gen_nil T self (s : World) :
  Config.generate (Wrapper.cfg self) = [] →
  Wrapper.on_build_gen T self s = (Ok self, s).
Proof. intros Hgen. unfold Wrapper.on_build_gen. by rewrite Hgen. Qed.

(** The generation proper leaves everything outside the output directory
    as it was. *)
Lemma gen_rest_frame T self pp_includes (s s' : World) self' p :
  Forall stem_name (module_names self) →
  gen_rest T self pp_includes s = (Ok self', s') →
  FS.inside (outdir_of self) p = false →
  fs s' !! p = fs s !! p.
Proof.
  intros Hnames (_ & (_ & _ & Hw) & _)%gen_rest_spec Hp.
  apply Hw. intros Hin%gen_outputs_inside; [|done]. congruence.
Qed.

Lemma gen_rest_cache T self pp_includes (s s' : World) self' :
  gen_rest T self pp_includes s = (Ok self', s') → cache s' = cache s.
Proof. by intros (_ & (? & _ & _) & _)%gen_rest_spec. Qed.

Lemma build_twice T self cache (s0 s1 s2 : World) w1 w2 :
  Forall stem_name (module_names self) →
  build T self cache s0 = (Ok w1, s1) →
  build T self cache s1 = (Ok w2, s2) →
  w2 = w1 ∧ fs s2 = fs s1.
Proof.
  intros Hnames (a1 & Hdl1 & Hgen1)%build_Ok (b1 & Hdl2 & Hgen2)%build_Ok.
  destruct (replayable_on_build_dl T self cache _ _ _ Hdl1) as [Harch1 Hreplay].
  destruct (decide (Config.generate (Wrapper.cfg self) = [])) as [Hgen|Hgen].
  - rewrite on_build_gen_nil in Hgen1, Hgen2 by done.
    injection Hgen1 as <- <-. injection Hgen2 as <- <-.
    destruct (Hreplay _ _ _ Harch1 Hdl2) as (_ & g & Hg1 & Hg2).
    split; [done|]. by eapply acts_twice.
  - clear Hreplay.
    apply on_build_gen_Ok in Hgen1 as (pp & a2 & Hpp & Hclear1 & Hrest1); [|done].
    apply on_build_gen_Ok in Hgen2 as (pp' & b2 & Hpp' & Hclear2 & Hrest2); [|done].
    rewrite Hpp in Hpp'. injection Hpp' as <-.
    destruct (clear_spec _ _ _ _ Hclear1) as (_ & Hempty1 & Hc1 & _).
    destruct (clear_spec _ _ _ _ Hclear2) as (_ & Hempty2 & _ & _).
    assert (arch_eq T s0 s1) as Harch.
    { eapply arch_eq_trans; [exact Harch1|]. apply arch_eq_cache.
      rewrite <-Hc1. symmetry. by eapply gen_rest_cache. }
    pose proof (replayable_bind T _ _ (replayable_on_build_dl T self cache)
                  (λ _, replayable_clear T (outdir_of self))) as Hreplay.
    assert ((Wrapper.on_build_dl T self cache;;
             (Os.rmtree (outdir_of self);; Os.makedirs (outdir_of self))) s0
            = (Ok (), a2)) as Hrun1.
    { by rewrite run_bind, Hdl1. }
    assert ((Wrapper.on_build_dl T self cache;;
             (Os.rmtree (outdir_of self);; Os.makedirs (outdir_of self))) s1
            = (Ok (), b2)) as Hrun2.
    { by rewrite run_bind, Hdl2. }
    destruct (Hreplay _ _ _ Hrun1) as [_ Hboth].
    destruct (Hboth _ _ _ Harch Hrun2) as (_ & g & Hg1 & Hg2).
    assert (fs a2 = fs b2) as Hfs.
    { apply map_eq. intros p.
      destruct (FS.inside (outdir_of self) p) eqn:Hp.
      - by rewrite Hempty1, Hempty2.
      - rewrite Hg2, (gen_rest_frame _ _ _ _ _ _ p Hnames Hrest1 Hp).
        by rewrite !Hg1, kf_idem. }
    destruct (det_gen_rest T self pp a2 b2 Hfs) as [Hres Hfs'].
    rewrite Hrest1, Hrest2 in Hres, Hfs'. simpl in *.
    injection Hres as <-. done.
Qed.

Lemma rmtree_tracked d p (s s1 : World) u :
  Os.rmtree d s = (Ok u, s1) → FS.inside d p = true →
  log s1 = EvRmtree d :: log s ∧ tracked true (log s1) p s1.
Proof.
  rewrite rmtree_run. intros [= Heq] Hp. subst s1. split; [done|].
  exists []. split; [done|]. intros _. cbn [fs].
  pose proof (acts_apply (FS.Rmtree d) (fs s) p) as Hk.
  cbn [op_kf FS.apply] in Hk. rewrite Hk, Hp. by intros [? ?].
Qed.

Lemma build_fresh T self cache (s s' : World) w p :
  build T self cache s = (Ok w, s') →
  FS.inside (Path.join (Wrapper.root self) ["lib"]) p = true
  ∨ FS.inside (Path.join (Wrapper.root self) ["include"]) p = true
  ∨ (Config.generate (Wrapper.cfg self) ≠ []
     ∧ FS.inside (outdir_of self) p = true) →
  is_Some (fs s' !! p) →
  ∃ l, log s' = l ++ log s ∧ written l p.
Proof.
  intros (a1 & Hdl & Hgen)%build_Ok Hp Hsome.
  destruct Hp as [Hp|[Hp|[Hne Hp]]].
  - unfold Wrapper.on_build_dl in Hdl. cbv zeta in Hdl.
    apply bind_Ok in Hdl as (u & r1 & Hrm & Hdl).
    destruct (rmtree_tracked _ _ _ _ _ Hrm Hp) as [Hlog Hfresh].
    apply (keeps_run (tracked true (log r1) p)) in Hdl;
      [|tracked_walk|done].
    apply (keeps_run (tracked true (log r1) p)) in Hgen;
      [|apply tracked_on_build_gen|done].
    destruct Hgen as (l & Hl & Hw).
    exists (l ++ [EvRmtree (Path.join (Wrapper.root self) ["lib"])]). split.
    + by rewrite Hl, Hlog, <-(assoc_L (++)).
    + by apply written_app_r, Hw.
  - unfold Wrapper.on_build_dl in Hdl. cbv zeta in Hdl.
    apply bind_Ok in Hdl as (u & r1 & Hrm1 & Hdl).
    rewrite rmtree_run in Hrm1. injection Hrm1 as Heq. subst r1.
    apply bind_Ok in Hdl as (u' & r2 & Hrm & Hdl).
    destruct (rmtree_tracked _ _ _ _ _ Hrm Hp) as [Hlog Hfresh].
    apply (keeps_run (tracked true (log r2) p)) in Hdl;
      [|tracked_walk|done].
    apply (keeps_run (tracked true (log r2) p)) in Hgen;
      [|apply tracked_on_build_gen|done].
    destruct Hgen as (l & Hl & Hw).
    exists (l ++ [EvRmtree (Path.join (Wrapper.root self) ["include"]);
                  EvRmtree (Path.join (Wrapper.root self) ["lib"])]).
    split.
    + by rewrite Hl, Hlog, <-(assoc_L (++)).
    + by apply written_app_r, Hw.
  - apply (keeps_run (tracked false (log s) p)) in Hdl;
      [|apply tracked_on_build_dl|by exists []].
    destruct Hdl as (l1 & Hl1 & _).
    rewrite on_build_gen_eq in Hgen by done.
    apply bind_Ok in Hgen as (pp & r0 & Hpp & Hgen).
    apply lift_Ok in Hpp as [_ ->].
    apply bind_Ok in Hgen as (u & r1 & Hrm & Hgen).
    destruct (rmtree_tracked _ _ _ _ _ Hrm Hp) as [Hlog Hfresh].
    apply (keeps_run (tracked true (log r1) p)) in Hgen; [| |done].
    + destruct Hgen as (l & Hl & Hw).
      exists (l ++ EvRmtree (outdir_of self) :: l1). split.
      * by rewrite Hl, Hlog, Hl1, <-(assoc_L (++)).
      * by apply written_app_r, Hw.
    + apply keeps_bind; [apply tracked_makedirs|].
      intros _. apply tracked_gen_rest.
Qed.

(** C5, as the code has it.  For a package whose module names hold no
    path separator: two builds in a row that both return leave, after the
    second, the wrapper and the file tree the first one left.  And after any build
    that returns, every node below the lib and include directories, and,
    when the manifest has generation entries, below the output directory
    of the generation, was written by that build: nothing an earlier run
    left there remains. *)
Theorem rebuild_is_idempotent_and_fresh (T : Tools.t) (self : Wrapper.t)
    (cache : string) :
  Forall stem_name (module_names self) →
  (∀ (s0 s1 s2 : World) w1 w2,
     build T self cache s0 = (Ok w1, s1) →
     build T self cache s1 = (Ok w2, s2) →
     w2 = w1 ∧ fs s2 = fs s1)
  ∧ (∀ (s s' : World) w p,
       build T self cache s = (Ok w, s') →
       FS.inside (Path.join (Wrapper.root self) ["lib"]) p = true
       ∨ FS.inside (Path.join (Wrapper.root self) ["include"]) p = true
       ∨ (Config.generate (Wrapper.cfg self) ≠ []
          ∧ FS.inside (outdir_of self) p = true) →
       is_Some (fs s' !! p) →
       ∃ l, log s' = l ++ log s ∧ written l p).
Proof.
  intros Hnames. split.
  - intros s0 s1 s2 w1 w2. by apply build_twice.
  - intros s s' w p. apply build_fresh.
Qed.

Lemma rebuild_is_idempotent_and_fresh_witness :
  fs (build demo_tools wpiutil "cache"
        (build demo_tools wpiutil "cache" proj_world).2).2
  = fs (build demo_tools wpiutil "cache" proj_world).2.
Proof.
  destruct (rebuild_is_idempotent_and_fresh demo_tools wpiutil "cache")
    as [Hidem _].
  - apply Forall_cons_2; [reflexivity | apply Forall_nil_2].
  - apply (Hidem proj_world _ _ wpiutil_built wpiutil_built).
    + vm_compute. reflexivity.
    + vm_compute. reflexivity.
Defined.

(** C5 as stated fails: build the scenario's package, then build it again
    with its generation entries removed.  Both builds return, and the
    generated source of the first build, which did not exist before it, is
    still there after the second. *)
Lemma stale_source_survives_empty_manifest :
  ∃ w1 s1 w2 s2,
    build demo_tools wpiutil "cache" proj_world = (Ok w1, s1)
    ∧ build demo_tools wpiutil_no_gen "cache" s1 = (Ok w2, s2)
    ∧ module_names wpiutil_no_gen ≠ module_names wpiutil
    ∧ fs proj_world !! "/proj/wpiutil/gensrc/wpiutil.cpp" = None
    ∧ FS.is_file (fs s1 !! "/proj/wpiutil/gensrc/wpiutil.cpp") = true
    ∧ fs s2 !! "/proj/wpiutil/gensrc/wpiutil.cpp"
      = fs s1 !! "/proj/wpiutil/gensrc/wpiutil.cpp".
Proof.
  eexists _, _, _, _. split_and!.
  - vm_compute. reflexivity.
  - vm_compute. reflexivity.
  - discriminate.
  - vm_compute. reflexivity.
  - vm_compute. reflexivity.
  - vm_compute. reflexivity.
Qed.

(** * Further properties *)

(** ** The constructor, when it returns *)

(** A constructor that returned: the wrapper it built and the world it
    left. *)
Lemma init_Ok name wrapcfg setup (s s' : World) w :
  Wrapper.__init__ name wrapcfg setup s = (Ok w, s') →
  let cfg :=
    if truthy_opt (Config.artname wrapcfg) then wrapcfg
    else Config.set_artname (Some (Config.name wrapcfg)) wrapcfg in
  w = Wrapper.mk (Config.name wrapcfg) name (Setup.root setup)
        (Path.join (Setup.root setup) (Str.split "." name)) cfg
        (Setup.platform setup) (Setup.pkgcfg setup)
        (if truthy_list (Config.sources wrapcfg)
            || truthy_list (Config.generate wrapcfg)
         then Some (Extension.new (name +:+ "." +:+ Config.name wrapcfg)
                      (Config.sources wrapcfg) (Some "c++"))
         else None)
  ∧ s' = mkWorld (fs s) (cache s)
           (Some (<["robotpybuild" :=
                     default [] (default ∅ (entry_points s) !! "robotpybuild")
                     ++ [Config.name wrapcfg +:+ " = " +:+ name +:+ ".pkgcfg"]]>
                    (default ∅ (entry_points s))))
           (log s).
Proof.
  unfold Wrapper.__init__. cbv zeta.
  destruct (truthy_opt (Config.artname wrapcfg)); simpl;
    destruct (truthy_list (Config.generate wrapcfg)
              && negb (truthy_opt (Config.generation_data wrapcfg)));
    try done; by intros [= <- <-].
Qed.

Lemma init_generate_data name wrapcfg setup (s : World) :
  Wrapper.__init__ name wrapcfg setup s
  = if truthy_list (Config.generate wrapcfg)
       && negb (truthy_opt (Config.generation_data wrapcfg))
    then (Err (ValueError
                 "generation_data must be specified when generate is specified"),
          s)
    else (Wrapper.__init__ name wrapcfg setup s).
Proof.
  unfold Wrapper.__init__. cbv zeta.
  destruct (truthy_opt (Config.artname wrapcfg)); simpl;
    by destruct (truthy_list (Config.generate wrapcfg)
                 && negb (truthy_opt (Config.generation_data wrapcfg))).
Qed.

Lemma init_returns name wrapcfg setup (s : World) :
  truthy_list (Config.generate wrapcfg)
    && negb (truthy_opt (Config.generation_data wrapcfg)) = false →
  ∃ w s', Wrapper.__init__ name wrapcfg setup s = (Ok w, s').
Proof.
  intros H. unfold Wrapper.__init__. cbv zeta.
  destruct (truthy_opt (Config.artname wrapcfg)); simpl; rewrite H;
    by eexists _, _.
Qed.

Lemma truthy_list_true {A} (l : list A) : truthy_list l = true ↔ l ≠ [].
Proof. by destruct l. Qed.

(** X1. The constructor raises its error exactly when the configuration
    lists generation entries and names no data file, where a missing and an
    empty name count alike; the world is then left as it was.  In every
    other case it returns a wrapper. *)
Theorem init_raises_iff_data_is_missing (name : string) (wrapcfg : Config.t)
    (setup : Setup.t) (s : World) :
  (Wrapper.__init__ name wrapcfg setup s
   = (Err (ValueError
             "generation_data must be specified when generate is specified"),
      s)
   ↔ Config.generate wrapcfg ≠ []
     ∧ truthy_opt (Config.generation_data wrapcfg) = false)
  ∧ ((∃ w s', Wrapper.__init__ name wrapcfg setup s = (Ok w, s'))
     ↔ ¬ (Config.generate wrapcfg ≠ []
          ∧ truthy_opt (Config.generation_data wrapcfg) = false)).
Proof.
  rewrite <-truthy_list_true.
  destruct (truthy_list (Config.generate wrapcfg)
            && negb (truthy_opt (Config.generation_data wrapcfg))) eqn:Hc.
  - rewrite init_generate_data, Hc.
    apply andb_true_iff in Hc as [Hg Hd%negb_true_iff].
    split; [by split|]. split; [by intros (? & ? & ?)|tauto].
  - destruct (init_returns name wrapcfg setup s Hc) as (w & s' & Hrun).
    assert (¬ (truthy_list (Config.generate wrapcfg) = true
               ∧ truthy_opt (Config.generation_data wrapcfg) = false)) as Hn.
    { intros [Hg Hd]. by rewrite Hg, Hd in Hc. }
    split; [|split; [done|intros _; by exists w, s']].
    split; [by rewrite Hrun|tauto].
Qed.

(** X2. A constructor that returns registers exactly one entry point: the
    text made of the package name, an equals sign and the module pkgcfg of
    the import name is appended to the robotpybuild group, after the
    entries registered before; the other groups of entry points, the file
    system, the download cache and the log of I/O requests are left as
    they were. *)
Theorem init_registers_entry_point (name : string) (wrapcfg : Config.t)
    (setup : Setup.t) (s s' : World) (w : Wrapper.t) :
  Wrapper.__init__ name wrapcfg setup s = (Ok w, s') →
  ∃ ep',
    entry_points s' = Some ep'
    ∧ ep' !! "robotpybuild"
      = Some (default [] (default ∅ (entry_points s) !! "robotpybuild")
              ++ [Config.name wrapcfg +:+ " = " +:+ name +:+ ".pkgcfg"])
    ∧ (∀ group, group ≠ "robotpybuild" →
         ep' !! group = default ∅ (entry_points s) !! group)
    ∧ fs s' = fs s ∧ cache s' = cache s ∧ log s' = log s.
Proof.
  intros [_ ->]%init_Ok. eexists. split; [done|]. split_and!; [|  |done..].
  - by rewrite lookup_insert_eq.
  - intros group Hne. by rewrite lookup_insert_ne.
Qed.

Lemma init_registers_entry_point_witness :
  ∃ ep',
    entry_points
      (Wrapper.__init__ "wpiutil" wpiutil_cfg setup_wpiutil proj_world).2
    = Some ep'
    ∧ ep' !! "robotpybuild" = Some ["wpiutil = wpiutil.pkgcfg"].
Proof.
  destruct (init_registers_entry_point "wpiutil" wpiutil_cfg setup_wpiutil
              proj_world
              (Wrapper.__init__ "wpiutil" wpiutil_cfg setup_wpiutil proj_world).2
              wpiutil) as (ep' & Hep & Hl & _).
  - vm_compute. reflexivity.
  - exists ep'. split; [exact Hep | exact Hl].
Defined.

(** X3. A constructed wrapper downloads under the configured artifact
    name, or under the package name when the configuration names no
    artifact or an empty one: its archive URL is the base URL, that name
    and the version separated by slashes, then the file name made of that
    name, the version and the qualifier. *)
Theorem constructed_dl_url (name : string) (wrapcfg : Config.t)
    (setup : Setup.t) (s s' : World) (w : Wrapper.t) (thing : string) :
  Wrapper.__init__ name wrapcfg setup s = (Ok w, s') →
  Wrapper._dl_url w thing
  = Config.baseurl wrapcfg +:+ "/" +:+ artifact_of wrapcfg +:+ "/"
      +:+ Config.version wrapcfg +:+ "/" +:+ artifact_of wrapcfg +:+ "-"
      +:+ Config.version wrapcfg +:+ "-" +:+ thing +:+ ".zip".
Proof.
  intros [-> _]%init_Ok. unfold Wrapper._dl_url, artifact_of. cbn [Wrapper.cfg].
  by destruct (truthy_opt (Config.artname wrapcfg)).
Qed.

Lemma constructed_dl_url_witness :
  Wrapper._dl_url wpiutil_no_art "headers"
  = "https://example.org/maven/wpiutil/2020.1.1/wpiutil-2020.1.1-headers.zip".
Proof.
  apply (constructed_dl_url "wpiutil" wpiutil_cfg_no_art setup_wpiutil
           proj_world
           (Wrapper.__init__ "wpiutil" wpiutil_cfg_no_art setup_wpiutil
              proj_world).2).
  vm_compute. reflexivity.
Defined.

(** X4. A constructed wrapper has an extension descriptor exactly when its
    configuration lists explicit sources or generation entries.  The
    descriptor is then named by the import name, a dot and the package
    name, lists the explicit sources, has C++ as its language and no
    include directories, library directories or libraries yet. *)
Theorem init_extension (name : string) (wrapcfg : Config.t)
    (setup : Setup.t) (s s' : World) (w : Wrapper.t) :
  Wrapper.__init__ name wrapcfg setup s = (Ok w, s') →
  (Wrapper.extension w = None
   ↔ Config.sources wrapcfg = [] ∧ Config.generate wrapcfg = [])
  ∧ ∀ ext, Wrapper.extension w = Some ext →
      ext = Extension.mk (name +:+ "." +:+ Config.name wrapcfg)
              (Config.sources wrapcfg) [] [] [] (Some "c++").
Proof.
  intros [-> _]%init_Ok. cbn [Wrapper.extension].
  destruct (Config.sources wrapcfg), (Config.generate wrapcfg); simpl;
    (split; [split; [done|by intros [??]]|]); by intros ext [= <-].
Qed.

Lemma init_extension_witness :
  Wrapper.extension wpiutil_no_gen = None
  ↔ Config.sources wpiutil_cfg_no_gen = []
    ∧ Config.generate wpiutil_cfg_no_gen = [].
Proof.
  apply (init_extension "wpiutil" wpiutil_cfg_no_gen setup_wpiutil proj_world
           (Wrapper.__init__ "wpiutil" wpiutil_cfg_no_gen setup_wpiutil
              proj_world).2 wpiutil_no_gen).
  vm_compute. reflexivity.
Defined.

(** ** Dependency resolution, further *)

Section resolver_returns.
Context {A : Type} (reg : Registry.t) (f : PkgCfg.t → list A).

Lemma for_each_collect_returns deps init :
  returns (for_each deps (collect reg f) init)
  ↔ Forall (λ dep, is_Some (reg !! dep)) deps.
Proof.
  revert init. induction deps as [|d deps IH]; intros init.
  - split; [done|]. intros _. by exists init.
  - rewrite for_each_cons, Forall_cons. destruct (reg !! d) as [pkg|] eqn:Hd.
    + rewrite (collect_ok _ _ _ _ pkg), result_bind_Ok, IH by done.
      split; [by split|by intros [_ ?]].
    + rewrite collect_missing by done. split.
      * by intros [? ?].
      * by intros [[? ?] _].
Qed.

Lemma first_missing_None deps :
  first_missing reg deps = None ↔ Forall (λ dep, is_Some (reg !! dep)) deps.
Proof.
  induction deps as [|d deps IH]; simpl; [done|].
  rewrite Forall_cons, <-IH. destruct (reg !! d).
  - split; [by split|by intros [_ ?]].
  - split; [done|by intros [[? ?] _]].
Qed.

Lemma for_each_collect_present deps init :
  first_missing reg deps = None →
  ∃ l, for_each deps (collect reg f) init = Ok l.
Proof. intros H%first_missing_None. by apply for_each_collect_returns. Qed.
End resolver_returns.

(** X5. When every declared dependency has an entry in the registry, the
    resolved library directories are the package's own lib directory, then
    the library directories of its dependencies in declaration order. *)
Theorem all_library_dirs_order (self : Wrapper.t) (pkgs : list PkgCfg.t) :
  mapM (λ dep, Wrapper.pkgcfg self !! dep) (Config.depends (Wrapper.cfg self))
    = Some pkgs →
  Wrapper._all_library_dirs self
  = Ok ([Path.join (Wrapper.root self) ["lib"]]
        ++ concat (PkgCfg.get_library_dirs <$> pkgs)).
Proof.
  intros Hall. unfold Wrapper._all_library_dirs, Wrapper.get_library_dirs.
  fold (collect (Wrapper.pkgcfg self) PkgCfg.get_library_dirs).
  by rewrite (for_each_collect_ok _ _ _ pkgs).
Qed.

Lemma all_library_dirs_order_witness :
  Wrapper._all_library_dirs wpimath
  = Ok ["/proj/wpimath/lib"; "/site/wpiutil/lib"].
Proof. apply (all_library_dirs_order wpimath [wpiutil_pkg]). reflexivity. Defined.

(** X6. Each resolver returns a list exactly when every declared
    dependency has an entry in the registry; the resolution of the include
    directories with the toggle set needs the entry of robotpy-build as
    well. *)
Theorem resolution_returns_iff (self : Wrapper.t) :
  let present :=
    Forall (λ dep, is_Some (Wrapper.pkgcfg self !! dep))
      (Config.depends (Wrapper.cfg self)) in
  (returns (Wrapper._all_includes self false) ↔ present)
  ∧ (returns (Wrapper._all_includes self true)
     ↔ present ∧ is_Some (Wrapper.pkgcfg self !! "robotpy-build"))
  ∧ (returns (Wrapper._all_library_dirs self) ↔ present)
  ∧ (returns (Wrapper._all_library_names self) ↔ present).
Proof.
  cbv zeta. split_and!.
  - unfold Wrapper._all_includes.
    fold (collect (Wrapper.pkgcfg self) PkgCfg.get_include_dirs).
    rewrite <-(for_each_collect_returns _ PkgCfg.get_include_dirs _
                 (Wrapper.get_include_dirs self)).
    destruct (for_each _ _ _); split; intros [l ?]; try done; by exists l.
  - unfold Wrapper._all_includes.
    fold (collect (Wrapper.pkgcfg self) PkgCfg.get_include_dirs).
    rewrite <-(for_each_collect_returns _ PkgCfg.get_include_dirs _
                 (Wrapper.get_include_dirs self)).
    destruct (for_each _ _ _) as [l|e].
    + rewrite result_bind_Ok. unfold Registry.get_pkg.
      destruct (Wrapper.pkgcfg self !! "robotpy-build") as [pkg|]; simpl.
      * split; [|by eexists]. intros _. split; by eexists.
      * split; [by intros [? ?]|by intros [_ [? ?]]].
    + split; [by intros [? ?]|by intros [[? ?] _]].
  - unfold Wrapper._all_library_dirs.
    fold (collect (Wrapper.pkgcfg self) PkgCfg.get_library_dirs).
    apply for_each_collect_returns.
  - unfold Wrapper._all_library_names.
    fold (collect (Wrapper.pkgcfg self) PkgCfg.get_library_names).
    rewrite <-(for_each_collect_returns _ PkgCfg.get_library_names _
                 (Wrapper.get_library_names self)).
    destruct (for_each _ _ _); split; intros [l ?]; try done; by eexists.
Qed.

(** X7. When the registry has no entry of robotpy-build, the resolution of
    the include directories with the toggle set fails with the registry's
    not-found error: for the first declared dependency without an entry, or
    for robotpy-build itself when every declared dependency has one. *)
Theorem includes_without_rpyb (self : Wrapper.t) :
  Wrapper.pkgcfg self !! "robotpy-build" = None →
  Wrapper._all_includes self true
  = Err (NotFound
           (default "robotpy-build"
              (first_missing (Wrapper.pkgcfg self)
                 (Config.depends (Wrapper.cfg self))))).
Proof.
  intros Hrpyb. unfold Wrapper._all_includes.
  fold (collect (Wrapper.pkgcfg self) PkgCfg.get_include_dirs).
  destruct (first_missing _ _) as [dep|] eqn:Hm.
  - by rewrite (for_each_collect_first_missing _ _ _ dep).
  - destruct (for_each_collect_present _ PkgCfg.get_include_dirs _
                (Wrapper.get_include_dirs self) Hm) as [l ->].
    rewrite result_bind_Ok. unfold Registry.get_pkg. by rewrite Hrpyb.
Qed.

Lemma includes_without_rpyb_witness :
  Wrapper._all_includes wpimath true = Err (NotFound "robotpy-build")
  ∧ Wrapper._all_includes wpimath_alone true = Err (NotFound "wpiutil").
Proof.
  split.
  - apply (includes_without_rpyb wpimath). reflexivity.
  - apply (includes_without_rpyb wpimath_alone). reflexivity.
Defined.

(** ** The archive URL, further *)

Lemma str_app_inj_l (s t u : string) : s +:+ t = s +:+ u → t = u.
Proof.
  induction s as [|a s IH]; [done|]. rewrite !str_app_cons. intros [= H]. auto.
Qed.

(** X8. Two qualifiers give the same archive URL only when they are the
    same: the headers archive and the archive of a platform are never
    mixed up, whatever the base URL, artifact name and version are. *)
Theorem dl_url_injective (self : Wrapper.t) (thing1 thing2 : string) :
  Wrapper._dl_url self thing1 = Wrapper._dl_url self thing2 ↔ thing1 = thing2.
Proof.
  split; [|by intros ->]. unfold Wrapper._dl_url. cbv zeta. intros H.
  repeat apply str_app_inj_l in H. by apply str_app_inj_r in H.
Qed.

(** ** Where a constructed wrapper lives *)

Lemma lacks_split c d s :
  Str.lacks c s = true → Forall (λ t, Str.lacks c t = true) (Str.split d s).
Proof.
  induction s as [|a s IH]; [by repeat constructor|]. simpl.
  intros [Ha Hs]%andb_true_iff. specialize (IH Hs).
  destruct (bool_decide (a = d)); [by constructor|].
  destruct (Str.split d s) as [|h t]; [by repeat constructor; simpl; rewrite Ha|].
  apply Forall_cons in IH as [Hh Ht]. constructor; [|done]. simpl.
  by rewrite Ha, Hh.
Qed.

Lemma endswith_char_lacks c s : Str.lacks c s = true → Str.endswith_char c s = false.
Proof.
  induction s as [|a s IH]; [done|]. simpl.
  intros [Ha%negb_true_iff Hs]%andb_true_iff. destruct s; [done|]. by apply IH.
Qed.

Lemma startswith_lacks c s :
  Str.lacks c s = true → Str.startswith (String c "") s = false.
Proof.
  destruct s as [|a s]; [done|]. intros H. simpl in H.
  apply andb_true_iff in H as [Ha%negb_true_iff%bool_decide_eq_false _].
  unfold Str.startswith. rewrite prefix_cons_eq.
  destruct (ascii_dec c a); [by subst|done].
Qed.

(** Joining components that are not empty and hold no separator puts one
    separator before each. *)
Lemma path_join_components root comps :
  Str.truthy root = true → Str.endswith_char "/" root = false →
  Forall (λ c, Str.truthy c = true ∧ Str.lacks "/" c = true) comps →
  comps ≠ [] →
  Path.join root comps = root +:+ "/" +:+ Str.join "/" comps.
Proof.
  intros Hroot Hend Hcomps. revert root Hroot Hend.
  induction Hcomps as [|c comps [Hc Hlack] Hcomps IH]; intros root Hroot Hend Hne;
    [done|].
  unfold Path.join in *. cbn [foldl].
  rewrite join2_relative by (try done; by apply startswith_lacks).
  destruct comps as [|c' comps]; [done|].
  rewrite IH; [|by apply truthy_app_r, truthy_app_r| |done].
  - unfold Str.join. cbn [String.concat]. unfold Path.sep.
    by rewrite !str_app_assoc.
  - rewrite endswith_char_app by by apply truthy_app_r.
    unfold Path.sep. rewrite endswith_char_app by done.
    by apply endswith_char_lacks.
Qed.

(** X9. The directory of a constructed wrapper is the project root
    followed by the components of the dotted import name, one directory
    level each, when the project root is not empty and does not end with a
    separator and the import name has no separator and no empty
    component. *)
Theorem constructed_root (name : string) (wrapcfg : Config.t)
    (setup : Setup.t) (s s' : World) (w : Wrapper.t) :
  Wrapper.__init__ name wrapcfg setup s = (Ok w, s') →
  Str.truthy (Setup.root setup) = true →
  Str.endswith_char "/" (Setup.root setup) = false →
  Str.lacks "/" name = true →
  Forall (λ c, Str.truthy c = true) (Str.split "." name) →
  Wrapper.root w
  = Setup.root setup +:+ "/" +:+ Str.join "/" (Str.split "." name).
Proof.
  intros [-> _]%init_Ok Hroot Hend Hname Hcomps. cbn [Wrapper.root].
  apply path_join_components; [done..| |apply split_nonempty].
  apply (lacks_split _ ".") in Hname.
  apply Forall_forall. intros c Hc. split.
  - by eapply Forall_forall in Hcomps.
  - by eapply Forall_forall in Hname.
Qed.

Lemma constructed_root_witness :
  Wrapper.root geometry = "/proj/wpilib/geometry".
Proof.
  apply (constructed_root "wpilib.geometry" wpiutil_cfg_no_art setup_wpiutil
           proj_world
           (Wrapper.__init__ "wpilib.geometry" wpiutil_cfg_no_art setup_wpiutil
              proj_world).2 geometry); try reflexivity.
  repeat constructor.
Defined.

(** ** The generation step, further *)

(** X10. After a generation step that returned, for a package with
    generation entries, the extension descriptor keeps its name and its
    language; its include directories are the ones resolved with the
    entry of robotpy-build included, its library directories and its
    libraries the resolved ones, and its sources the explicit ones followed
    by the generated ones.  Nothing else of the wrapper changes. *)
Theorem on_build_gen_updates_extension (T : Tools.t) (self self' : Wrapper.t)
    (s s' : World) :
  Config.generate (Wrapper.cfg self) ≠ [] →
  Wrapper.on_build_gen T self s = (Ok self', s') →
  ∃ ext include_dirs library_dirs libraries,
    Wrapper.extension self = Some ext
    ∧ Wrapper._all_includes self true = Ok include_dirs
    ∧ Wrapper._all_library_dirs self = Ok library_dirs
    ∧ Wrapper._all_library_names self = Ok libraries
    ∧ self' = Wrapper.mk (Wrapper.name self) (Wrapper.import_name self)
                (Wrapper.setup_root self) (Wrapper.root self)
                (Wrapper.cfg self) (Wrapper.platform self)
                (Wrapper.pkgcfg self)
                (Some (Extension.mk (Extension.name ext)
                         (Config.sources (Wrapper.cfg self) ++ gen_sources self)
                         include_dirs library_dirs libraries
                         (Extension.language ext))).
Proof.
  intros Hgen (pp & s1 & _ & _ & Hrest)%on_build_gen_Ok; [|done].
  by apply gen_rest_spec in Hrest as [? _].
Qed.

Lemma on_build_gen_updates_extension_witness :
  ∃ ext include_dirs library_dirs libraries,
    Wrapper.extension wpiutil = Some ext
    ∧ Wrapper._all_includes wpiutil true = Ok include_dirs
    ∧ Wrapper._all_library_dirs wpiutil = Ok library_dirs
    ∧ Wrapper._all_library_names wpiutil = Ok libraries
    ∧ wpiutil_built
      = Wrapper.mk (Wrapper.name wpiutil) (Wrapper.import_name wpiutil)
          (Wrapper.setup_root wpiutil) (Wrapper.root wpiutil)
          (Wrapper.cfg wpiutil) (Wrapper.platform wpiutil)
          (Wrapper.pkgcfg wpiutil)
          (Some (Extension.mk (Extension.name ext)
                   (Config.sources (Wrapper.cfg wpiutil) ++ gen_sources wpiutil)
                   include_dirs library_dirs libraries
                   (Extension.language ext))).
Proof.
  apply (on_build_gen_updates_extension demo_tools wpiutil wpiutil_built
           proj_world (Wrapper.on_build_gen demo_tools wpiutil proj_world).2).
  - discriminate.
  - vm_compute. reflexivity.
Defined.

(** X11. When a declared dependency has no entry in the registry, the
    generation step of a package with generation entries fails with the
    registry's not-found error for the first such dependency before it
    touches anything: the output directory of an earlier run is not
    removed, nothing is read or written, and the log records no request. *)
Theorem on_build_gen_missing_dependency (T : Tools.t) (self : Wrapper.t)
    (s : World) (dep : string) :
  Config.generate (Wrapper.cfg self) ≠ [] →
  first_missing (Wrapper.pkgcfg self) (Config.depends (Wrapper.cfg self))
    = Some dep →
  Wrapper.on_build_gen T self s = (Err (NotFound dep), s).
Proof.
  intros Hgen Hdep. rewrite on_build_gen_eq by done.
  unfold Wrapper._all_includes.
  fold (collect (Wrapper.pkgcfg self) PkgCfg.get_include_dirs).
  by rewrite (for_each_collect_first_missing _ _ _ dep).
Qed.

Lemma on_build_gen_missing_dependency_witness :
  Wrapper.on_build_gen demo_tools wpiutil_orphan proj_world
  = (Err (NotFound "wpinet"), proj_world).
Proof.
  apply (on_build_gen_missing_dependency demo_tools wpiutil_orphan proj_world
           "wpinet"); [discriminate | reflexivity].
Defined.

(** X12. A generation step that returned, for a package whose module
    names hold no path separator, changed nothing outside its output
    directory, except that the missing directories above the output
    directory now exist; the download cache and the entry points are as
    they were. *)
Theorem on_build_gen_frame (T : Tools.t) (self self' : Wrapper.t)
    (s s' : World) :
  Forall stem_name (module_names self) →
  Wrapper.on_build_gen T self s = (Ok self', s') →
  cache s' = cache s ∧ entry_points s' = entry_points s
  ∧ ∀ p, FS.inside (outdir_of self) p = false → p ≠ outdir_of self →
      fs s' !! p
      = if decide (Config.generate (Wrapper.cfg self) ≠ []
                   ∧ p ∈ FS.ancestors (outdir_of self))
        then Some Dir else fs s !! p.
Proof.
  intros Hnames Hrun.
  destruct (decide (Config.generate (Wrapper.cfg self) = [])) as [Hgen|Hgen].
  - rewrite on_build_gen_nil in Hrun by done. injection Hrun as <- <-.
    split_and!; [done..|]. intros p _ _. rewrite decide_False; [done|tauto].
  - apply on_build_gen_Ok in Hrun as (pp & s1 & _ & Hclear & Hrest); [|done].
    pose proof (gen_rest_spec _ _ _ _ _ _ Hrest) as (_ & (Hc & He & _) & _).
    apply bind_Ok in Hclear as (u & s0 & Hrm & Hmk).
    rewrite rmtree_run in Hrm. injection Hrm as _ <-.
    apply makedirs_Ok in Hmk as (_ & _ & ->). cbn [fs cache entry_points] in *.
    split_and!; [done..|]. intros p Hp Hne.
    rewrite (gen_rest_frame _ _ _ _ _ _ p Hnames Hrest Hp). cbn [fs].
    rewrite lookup_insert_ne, lookup_mkdir_ops by done.
    destruct (decide (p ∈ FS.ancestors (outdir_of self))) as [Hin|Hin].
    + rewrite decide_True; [done|by split].
    + rewrite decide_False by tauto.
      pose proof (acts_apply (FS.Rmtree (outdir_of self)) (fs s) p) as Hk.
      cbn [op_kf] in Hk. rewrite Hp in Hk. by rewrite decide_False in Hk.
Qed.

Lemma on_build_gen_frame_witness :
  fs (Wrapper.on_build_gen demo_tools wpiutil proj_world).2
    !! "/proj/gen/wpiutil.yml" = Some (File "---")
  ∧ fs (Wrapper.on_build_gen demo_tools wpiutil proj_world).2
    !! "/proj/wpiutil" = Some Dir.
Proof.
  destruct (on_build_gen_frame demo_tools wpiutil wpiutil_built proj_world
              (Wrapper.on_build_gen demo_tools wpiutil proj_world).2)
    as (_ & _ & Hframe).
  - apply Forall_cons_2; [reflexivity | apply Forall_nil_2].
  - vm_compute. reflexivity.
  - split.
    + rewrite (Hframe "/proj/gen/wpiutil.yml"); [|reflexivity|discriminate].
      reflexivity.
    + rewrite (Hframe "/proj/wpiutil"); [|reflexivity|discriminate].
      reflexivity.
Defined.

(** ** The generated Python files *)

Lemma replace_go_lacks_all c old new s :
  Str.lacks c s = true → Str.replace_go (String c old) new 0 s = s.
Proof.
  intros Hs. rewrite <-(str_app_nil_r s) at 1.
  rewrite replace_go_lacks by done. simpl. apply str_app_nil_r.
Qed.

Lemma concat_app_str (l k : list string) :
  String.concat "" (l ++ k) = String.concat "" l +:+ String.concat "" k.
Proof.
  induction l as [|s l IH]; [done|]. simpl.
  destruct (l ++ k) eqn:Hlk.
  - apply app_eq_nil in Hlk as [-> ->]. simpl. by rewrite str_app_nil_r.
  - rewrite str_app_nil_l, IH. destruct l; [done|].
    by rewrite str_app_nil_l, str_app_assoc.
Qed.

Lemma concat_cons_str (s : string) (l : list string) :
  String.concat "" (s :: l) = s +:+ String.concat "" l.
Proof. apply (concat_app_str [s] l). Qed.

Lemma lacks_concat c (l : list string) :
  Forall (λ s, Str.lacks c s = true) l → Str.lacks c (String.concat "" l) = true.
Proof.
  induction 1 as [|s l Hs Hl IH]; [done|].
  by rewrite concat_cons_str, lacks_app, Hs, IH.
Qed.

(** *** [__init__.py] *)

Lemma cleandoc_init_py :
  Str.cleandoc Wrapper.init_py_doc +:+ Str.nl
  = init_py_head +:+ "##IMPORTS##" +:+ init_py_mid.
Proof. vm_compute. reflexivity. Qed.

Lemma replace_imports_head (imports rest : string) :
  Str.replace_go "##IMPORTS##" imports 0 (init_py_head +:+ rest)
  = init_py_head +:+ Str.replace_go "##IMPORTS##" imports 0 rest.
Proof. vm_compute. reflexivity. Qed.

Lemma replace_imports_mid (imports rest : string) :
  Str.replace_go "##IMPORTS##" imports 0 ("##IMPORTS##" +:+ init_py_mid +:+ rest)
  = imports +:+ init_py_mid +:+ Str.replace_go "##IMPORTS##" imports 0 rest.
Proof. vm_compute. reflexivity. Qed.

Lemma load_lines_foldl (init : string) (libnames : list string) :
  foldl (λ init libname,
    init +:+ "_lib = cdll.LoadLibrary(join(_root, " +:+ Str.dq +:+ "lib"
      +:+ Str.dq +:+ ", " +:+ Str.dq +:+ libname +:+ Str.dq +:+ "))"
      +:+ Str.nl) init libnames
  = init +:+ String.concat "" (load_line <$> libnames).
Proof.
  revert init. induction libnames as [|n l IH]; intros init.
  - simpl. by rewrite str_app_nil_r.
  - cbn [foldl]. rewrite IH, fmap_cons, concat_cons_str.
    by rewrite str_app_assoc.
Qed.

Lemma lacks_load_line (n : string) :
  Str.lacks "#" n = true → Str.lacks "#" (load_line n) = true.
Proof. intros Hn. unfold load_line. by rewrite !lacks_app, Hn. Qed.

Lemma import_block_eq (imports : list string) :
  (if truthy_list imports
   then "# runtime dependencies" +:+ Str.nl +:+ "import "
          +:+ Str.join (Str.nl +:+ "import ") imports
   else "")
  = import_block imports.
Proof.
  destruct imports as [|i imports]; [done|]. unfold import_block, Str.join.
  cbn [truthy_list fmap list_fmap String.concat]. do 2 f_equal.
  revert i. induction imports as [|j imports IH]; intros i; [done|].
  cbn [String.concat fmap list_fmap]. rewrite <-IH.
  by rewrite !str_app_assoc.
Qed.

(** The loop that collects the import names of the dependencies. *)
Lemma imports_step (reg : Registry.t) imports dep pkg :
  reg !! dep = Some pkg →
  (pkg ← Registry.get_pkg reg dep;
   if truthy_opt (PkgCfg.import_name pkg)
   then mret (imports ++ [py_str (PkgCfg.import_name pkg)])
   else mret imports)
  = Ok (imports ++ runtime_imports [pkg]).
Proof.
  intros Hdep. unfold Registry.get_pkg. rewrite Hdep, result_bind_Ok.
  unfold runtime_imports. rewrite filter_cons.
  destruct (truthy_opt (PkgCfg.import_name pkg)) eqn:Ht.
  - by rewrite decide_True.
  - rewrite decide_False by done. simpl. by rewrite app_nil_r.
Qed.

Lemma imports_step_missing (reg : Registry.t) imports dep :
  reg !! dep = None →
  (pkg ← Registry.get_pkg reg dep;
   if truthy_opt (PkgCfg.import_name pkg)
   then mret (imports ++ [py_str (PkgCfg.import_name pkg)])
   else mret imports)
  = Err (NotFound dep).
Proof. intros Hdep. unfold Registry.get_pkg. by rewrite Hdep. Qed.

Lemma runtime_imports_cons pkg pkgs :
  runtime_imports (pkg :: pkgs) = runtime_imports [pkg] ++ runtime_imports pkgs.
Proof.
  unfold runtime_imports. rewrite !filter_cons, filter_nil.
  by destruct (decide _).
Qed.

Lemma imports_loop (reg : Registry.t) deps pkgs init :
  mapM (λ dep, reg !! dep) deps = Some pkgs →
  for_each deps (λ imports dep,
    pkg ← Registry.get_pkg reg dep;
    if truthy_opt (PkgCfg.import_name pkg)
    then mret (imports ++ [py_str (PkgCfg.import_name pkg)])
    else mret imports) init
  = Ok (init ++ runtime_imports pkgs).
Proof.
  intros Hall%mapM_Some. revert init.
  induction Hall as [|dep pkg deps pkgs Hdep _ IH]; intros init.
  - simpl. by rewrite app_nil_r.
  - rewrite for_each_cons. cbv beta. rewrite (imports_step _ _ _ pkg) by done.
    rewrite result_bind_Ok, IH, (runtime_imports_cons pkg pkgs).
    by rewrite <-(assoc_L (++)).
Qed.

Lemma imports_loop_missing (reg : Registry.t) deps dep init :
  first_missing reg deps = Some dep →
  for_each deps (λ imports dep,
    pkg ← Registry.get_pkg reg dep;
    if truthy_opt (PkgCfg.import_name pkg)
    then mret (imports ++ [py_str (PkgCfg.import_name pkg)])
    else mret imports) init
  = Err (NotFound dep).
Proof.
  revert init. induction deps as [|d deps IH]; intros init; [done|].
  rewrite for_each_cons. cbv beta. simpl first_missing.
  destruct (reg !! d) as [pkg|] eqn:Hd.
  - intros Hm. rewrite (imports_step _ _ _ pkg) by done.
    rewrite result_bind_Ok. by apply IH.
  - intros [= <-]. by rewrite imports_step_missing.
Qed.

(** What [_write_init_py] writes, when it returns. *)
Lemma write_init_py_Ok self fname libnames (s s' : World) u :
  Forall (λ n, Str.lacks "#" n = true) libnames →
  Wrapper._write_init_py self fname libnames s = (Ok u, s') →
  ∃ pkgs,
    mapM (λ dep, Wrapper.pkgcfg self !! dep) (Config.depends (Wrapper.cfg self))
      = Some pkgs
    ∧ s' = mkWorld
             (<[Path.join (Wrapper.root self) ["__init__.py"] :=
                  File (init_py_text (runtime_imports pkgs) libnames)]> (fs s))
             (cache s) (entry_points s)
             (EvWrite (Path.join (Wrapper.root self) ["__init__.py"]) :: log s).
Proof.
  intros Hlibs. unfold Wrapper._write_init_py. cbv zeta.
  intros (imports & s1 & Himp & Hw)%bind_Ok.
  apply lift_Ok in Himp as [Himp ->].
  destruct (mapM (λ dep, Wrapper.pkgcfg self !! dep)
              (Config.depends (Wrapper.cfg self))) as [pkgs|] eqn:Hpkgs.
  - exists pkgs. split; [done|].
    rewrite (imports_loop _ _ pkgs) in Himp by done. injection Himp as <-.
    apply write_file_Ok in Hw as ->. do 3 f_equal.
    rewrite import_block_eq, load_lines_foldl.
    rewrite cleandoc_init_py. unfold Str.replace, init_py_text.
    rewrite !str_app_assoc, replace_imports_head, replace_imports_mid.
    rewrite (replace_go_lacks_all "#" "#IMPORTS##"); [done|].
    apply lacks_concat, Forall_fmap. eapply Forall_impl; [exact Hlibs|].
    intros n Hn. by apply lacks_load_line.
  - exfalso. destruct (first_missing (Wrapper.pkgcfg self)
                         (Config.depends (Wrapper.cfg self))) as [dep|] eqn:Hm.
    + by rewrite (imports_loop_missing _ _ dep) in Himp.
    + apply first_missing_None, mapM_is_Some in Hm. rewrite Hpkgs in Hm.
      by destruct Hm.
Qed.

(** *** [pkgcfg.py] *)

Lemma expandtabs_lacks s col :
  Str.lacks "009" s = true → Str.expandtabs_go col s = s.
Proof.
  revert col. induction s as [|a s IH]; intros col; [done|]. simpl.
  intros [Ha%negb_true_iff Hs]%andb_true_iff. rewrite Ha.
  destruct (_ || _); by rewrite IH.
Qed.

Lemma lstrip_app pre r :
  Str.lstrip pre ≠ "" → Str.lstrip (pre +:+ r) = Str.lstrip pre +:+ r.
Proof.
  induction pre as [|a pre IH]; [done|]. rewrite str_app_cons. simpl.
  destruct (Str.is_space a); [done|]. by rewrite str_app_cons.
Qed.

Lemma lstrip_length s : String.length (Str.lstrip s) ≤ String.length s.
Proof.
  induction s as [|a s IH]; [done|]. simpl.
  destruct (Str.is_space a); simpl; lia.
Qed.

(** The indentation of a line is decided by its first character that is
    not white space. *)
Lemma indent_of_app pre r k :
  Str.indent_of pre = Some k → Str.indent_of (pre +:+ r) = Some k.
Proof.
  unfold Str.indent_of. cbv zeta. case_bool_decide as Hpre; [done|].
  intros [= <-]. rewrite lstrip_app by (by destruct (Str.lstrip pre)).
  rewrite !str_length_app. pose proof (lstrip_length pre).
  rewrite bool_decide_eq_false_2 by lia. f_equal. lia.
Qed.

(** The margin [cleandoc] removes is decided by the indentations of the
    lines. *)
Lemma margin_from (l : list string) (ks : list (option nat)) m :
  Forall2 (λ line i, Str.indent_of line = i) l ks →
  foldl Str.min_margin m l
  = foldl (λ m i, match i, m with
                  | None, _ => m
                  | Some i, None => Some i
                  | Some i, Some k => Some (i `min` k)
                  end) m ks.
Proof.
  intros H. revert m. induction H as [|line i l ks Hi _ IH]; intros m; [done|].
  cbn [foldl]. rewrite <-IH. unfold Str.min_margin. by rewrite Hi.
Qed.

Lemma cleandoc_pkgcfg_py (X Y : string) :
  Str.lacks "010" X = true → Str.lacks "009" X = true →
  Str.lacks "010" Y = true → Str.lacks "009" Y = true →
  Str.cleandoc (Wrapper.pkgcfg_py_doc X Y)
  = Str.join Str.nl (pkgcfg_py_lines X "##EXTRAINCLUDES##" Y).
Proof.
  intros HnX HtX HnY HtY. unfold Str.cleandoc, Str.expandtabs.
  rewrite expandtabs_lacks.
  2:{ unfold Wrapper.pkgcfg_py_doc. apply lacks_join; [done|].
      repeat apply Forall_cons_2; try apply Forall_nil_2;
        rewrite ?lacks_app, ?HtX, ?HtY; done. }
  unfold Wrapper.pkgcfg_py_doc. rewrite split_join; [|done|].
  2:{ repeat apply Forall_cons_2; try apply Forall_nil_2;
        rewrite ?lacks_app, ?HnX, ?HnY; done. }
  cbv beta iota zeta.
  erewrite margin_from.
  2:{ repeat apply Forall2_cons_2; try apply Forall2_nil_2;
        lazymatch goal with
        | |- Str.indent_of (_ +:+ _) = _ =>
            apply indent_of_app; vm_compute; reflexivity
        | |- _ => vm_compute; reflexivity
        end. }
  vm_compute. reflexivity.
Qed.

Lemma pkgcfg_py_flat (X P Y : string) :
  Str.join Str.nl (pkgcfg_py_lines X P Y)
  = pkgcfg_py_a +:+ X +:+ pkgcfg_py_b +:+ P +:+ pkgcfg_py_c +:+ Y
      +:+ pkgcfg_py_d.
Proof.
  unfold Str.join, pkgcfg_py_lines. cbn [String.concat].
  rewrite !str_app_assoc. reflexivity.
Qed.

Lemma replace_extra_a (extra rest : string) :
  Str.replace_go "##EXTRAINCLUDES##" extra 0 (pkgcfg_py_a +:+ rest)
  = pkgcfg_py_a +:+ Str.replace_go "##EXTRAINCLUDES##" extra 0 rest.
Proof. vm_compute. reflexivity. Qed.

Lemma replace_extra_b (extra rest : string) :
  Str.replace_go "##EXTRAINCLUDES##" extra 0
    (pkgcfg_py_b +:+ "##EXTRAINCLUDES##" +:+ pkgcfg_py_c +:+ rest)
  = pkgcfg_py_b +:+ extra +:+ pkgcfg_py_c
      +:+ Str.replace_go "##EXTRAINCLUDES##" extra 0 rest.
Proof. vm_compute. reflexivity. Qed.

Lemma replace_extra_d (extra : string) :
  Str.replace_go "##EXTRAINCLUDES##" extra 0 pkgcfg_py_d = pkgcfg_py_d.
Proof. vm_compute. reflexivity. Qed.

Lemma replace_extraincludes (X Y extra : string) :
  Str.lacks "#" X = true → Str.lacks "#" Y = true →
  Str.replace "##EXTRAINCLUDES##" extra
    (Str.join Str.nl (pkgcfg_py_lines X "##EXTRAINCLUDES##" Y))
  = Str.join Str.nl (pkgcfg_py_lines X extra Y).
Proof.
  intros HX HY. rewrite !pkgcfg_py_flat. unfold Str.replace.
  rewrite replace_extra_a, (replace_go_lacks "#" "#EXTRAINCLUDES##") by done.
  rewrite replace_extra_b, (replace_go_lacks "#" "#EXTRAINCLUDES##") by done.
  by rewrite replace_extra_d.
Qed.

Lemma extra_includes_foldl (T : Tools.t) (self : Wrapper.t) (init : string)
    (hs : list string) :
  foldl (λ extraincludes h,
    let h := Str.join (Str.dq +:+ ", " +:+ Str.dq)
               (Str.split "/"
                  (Tools.relpath T (Tools.normpath T h)
                     match Str.split "." (Wrapper.import_name self) with
                     | a :: p => Path.join a p
                     | [] => ""
                     end)) in
    extraincludes +:+ ", join(_root, " +:+ Str.dq +:+ h +:+ Str.dq +:+ ")")
    init hs
  = init +:+ String.concat "" (extra_include T self <$> hs).
Proof.
  revert init. induction hs as [|h hs IH]; intros init.
  - simpl. by rewrite str_app_nil_r.
  - cbn [foldl]. rewrite IH, fmap_cons, concat_cons_str.
    by rewrite str_app_assoc.
Qed.

(** What [_write_pkgcfg_py] writes, when it returns. *)
Lemma write_pkgcfg_py_Ok T self fname (s s' : World) u :
  plain_text (Wrapper.import_name self) →
  plain_text (Config.name (Wrapper.cfg self)) →
  Wrapper._write_pkgcfg_py T self fname s = (Ok u, s') →
  s' = mkWorld (<[fname := File (pkgcfg_py_text T self)]> (fs s))
         (cache s) (entry_points s) (EvWrite fname :: log s).
Proof.
  intros (HhX & HnX & HtX) (HhY & HnY & HtY).
  unfold Wrapper._write_pkgcfg_py. cbv zeta. intros ->%write_file_Ok.
  do 3 f_equal. rewrite cleandoc_pkgcfg_py by done.
  rewrite replace_extraincludes by done. unfold pkgcfg_py_text. do 3 f_equal.
  destruct (Config.extra_headers (Wrapper.cfg self)) as [|h hs] eqn:Hhs; [done|].
  exact (extra_includes_foldl T self "" (h :: hs)).
Qed.

(** X13. When [_write_init_py] returns and no library file name holds a
    number sign, the file __init__.py of the package directory, whatever
    file name was passed, holds: the fixed head, then the imports of the
    dependencies that have an import name, in the order the dependencies
    are declared and under one comment line (nothing when there is none),
    then the import of cdll, then one LoadLibrary line per library file
    name, in order. *)
Theorem write_init_py_text (self : Wrapper.t) (fname : string)
    (libnames : list string) (s s' : World) (u : unit) :
  Forall (λ n, Str.lacks "#" n = true) libnames →
  Wrapper._write_init_py self fname libnames s = (Ok u, s') →
  ∃ pkgs,
    mapM (λ dep, Wrapper.pkgcfg self !! dep) (Config.depends (Wrapper.cfg self))
      = Some pkgs
    ∧ fs s' !! Path.join (Wrapper.root self) ["__init__.py"]
      = Some (File (init_py_text (runtime_imports pkgs) libnames)).
Proof.
  intros Hlibs (pkgs & Hpkgs & ->)%write_init_py_Ok; [|done].
  exists pkgs. split; [done|]. cbn [fs]. apply lookup_insert_eq.
Qed.

Lemma write_init_py_text_witness :
  ∃ pkgs,
    mapM (λ dep, Wrapper.pkgcfg wpimath !! dep)
      (Config.depends (Wrapper.cfg wpimath)) = Some pkgs
    ∧ fs (Wrapper._write_init_py wpimath "ignored" ["libwpimath.so"]
            wpimath_world).2
        !! Path.join (Wrapper.root wpimath) ["__init__.py"]
      = Some (File (init_py_text (runtime_imports pkgs) ["libwpimath.so"])).
Proof.
  apply (write_init_py_text wpimath "ignored" ["libwpimath.so"] wpimath_world
           (Wrapper._write_init_py wpimath "ignored" ["libwpimath.so"]
              wpimath_world).2 ()).
  - apply Forall_cons_2; [reflexivity | apply Forall_nil_2].
  - vm_compute. reflexivity.
Defined.

(** X14. When a declared dependency has no entry in the registry,
    [_write_init_py] fails with the registry's not-found error for the
    first such dependency and writes nothing: the world is left as it
    was. *)
Theorem write_init_py_missing_dependency (self : Wrapper.t) (fname : string)
    (libnames : list string) (s : World) (dep : string) :
  first_missing (Wrapper.pkgcfg self) (Config.depends (Wrapper.cfg self))
    = Some dep →
  Wrapper._write_init_py self fname libnames s = (Err (NotFound dep), s).
Proof.
  intros Hdep. unfold Wrapper._write_init_py. cbv zeta.
  rewrite run_bind. by rewrite (imports_loop_missing _ _ dep).
Qed.

Lemma write_init_py_missing_dependency_witness :
  Wrapper._write_init_py wpimath_alone "__init__.py" ["libwpimath.so"]
    wpimath_world
  = (Err (NotFound "wpiutil"), wpimath_world).
Proof.
  apply (write_init_py_missing_dependency wpimath_alone "__init__.py"
           ["libwpimath.so"] wpimath_world "wpiutil").
  reflexivity.
Defined.

(** X15. When [_write_pkgcfg_py] returns, for a package whose import name
    and package name are plain texts, the file it was asked to write holds
    the lines of pkgcfg.py: the import name, a get_include_dirs that
    reports the include directory followed by one entry per extra header
    directory in the order of the configuration, a get_library_dirs that
    reports the lib directory, and a get_library_names that reports the
    package name. *)
Theorem write_pkgcfg_py_text (T : Tools.t) (self : Wrapper.t) (fname : string)
    (s s' : World) (u : unit) :
  plain_text (Wrapper.import_name self) →
  plain_text (Config.name (Wrapper.cfg self)) →
  Wrapper._write_pkgcfg_py T self fname s = (Ok u, s') →
  fs s' !! fname
  = Some (File (Str.join Str.nl
                  (pkgcfg_py_lines (Wrapper.import_name self)
                     (String.concat ""
                        (extra_include T self
                           <$> Config.extra_headers (Wrapper.cfg self)))
                     (Config.name (Wrapper.cfg self))))).
Proof.
  intros HX HY ->%write_pkgcfg_py_Ok; [|done..]. cbn [fs].
  apply lookup_insert_eq.
Qed.

Lemma write_pkgcfg_py_text_witness :
  fs (Wrapper._write_pkgcfg_py demo_tools wpimath "/proj/wpimath/pkgcfg.py"
        wpimath_world).2 !! "/proj/wpimath/pkgcfg.py"
  = Some (File (Str.join Str.nl (pkgcfg_py_lines "wpimath" "" "wpimath"))).
Proof.
  apply (write_pkgcfg_py_text demo_tools wpimath "/proj/wpimath/pkgcfg.py"
           wpimath_world
           (Wrapper._write_pkgcfg_py demo_tools wpimath
              "/proj/wpimath/pkgcfg.py" wpimath_world).2 ()).
  - repeat split; reflexivity.
  - repeat split; reflexivity.
  - vm_compute. reflexivity.
Defined.

(** ** The download step *)

Lemma on_build_dl_eq T self cache :
  Wrapper.on_build_dl T self cache
  = (Os.rmtree (lib_dir self);;
     Os.rmtree (include_dir self);;
     ignore_OSError (Os.unlink (init_py self));;
     ignore_OSError (Os.unlink (pkgcfg_py self));;
     Wrapper._extract_zip_to T self "headers" (ToDir (include_dir self)) cache;;
     Os.makedirs (lib_dir self);;
     Wrapper._extract_zip_to T self
       (Platform.os (Wrapper.platform self)
          +:+ Platform.arch (Wrapper.platform self))
       (ToMap (dict_of ((λ libname,
                  (lib_member self libname, Path.join (lib_dir self) [libname]))
                 <$> lib_file_names self))) cache;;
     Wrapper._write_init_py self (init_py self) (lib_file_names self);;
     Wrapper._write_pkgcfg_py T self (pkgcfg_py self)).
Proof. reflexivity. Qed.

(** The download step always starts by removing what an earlier run left,
    and goes on from there. *)
Lemma on_build_dl_cleans T self cache (s : World) :
  Wrapper.on_build_dl T self cache s
  = (Wrapper._extract_zip_to T self "headers" (ToDir (include_dir self)) cache;;
     Os.makedirs (lib_dir self);;
     Wrapper._extract_zip_to T self
       (Platform.os (Wrapper.platform self)
          +:+ Platform.arch (Wrapper.platform self))
       (ToMap (dict_of ((λ libname,
                  (lib_member self libname, Path.join (lib_dir self) [libname]))
                 <$> lib_file_names self))) cache;;
     Wrapper._write_init_py self (init_py self) (lib_file_names self);;
     Wrapper._write_pkgcfg_py T self (pkgcfg_py self)) (cleaned self s).
Proof.
  rewrite on_build_dl_eq.
  rewrite run_bind, rmtree_run. rewrite run_bind, rmtree_run.
  rewrite run_bind, unlink_ignored_run. rewrite run_bind, unlink_ignored_run.
  reflexivity.
Qed.

(** X16. When neither the download cache nor the remote store has the
    headers archive, the download step fails with the fetch error for its
    URL.  By then it has removed the lib and include directories and the
    two descriptor files of an earlier run, and it has done nothing else:
    no directory is created, no file is written and the platform archive is
    not asked for. *)
Theorem on_build_dl_fetch_failure (T : Tools.t) (self : Wrapper.t)
    (cache_dir : string) (s : World) :
  archive_at T s (headers_url self) = None →
  Wrapper.on_build_dl T self cache_dir s
  = (Err (FetchError (headers_url self)),
     mkWorld (fs (cleaned self s)) (cache s) (entry_points s)
       (EvDownload (headers_url self) :: log (cleaned self s))).
Proof.
  unfold archive_at. intros Harch. rewrite on_build_dl_cleans.
  unfold Wrapper._extract_zip_to, Download.download_and_extract_zip.
  rewrite !run_bind. unfold Download.fetch. cbn [cache cleaned].
  fold (headers_url self).
  destruct (cache s !! headers_url self); [done|].
  cbn [fs entry_points log cache]. by rewrite Harch.
Qed.

Lemma on_build_dl_fetch_failure_witness :
  (Wrapper.on_build_dl demo_tools wpimath "cache" wpimath_world).1
  = Err (FetchError
           "https://example.org/maven/wpimath/2020.1.1/wpimath-2020.1.1-headers.zip").
Proof.
  rewrite (on_build_dl_fetch_failure demo_tools wpimath "cache" wpimath_world).
  - reflexivity.
  - reflexivity.
Defined.

(** *** What the download step leaves in the tree *)

Lemma blocked_None (fs : FS.t) dirs a :
  FS.blocked fs dirs = None → a ∈ dirs → FS.is_file (fs !! a) = false.
Proof.
  induction dirs as [|d dirs IH]; simpl; [by intros _ ?%elem_of_nil|].
  destruct (FS.is_file (fs !! d)) eqn:Hd; [done|].
  intros Hb [->|Hin]%elem_of_cons; auto.
Qed.

Lemma write_file_pre p c (s s' : World) u :
  Os.write_file p c s = (Ok u, s') → fs s !! p ≠ Some Dir.
Proof.
  unfold Os.write_file. run_simpl. by destruct (fs s !! p) as [[|]|].
Qed.

(** A regular file stays one while directories are created, files are
    written and archives are fetched. *)
Section stays_file.
Context (p : string).
Let I (s : World) : Prop := FS.is_file (fs s !! p) = true.

Lemma file_ensure_dirs dirs : keeps I (Os.ensure_dirs dirs).
Proof.
  intros s u s' Hs [Hb ->]%ensure_dirs_Ok. unfold I in *. cbn [fs].
  rewrite lookup_mkdir_ops. case_decide as Hin; [|done].
  by rewrite (blocked_None _ _ _ Hb Hin) in Hs.
Qed.

Lemma file_makedirs d : keeps I (Os.makedirs d).
Proof.
  intros s u s' Hs (Hd & Hb & ->)%makedirs_Ok. unfold I in *. cbn [fs].
  rewrite lookup_insert_ne by (intros ->; by rewrite Hd in Hs).
  rewrite lookup_mkdir_ops. case_decide as Hin; [|done].
  by rewrite (blocked_None _ _ _ Hb Hin) in Hs.
Qed.

Lemma file_write_file q c : keeps I (Os.write_file q c).
Proof.
  intros s u s' Hs ->%write_file_Ok. unfold I in *. cbn [fs].
  destruct (decide (p = q)) as [->|Hne]; [by rewrite lookup_insert_eq|].
  by rewrite lookup_insert_ne.
Qed.

Lemma file_fetch T url : keeps I (Download.fetch T url).
Proof.
  intros s u s' Hs (_ & Hfs & _)%fetch_Ok. unfold I in *. by rewrite Hfs.
Qed.
End stays_file.

(** And so does a directory. *)
Section stays_dir.
Context (d : string).
Let I (s : World) : Prop := fs s !! d = Some Dir.

Lemma dir_write_file q c : keeps I (Os.write_file q c).
Proof.
  intros s u s' Hs Hrun. pose proof (write_file_pre _ _ _ _ _ Hrun) as Hq.
  apply write_file_Ok in Hrun as ->. unfold I in *. cbn [fs].
  rewrite lookup_insert_ne; [done|]. intros ->. by rewrite Hs in Hq.
Qed.

Lemma dir_fetch T url : keeps I (Download.fetch T url).
Proof.
  intros s u s' Hs (_ & Hfs & _)%fetch_Ok. unfold I in *. by rewrite Hfs.
Qed.
End stays_dir.

Ltac stays_step :=
  first
    [ simple apply keeps_ret | simple apply keeps_raise | simple apply keeps_lift
    | simple apply file_ensure_dirs | simple apply file_makedirs
    | simple apply file_write_file | simple apply file_fetch
    | simple apply dir_write_file | simple apply dir_fetch
    | simple apply keeps_for_each; intros ? ? ?
    | simple apply keeps_bind; [|intros ?] ].

Ltac stays_walk :=
  repeat first
    [ stays_step
    | progress cbv zeta
    | progress unfold Wrapper._extract_zip_to, Download.download_and_extract_zip,
        Download.extract_member, Download.extract_file,
        Wrapper._write_init_py, Wrapper._write_pkgcfg_py
    | case_step ].

(** After a loop that returned, what each round established and every
    round keeps holds for every element. *)
Lemma for_each_post {A} (Q : A → World → Prop) (body : unit → A → M unit)
    (l : list A) (s s' : World) u :
  (∀ x (s s' : World) u, body () x s = (Ok u, s') → Q x s') →
  (∀ x y, keeps (Q x) (body () y)) →
  for_each l body () s = (Ok u, s') → ∀ x, x ∈ l → Q x s'.
Proof.
  intros Hest Hkeep. revert s. induction l as [|y l IH]; intros s Hrun x Hx.
  { by apply elem_of_nil in Hx. }
  rewrite for_each_cons in Hrun. apply bind_Ok in Hrun as ([] & s1 & Hy & Hrun).
  apply elem_of_cons in Hx as [->|Hx]; [|by eapply IH].
  apply (keeps_run (Q y)) in Hrun; [done| |by eapply Hest].
  apply keeps_for_each. intros z [] _. apply Hkeep.
Qed.

(** *** The dict of members to extract *)

Lemma dict_set_new k v d : (k, v) ∈ dict_set k v d.
Proof.
  induction d as [|[k' v'] d IH]; simpl; [by left|].
  case_bool_decide; [by left|by right].
Qed.

Lemma dict_set_other k v d (kv : string * string) :
  kv ∈ d → kv.1 ≠ k → kv ∈ dict_set k v d.
Proof.
  induction d as [|[k' v'] d IH]; simpl; [by intros ?%elem_of_nil|].
  intros [->|Hin]%elem_of_cons Hne.
  - rewrite bool_decide_eq_false_2 by done. by left.
  - case_bool_decide; right; auto.
Qed.

Lemma dict_set_sub k v d (kv : string * string) :
  kv ∈ dict_set k v d → kv = (k, v) ∨ kv ∈ d.
Proof.
  induction d as [|[k' v'] d IH]; simpl.
  - intros ->%list_elem_of_singleton. by left.
  - case_bool_decide.
    + intros [->|Hin]%elem_of_cons; [by left|right; by right].
    + intros [->|Hin]%elem_of_cons; [right; by left|].
      destruct (IH Hin) as [->|?]; [by left|right; by right].
Qed.

(** A pair ends up in the dict when no other pair has its key. *)
Lemma dict_of_elem kvs (kv : string * string) :
  (∀ kv', kv' ∈ kvs → kv'.1 = kv.1 → kv' = kv) → kv ∈ kvs → kv ∈ dict_of kvs.
Proof.
  unfold dict_of. intros Hfun Hin.
  assert (∀ d, kv ∈ d ∨ kv ∈ kvs →
            kv ∈ foldl (λ d kv, dict_set kv.1 kv.2 d) d kvs) as Hgen.
  { clear Hin. induction kvs as [|kv0 kvs IH]; intros d.
    - intros [?|?%elem_of_nil]; done.
    - intros Hor. cbn [foldl]. apply IH.
      { intros kv' Hkv'. apply Hfun. by right. }
      assert (kv0.1 = kv.1 → kv0 = kv) as H0 by (apply Hfun; by left).
      destruct (decide (kv0.1 = kv.1)) as [Heq|Hne].
      + left. rewrite <-(H0 Heq). destruct kv0. apply dict_set_new.
      + destruct Hor as [Hd|[->|Hk]%elem_of_cons]; [|done|by right].
        left. apply dict_set_other; [done|congruence]. }
  apply Hgen. by right.
Qed.

(** Every pair of the dict is one of the pairs it was built from. *)
Lemma dict_of_sub kvs (kv : string * string) : kv ∈ dict_of kvs → kv ∈ kvs.
Proof.
  unfold dict_of.
  assert (∀ d, kv ∈ foldl (λ d kv, dict_set kv.1 kv.2 d) d kvs →
            kv ∈ d ∨ kv ∈ kvs) as Hgen.
  { induction kvs as [|kv0 kvs IH]; intros d; cbn [foldl]; [by left|].
    intros [[Heq|?]%dict_set_sub|?]%IH.
    - right. rewrite Heq. destruct kv0. by left.
    - by left.
    - right. by right. }
  intros [?%elem_of_nil|?]%Hgen; done.
Qed.

Lemma join2_inj_relative base a b :
  relative_name a → relative_name b →
  Path.join2 base a = Path.join2 base b → a = b.
Proof.
  unfold relative_name, Path.join2, Path.sep. intros -> ->.
  destruct (_ || _); intros H; repeat apply str_app_inj_l in H; done.
Qed.

(** A download step that returned went through its five phases. *)
Lemma on_build_dl_phases T self cache_dir (s s' : World) u :
  Wrapper.on_build_dl T self cache_dir s = (Ok u, s') →
  ∃ s1 s2 s3 s4 : World,
    Wrapper._extract_zip_to T self "headers" (ToDir (include_dir self))
      cache_dir (cleaned self s) = (Ok (), s1)
    ∧ Os.makedirs (lib_dir self) s1 = (Ok (), s2)
    ∧ Wrapper._extract_zip_to T self
        (Platform.os (Wrapper.platform self)
           +:+ Platform.arch (Wrapper.platform self))
        (ToMap (dict_of ((λ libname,
                   (lib_member self libname,
                    Path.join (lib_dir self) [libname]))
                  <$> lib_file_names self))) cache_dir s2 = (Ok (), s3)
    ∧ Wrapper._write_init_py self (init_py self) (lib_file_names self) s3
      = (Ok (), s4)
    ∧ Wrapper._write_pkgcfg_py T self (pkgcfg_py self) s4 = (Ok u, s').
Proof.
  rewrite on_build_dl_cleans. intros Hrun.
  apply bind_Ok in Hrun as ([] & s1 & H1 & Hrun).
  apply bind_Ok in Hrun as ([] & s2 & H2 & Hrun).
  apply bind_Ok in Hrun as ([] & s3 & H3 & Hrun).
  apply bind_Ok in Hrun as ([] & s4 & H4 & Hrun).
  by exists s1, s2, s3, s4.
Qed.

Lemma lib_member_inj self a b :
  relative_name a → relative_name b →
  lib_member self a = lib_member self b → a = b.
Proof. unfold lib_member, Path.join. cbn [foldl]. apply join2_inj_relative. Qed.

Lemma init_py_ne_pkgcfg_py self : pkgcfg_py self ≠ init_py self.
Proof.
  unfold init_py, pkgcfg_py, Path.join. cbn [foldl].
  by intros ?%join2_inj_relative.
Qed.

Lemma extract_dir_files T url dst cache_dir (s s' : World) u :
  Download.download_and_extract_zip T url (ToDir dst) cache_dir s = (Ok u, s') →
  ∃ a, archive_at T s url = Some a
       ∧ ∀ m, m ∈ a → FS.is_file (fs s' !! (dst +:+ Path.sep +:+ m.1)) = true.
Proof.
  unfold Download.download_and_extract_zip.
  intros (a & s1 & (Ha & _)%fetch_Ok & Hloop)%bind_Ok.
  exists a. split; [done|].
  apply (for_each_post
           (λ m s, FS.is_file (fs s !! (dst +:+ Path.sep +:+ m.1)) = true)
           (λ _ member, Download.extract_member dst member) a s1 s' u);
    [| |exact Hloop].
  - intros m r r' v. unfold Download.extract_member. cbv zeta.
    intros (? & r1 & _ & ->%write_file_Ok)%bind_Ok. cbn [fs].
    by rewrite lookup_insert_eq.
  - intros m m'. unfold Download.extract_member. stays_walk.
Qed.

Lemma extract_map_files T url to cache_dir (s s' : World) u :
  Download.download_and_extract_zip T url (ToMap to) cache_dir s = (Ok u, s') →
  ∃ a, archive_at T s url = Some a
       ∧ ∀ entry, entry ∈ to →
           is_Some (dict_get entry.1 a)
           ∧ FS.is_file (fs s' !! entry.2) = true.
Proof.
  unfold Download.download_and_extract_zip.
  intros (a & s1 & (Ha & _)%fetch_Ok & Hloop)%bind_Ok.
  exists a. split; [done|].
  apply (for_each_post
           (λ entry s, is_Some (dict_get entry.1 a)
                       ∧ FS.is_file (fs s !! entry.2) = true)
           (λ _ entry, Download.extract_file url a entry) to s1 s' u);
    [| |exact Hloop].
  - intros m r r' v. unfold Download.extract_file.
    destruct (dict_get m.1 a) as [c|]; [|done].
    intros ->%write_file_Ok. cbn [fs]. by rewrite lookup_insert_eq.
  - intros m m' r v r' [Hsome Hfile] Hrun. split; [done|].
    apply (keeps_run (λ s, FS.is_file (fs s !! m.2) = true) _ _ _ _ Hrun);
      [|done].
    unfold Download.extract_file. stays_walk.
Qed.

Lemma lib_entry_in_dict self n :
  Forall relative_name (lib_file_names self) → n ∈ lib_file_names self →
  (lib_member self n, Path.join (lib_dir self) [n])
  ∈ dict_of ((λ libname,
               (lib_member self libname, Path.join (lib_dir self) [libname]))
              <$> lib_file_names self).
Proof.
  intros Hrel Hn. apply dict_of_elem.
  - intros kv' (n' & -> & Hn')%list_elem_of_fmap Heq. cbn [fst] in Heq.
    apply lib_member_inj in Heq as ->; [done|..];
      by eapply Forall_forall in Hrel.
  - by apply (list_elem_of_fmap_2
                (λ libname,
                   (lib_member self libname, Path.join (lib_dir self) [libname]))).
Qed.

Lemma arch_eq_run T {A} (m : M A) (s s' : World) a :
  replayable T m → m s = (Ok a, s') → arch_eq T s s'.
Proof. intros Hm Hrun. by destruct (Hm _ _ _ Hrun). Qed.

(** X17. After a download step that returned, for a package whose library
    file names are relative: the lib directory is a directory; the
    platform archive holds the member of every library file, and each is a
    regular file in the lib directory; every member of the headers archive
    is a regular file at its place under the include directory; and the
    two descriptor files are regular files. *)
Theorem on_build_dl_installs (T : Tools.t) (self : Wrapper.t)
    (cache_dir : string) (s s' : World) (u : unit) :
  Forall relative_name (lib_file_names self) →
  Wrapper.on_build_dl T self cache_dir s = (Ok u, s') →
  fs s' !! lib_dir self = Some Dir
  ∧ (∃ b, archive_at T s (platform_url self) = Some b
          ∧ ∀ n, n ∈ lib_file_names self →
              is_Some (dict_get (lib_member self n) b)
              ∧ FS.is_file (fs s' !! Path.join (lib_dir self) [n]) = true)
  ∧ (∃ a, archive_at T s (headers_url self) = Some a
          ∧ ∀ m, m ∈ a →
              FS.is_file (fs s' !! (include_dir self +:+ "/" +:+ m.1)) = true)
  ∧ FS.is_file (fs s' !! init_py self) = true
  ∧ FS.is_file (fs s' !! pkgcfg_py self) = true.
Proof.
  intros Hrel (s1 & s2 & s3 & s4 & H1 & H2 & H3 & H4 & H5)%on_build_dl_phases.
  assert (∀ p, FS.is_file (fs s3 !! p) = true → FS.is_file (fs s' !! p) = true)
    as Hlate.
  { intros p Hp.
    eapply (keeps_run (λ s, FS.is_file (fs s !! p) = true)); [exact H5| |].
    { stays_walk. }
    eapply (keeps_run (λ s, FS.is_file (fs s !! p) = true)); [exact H4| |done].
    stays_walk. }
  split_and!.
  - pose proof H2 as (_ & _ & Hs2)%makedirs_Ok.
    eapply (keeps_run (λ s, fs s !! lib_dir self = Some Dir)); [exact H5| |].
    { stays_walk. }
    eapply (keeps_run (λ s, fs s !! lib_dir self = Some Dir)); [exact H4| |].
    { stays_walk. }
    eapply (keeps_run (λ s, fs s !! lib_dir self = Some Dir)); [exact H3| |].
    { stays_walk. }
    rewrite Hs2. cbn [fs]. apply lookup_insert_eq.
  - pose proof (extract_map_files T _ _ cache_dir _ _ _ H3)
      as (b & Hb & Hfiles).
    exists b. split.
    + rewrite <-Hb. fold (platform_url self).
      transitivity (archive_at T s1 (platform_url self)).
      * transitivity (archive_at T (cleaned self s) (platform_url self));
          [done|].
        apply (arch_eq_run T
                 (Wrapper._extract_zip_to T self "headers"
                    (ToDir (include_dir self)) cache_dir) _ _ _
                 ltac:(unfold Wrapper._extract_zip_to; replay) H1).
      * apply (arch_eq_run T _ _ _ _ (replayable_makedirs T _) H2).
    + intros n Hn.
      destruct (Hfiles _ (lib_entry_in_dict self n Hrel Hn)) as [Hsome Hfile].
      split; [done|]. by apply Hlate.
  - pose proof (extract_dir_files T _ _ cache_dir _ _ _ H1)
      as (a & Ha & Hfiles).
    exists a. split; [done|]. intros m Hm. apply Hlate.
    eapply (keeps_run (λ s, FS.is_file (fs s !! _) = true)); [exact H3| |].
    { stays_walk. }
    eapply (keeps_run (λ s, FS.is_file (fs s !! _) = true)); [exact H2| |].
    { stays_walk. }
    by apply Hfiles.
  - eapply (keeps_run (λ s, FS.is_file (fs s !! _) = true)); [exact H5| |].
    { stays_walk. }
    unfold Wrapper._write_init_py in H4. cbv zeta in H4.
    apply bind_Ok in H4 as (? & ? & _ & ->%write_file_Ok). cbn [fs].
    by rewrite lookup_insert_eq.
  - unfold Wrapper._write_pkgcfg_py in H5. cbv zeta in H5.
    apply write_file_Ok in H5 as ->. cbn [fs]. by rewrite lookup_insert_eq.
Qed.

Lemma on_build_dl_installs_witness :
  fs (Wrapper.on_build_dl demo_tools wpiutil "cache" proj_world).2
    !! "/proj/wpiutil/lib" = Some Dir
  ∧ FS.is_file
      (fs (Wrapper.on_build_dl demo_tools wpiutil "cache" proj_world).2
         !! "/proj/wpiutil/lib/libwpiutil.so") = true
  ∧ FS.is_file
      (fs (Wrapper.on_build_dl demo_tools wpiutil "cache" proj_world).2
         !! "/proj/wpiutil/__init__.py") = true.
Proof.
  destruct (on_build_dl_installs demo_tools wpiutil "cache" proj_world
              (Wrapper.on_build_dl demo_tools wpiutil "cache" proj_world).2 ())
    as (Hdir & (b & _ & Hlibs) & _ & Hinit & _).
  - apply Forall_cons_2; [reflexivity | apply Forall_nil_2].
  - vm_compute. reflexivity.
  - split; [exact Hdir|]. split; [|exact Hinit].
    apply (Hlibs "libwpiutil.so"). apply list_elem_of_singleton. reflexivity.
Defined.

(** X18. After a download step that returned, for a package whose import
    name and package name are plain texts and whose library file names hold
    no number sign, the two descriptor files hold the generated texts:
    __init__.py imports the dependencies that have an import name and loads
    the library files of the platform in the configured order, and
    pkgcfg.py reports the import name, the include directories, the lib
    directory and the package name as the one library. *)
Theorem on_build_dl_descriptors (T : Tools.t) (self : Wrapper.t)
    (cache_dir : string) (s s' : World) (u : unit) :
  plain_text (Wrapper.import_name self) →
  plain_text (Config.name (Wrapper.cfg self)) →
  Forall (λ n, Str.lacks "#" n = true) (lib_file_names self) →
  Wrapper.on_build_dl T self cache_dir s = (Ok u, s') →
  ∃ pkgs,
    mapM (λ dep, Wrapper.pkgcfg self !! dep) (Config.depends (Wrapper.cfg self))
      = Some pkgs
    ∧ fs s' !! init_py self
      = Some (File (init_py_text (runtime_imports pkgs) (lib_file_names self)))
    ∧ fs s' !! pkgcfg_py self = Some (File (pkgcfg_py_text T self)).
Proof.
  intros HX HY Hlibs
    (s1 & s2 & s3 & s4 & _ & _ & _ & H4 & H5)%on_build_dl_phases.
  apply write_init_py_Ok in H4 as (pkgs & Hpkgs & ->); [|done].
  apply write_pkgcfg_py_Ok in H5 as ->; [|done..].
  exists pkgs. split; [done|]. cbn [fs]. split.
  - rewrite lookup_insert_ne by apply init_py_ne_pkgcfg_py.
    apply lookup_insert_eq.
  - apply lookup_insert_eq.
Qed.

Lemma on_build_dl_descriptors_witness :
  ∃ pkgs,
    mapM (λ dep, Wrapper.pkgcfg wpiutil !! dep)
      (Config.depends (Wrapper.cfg wpiutil)) = Some pkgs
    ∧ fs (Wrapper.on_build_dl demo_tools wpiutil "cache" proj_world).2
        !! init_py wpiutil
      = Some (File (init_py_text (runtime_imports pkgs)
                      (lib_file_names wpiutil)))
    ∧ fs (Wrapper.on_build_dl demo_tools wpiutil "cache" proj_world).2
        !! pkgcfg_py wpiutil
      = Some (File (pkgcfg_py_text demo_tools wpiutil)).
Proof.
  apply (on_build_dl_descriptors demo_tools wpiutil "cache" proj_world
           (Wrapper.on_build_dl demo_tools wpiutil "cache" proj_world).2 ()).
  - repeat split; reflexivity.
  - repeat split; reflexivity.
  - apply Forall_cons_2; [reflexivity | apply Forall_nil_2].
  - vm_compute. reflexivity.
Defined.
